(** * CarWash booking bot: slot availability, wash lifecycle, buffer notifier

    A shallow embedding of the scheduling core of [CarWashBerezivka.py]:
    [get_available_hours], [start_wash], [finish_wash],
    [notify_next_after_buffer] and [cmd_edit], together with the parts of
    the PostgreSQL tables they read and write. *)

From Stdlib Require Import ZArith List Bool String Ascii Sorted Lia.
Import ListNotations.
Open Scope Z_scope.

(** ** Exceptions and the error monad

    Python's [datetime] arithmetic raises [OverflowError] outside the years
    1..9999, and [int()] raises [ValueError]; both are threaded through the
    model as results. *)

Inductive exn : Type :=
| OverflowError
| ValueError.

Inductive res (A : Type) : Type :=
| Ok (a : A)
| Raise (e : exn).

Arguments Ok {A} a.
Arguments Raise {A} e.

Definition bind {A B : Type} (c : res A) (k : A -> res B) : res B :=
  match c with
  | Ok a => k a
  | Raise e => Raise e
  end.

Notation "'let!' x ':=' c 'in' k" := (bind c (fun x => k))
  (at level 10, x pattern, c at level 100, k at level 200).

Fixpoint mapM {A B : Type} (f : A -> res B) (l : list A) : res (list B) :=
  match l with
  | [] => Ok []
  | x :: r =>
      let! y := f x in
      let! ys := mapM f r in
      Ok (y :: ys)
  end.

(** ** Dates and times

    A [datetime] is the number of microseconds since 0001-01-01T00:00:00,
    a [timedelta] a signed number of microseconds, a [date] the number of
    days since 0001-01-01. *)

Module Time.

Definition datetime := Z.
Definition timedelta := Z.
Definition date := Z.

Definition US_PER_MINUTE : Z := 60000000.
Definition US_PER_HOUR : Z := 60 * US_PER_MINUTE.
Definition US_PER_DAY : Z := 24 * US_PER_HOUR.

(** [date.max.toordinal()]: the days 0001-01-01 .. 9999-12-31. *)
Definition MAX_DAYS : Z := 3652059.

Definition datetime_ok (t : Z) : bool :=
  (0 <=? t) && (t <? MAX_DAYS * US_PER_DAY).

Definition date_ok (d : Z) : bool :=
  (0 <=? d) && (d <? MAX_DAYS).

(** [timedelta.min] is -999999999 days, [timedelta.max] is just under
    1000000000 days. *)
Definition timedelta_ok (d : Z) : bool :=
  (-999999999 * US_PER_DAY <=? d) && (d <? 1000000000 * US_PER_DAY).

(** [timedelta(minutes=m)] and [timedelta(hours=h)] *)
Definition minutes (m : Z) : res timedelta :=
  let d := m * US_PER_MINUTE in
  if timedelta_ok d then Ok d else Raise OverflowError.

Definition hours (h : Z) : res timedelta :=
  let d := h * US_PER_HOUR in
  if timedelta_ok d then Ok d else Raise OverflowError.

(** [t + d] and [t - d] on a datetime and a timedelta *)
Definition add (t : datetime) (d : timedelta) : res datetime :=
  if datetime_ok (t + d) then Ok (t + d) else Raise OverflowError.

Definition sub (t : datetime) (d : timedelta) : res datetime :=
  if datetime_ok (t - d) then Ok (t - d) else Raise OverflowError.

(** [t.date()] *)
Definition date_of (t : datetime) : date := t / US_PER_DAY.

(** [datetime.combine(d, datetime.min.time())] *)
Definition day_start (d : date) : datetime := d * US_PER_DAY.

(** [datetime.combine(d, tod)], [tod] in microseconds since midnight *)
Definition combine (d : date) (tod : Z) : datetime := d * US_PER_DAY + tod.

(** [t.time()] *)
Definition time_of (t : datetime) : Z := t mod US_PER_DAY.

Definition digit (n : Z) : ascii := ascii_of_nat (48 + Z.to_nat n).

Definition two_digits (n : Z) : string :=
  String (digit (n / 10)) (String (digit (n mod 10)) EmptyString).

(** [t.strftime("%H:%M")] *)
Definition strftime_HM (t : datetime) : string :=
  (two_digits (time_of t / US_PER_HOUR) ++ ":" ++
   two_digits ((time_of t mod US_PER_HOUR) / US_PER_MINUTE))%string.

End Time.

(** ** Tables

    The columns of [programs] and [bookings] that the scheduling core reads
    or writes.  [status] is TEXT in the schema; the program only ever stores
    the three values below (the column default on insert, the two UPDATEs of
    the wash commands, and the validated candidate of the edit command).
    [booking_datetime] is always given on insert and on edit. *)

Inductive status : Type :=
| scheduled
| in_progress
| finished.

Definition status_eqb (a b : status) : bool :=
  match a, b with
  | scheduled, scheduled | in_progress, in_progress | finished, finished => true
  | _, _ => false
  end.

Record program : Type := mkProgram {
  p_id : Z;
  p_duration : Z
}.

Record booking : Type := mkBooking {
  bk_id : Z;
  bk_user_id : Z;
  bk_program_id : option Z;
  bk_car_number : string;
  booking_datetime : Time.datetime;
  bk_status : status;
  actual_start : option Time.datetime;
  actual_end : option Time.datetime
}.

Record db : Type := mkDb {
  programs : list program;
  admins : list Z;
  bookings : list booking
}.

(** Python's [x or y] on a nullable column: a datetime is always truthy,
    an integer is falsy when it is zero. *)
Definition or_dt (x : option Time.datetime) (y : Time.datetime) : Time.datetime :=
  match x with
  | Some t => t
  | None => y
  end.

Definition or_zero (x : option Z) : Z :=
  match x with
  | Some n => n
  | None => 0
  end.

(** ** get_available_hours *)

Definition BUFFER_MINUTES : Z := 1.
Definition WORK_START_HOUR : Z := 9.
Definition WORK_END_HOUR : Z := 21.

(** [SELECT duration FROM programs WHERE id=$1], first row *)
Definition fetch_duration (d : db) (program_id : Z) : option Z :=
  option_map p_duration (find (fun p => p_id p =? program_id) (programs d)).

(** A row of the query over [bookings b LEFT JOIN programs p]. *)
Record booked_row : Type := mkRow {
  bdt : Time.datetime;
  pdur : option Z;
  r_status : status;
  r_actual_start : option Time.datetime;
  r_actual_end : option Time.datetime
}.

Definition join_row (b : booking) (pd : option Z) : booked_row :=
  mkRow (booking_datetime b) pd (bk_status b) (actual_start b) (actual_end b).

(** [LEFT JOIN programs p ON p.id = b.program_id]: one row per matching
    program, one row with NULL [pdur] when there is none. *)
Definition left_join (ps : list program) (b : booking) : list booked_row :=
  match bk_program_id b with
  | None => [join_row b None]
  | Some pid =>
      match filter (fun p => p_id p =? pid) ps with
      | [] => [join_row b None]
      | m => map (fun p => join_row b (Some (p_duration p))) m
      end
  end.

(** [... WHERE b.booking_datetime::date = $1] *)
Definition fetch_booked (d : db) (booking_date : Time.date) : list booked_row :=
  filter (fun r => Time.date_of (bdt r) =? booking_date)
         (flat_map (left_join (programs d)) (bookings d)).

(** The occupied interval of a fetched row with the buffer around it
    (the body of the inner loop up to the overlap test). *)
Definition buffered_interval (rec : booked_row) : res (Time.datetime * Time.datetime) :=
  let! se :=
    match r_status rec with
    | in_progress | finished =>
        let b_start := or_dt (r_actual_start rec) (bdt rec) in
        let! b_end :=
          match r_actual_end rec with
          | Some e => Ok e
          | None =>
              let! td := Time.minutes (or_zero (pdur rec)) in
              Time.add b_start td
          end in
        Ok (b_start, b_end)
    | scheduled =>
        let b_start := bdt rec in
        let! td := Time.minutes (or_zero (pdur rec)) in
        let! b_end := Time.add b_start td in
        Ok (b_start, b_end)
    end in
  let! buf := Time.minutes BUFFER_MINUTES in
  let! b_start := Time.sub (fst se) buf in
  let! buf' := Time.minutes BUFFER_MINUTES in
  let! b_end := Time.add (snd se) buf' in
  Ok (b_start, b_end).

(** The overlap test of the inner loop for one row:
    [not (end <= b_start or start >= b_end)]. *)
Definition overlaps (start end_ : Time.datetime) (rec : booked_row) : res bool :=
  let! i := buffered_interval rec in
  Ok (negb ((end_ <=? fst i) || (start >=? snd i))).

(** The inner loop: [conflict] after the loop over [booked], leaving at the
    first overlapping row. *)
Fixpoint conflict_loop (start end_ : Time.datetime) (booked : list booked_row) : res bool :=
  match booked with
  | [] => Ok false
  | rec :: rest =>
      let! c := overlaps start end_ rec in
      if c then Ok true else conflict_loop start end_ rest
  end.

(** The outer loop over the candidate starts.  The source appends
    [start.strftime("%H:%M")] for every kept start; the model collects the
    kept starts and formats them afterwards. *)
Fixpoint candidate_loop (min_allowed_start work_end : Time.datetime) (duration : Z)
    (booked : list booked_row) (candidate_starts : list Time.datetime)
  : res (list Time.datetime) :=
  match candidate_starts with
  | [] => Ok []
  | start :: rest =>
      if start <? min_allowed_start then
        candidate_loop min_allowed_start work_end duration booked rest
      else
        let! td := Time.minutes duration in
        let! end_ := Time.add start td in
        if end_ >? work_end then
          candidate_loop min_allowed_start work_end duration booked rest
        else
          let! conflict := conflict_loop start end_ booked in
          let! available :=
            candidate_loop min_allowed_start work_end duration booked rest in
          Ok (if conflict then available else start :: available)
  end.

(** [range(WORK_START_HOUR, WORK_END_HOUR)] *)
Definition hour_range : list Z :=
  map Z.of_nat (seq (Z.to_nat WORK_START_HOUR) (Z.to_nat (WORK_END_HOUR - WORK_START_HOUR))).

Definition plus_hours (t : Time.datetime) (h : Z) : res Time.datetime :=
  let! td := Time.hours h in Time.add t td.

(** [min_allowed_start] for a booking date and the clock reading [now] *)
Definition min_allowed (work_start : Time.datetime) (booking_date : Time.date)
    (now : Time.datetime) : res Time.datetime :=
  if booking_date =? Time.date_of now then
    let! td := Time.minutes BUFFER_MINUTES in
    let! t := Time.add now td in
    Ok (Z.max work_start t)
  else Ok work_start.

(** The kept starts of [get_available_hours] as datetimes; a program that
    is not in the catalog takes the early [return []]. *)
Definition available_starts (d : db) (program_id : Z) (booking_date : Time.date)
    (now : Time.datetime) : res (list Time.datetime) :=
  match fetch_duration d program_id with
  | None => Ok []
  | Some duration =>
      let day_start := Time.day_start booking_date in
      let! work_start := plus_hours day_start WORK_START_HOUR in
      let! work_end := plus_hours day_start WORK_END_HOUR in
      let! min_allowed_start := min_allowed work_start booking_date now in
      let! candidate_starts := mapM (plus_hours day_start) hour_range in
      let booked := fetch_booked d booking_date in
      candidate_loop min_allowed_start work_end duration booked candidate_starts
  end.

Definition get_available_hours (d : db) (program_id : Z) (booking_date : Time.date)
    (now : Time.datetime) : res (list string) :=
  let! starts := available_starts d program_id booking_date now in
  Ok (map Time.strftime_HM starts).

(** ** Messages

    The texts of the bot are presentation; the model keeps which message is
    sent, to whom, and the data it carries. *)

Inductive notice : Type :=
| EarlyArrival (booking_id : Z) (car_number : string)
| OrderChanged (booking_id : Z) (new_dt : option Time.datetime) (new_status : option status).

Inductive reply : Type :=
| NoRights
| UsageStartWash
| UsageFinishWash
| NoSuchBooking
| AlreadyStarted
| AlreadyFinished
| WashStarted (booking_id : Z)
| WashFinished (booking_id : Z)
| EditUsage
| EditNotFound (booking_id : Z)
| EditMissingStatus
| EditInvalidStatus
| EditUnknownParam
| EditNothingChanged
| EditDone (booking_id : Z) (new_dt : option Time.datetime) (new_status : option status)
| EditError.

(** [Answer]: [message.answer], a reply to the sender of the command.
    [SendNotify]: [send_notify(user_id, text)], a message to a customer
    (a delivery failure is printed and swallowed there).
    [CreateTask]: [asyncio.create_task(delayed_notify())], a [send_notify]
    deferred by [delay] microseconds (the source passes the same span to
    [asyncio.sleep] as a float number of seconds). *)
Inductive event : Type :=
| Answer (r : reply)
| SendNotify (user_id : Z) (n : notice)
| CreateTask (delay : Z) (user_id : Z) (n : notice).

(** What a command handler leaves behind: the tables, the messages in the
    order they were issued, and the exception it ended with, if any. *)
Record outcome : Type := mkOutcome {
  o_db : db;
  o_events : list event;
  o_raised : option exn
}.

(** ** is_admin *)

Definition MAIN_ADMIN_ID : Z := 863294823.

Definition is_admin (d : db) (user_id : Z) : bool :=
  if user_id =? MAIN_ADMIN_ID then true
  else existsb (fun a => a =? user_id) (admins d).

(** [SELECT ... FROM bookings WHERE id=$1], first row *)
Definition fetch_booking (d : db) (booking_id : Z) : option booking :=
  find (fun b => bk_id b =? booking_id) (bookings d).

(** [UPDATE bookings SET ... WHERE id=$1] *)
Definition update_bookings (f : booking -> booking) (booking_id : Z) (d : db) : db :=
  mkDb (programs d) (admins d)
       (map (fun b => if bk_id b =? booking_id then f b else b) (bookings d)).

(** ** notify_next_after_buffer *)

(** [ORDER BY b.booking_datetime ASC, b.id ASC] *)
Definition order_le (a b : booking) : bool :=
  (booking_datetime a <? booking_datetime b)
  || ((booking_datetime a =? booking_datetime b) && (bk_id a <=? bk_id b)).

(** [LIMIT 1] of an ordered query: the least row of the list. *)
Fixpoint first_row (l : list booking) : option booking :=
  match l with
  | [] => None
  | x :: r =>
      match first_row r with
      | None => Some x
      | Some y => if order_le x y then Some x else Some y
      end
  end.

(** [WHERE b.status='scheduled' AND b.booking_datetime > $1] *)
Definition scheduled_after (t : Time.datetime) (b : booking) : bool :=
  status_eqb (bk_status b) scheduled && (booking_datetime b >? t).

Definition select_next (d : db) (t : Time.datetime) : option booking :=
  first_row (filter (scheduled_after t) (bookings d)).

Definition notify_next_after_buffer (d : db) (finished_booking_id : Z)
    (now : Time.datetime) : res (list event) :=
  match fetch_booking d finished_booking_id with
  | None => Ok []
  | Some finished_booking =>
      match select_next d (booking_datetime finished_booking) with
      | None => Ok []
      | Some next_booking =>
          if negb (Time.date_of (booking_datetime next_booking)
                   =? Time.date_of (booking_datetime finished_booking))
          then Ok []
          else
            let! td := Time.minutes BUFFER_MINUTES in
            let! notify_time := Time.add (booking_datetime finished_booking) td in
            let delay := Z.max (notify_time - now) 0 in
            Ok [CreateTask delay (bk_user_id next_booking)
                  (EarlyArrival (bk_id next_booking) (bk_car_number next_booking))]
      end
  end.

(** ** start_wash and finish_wash

    The command text after [split()]: [BadUsage] when it does not have
    exactly two parts or the second is not [isdigit()], [NotAnInt] when
    [isdigit()] holds and [int()] still raises, [IdArg n] otherwise. *)

Inductive id_arg : Type :=
| BadUsage
| NotAnInt
| IdArg (booking_id : Z).

Definition set_started (now : Time.datetime) (b : booking) : booking :=
  mkBooking (bk_id b) (bk_user_id b) (bk_program_id b) (bk_car_number b)
            (booking_datetime b) in_progress (Some now) (actual_end b).

Definition set_finished (now : Time.datetime) (b : booking) : booking :=
  mkBooking (bk_id b) (bk_user_id b) (bk_program_id b) (bk_car_number b)
            (booking_datetime b) finished
            (Some (or_dt (actual_start b) now)) (Some now).

(** [now] is the database clock [NOW()] of the UPDATE. *)
Definition start_wash (d : db) (from_user : Z) (arg : id_arg)
    (now : Time.datetime) : outcome :=
  if negb (is_admin d from_user) then mkOutcome d [Answer NoRights] None
  else
    match arg with
    | BadUsage => mkOutcome d [Answer UsageStartWash] None
    | NotAnInt => mkOutcome d [] (Some ValueError)
    | IdArg booking_id =>
        match fetch_booking d booking_id with
        | None => mkOutcome d [Answer NoSuchBooking] None
        | Some row =>
            match bk_status row with
            | in_progress => mkOutcome d [Answer AlreadyStarted] None
            | finished => mkOutcome d [Answer AlreadyFinished] None
            | scheduled =>
                mkOutcome (update_bookings (set_started now) booking_id d)
                          [Answer (WashStarted booking_id)] None
            end
        end
    end.

(** [now] is the database clock of the UPDATE, [now'] the later reading of
    [datetime.now()] inside [notify_next_after_buffer]. *)
Definition finish_wash (d : db) (from_user : Z) (arg : id_arg)
    (now now' : Time.datetime) : outcome :=
  if negb (is_admin d from_user) then mkOutcome d [Answer NoRights] None
  else
    match arg with
    | BadUsage => mkOutcome d [Answer UsageFinishWash] None
    | NotAnInt => mkOutcome d [] (Some ValueError)
    | IdArg booking_id =>
        match fetch_booking d booking_id with
        | None => mkOutcome d [Answer NoSuchBooking] None
        | Some row =>
            match bk_status row with
            | finished => mkOutcome d [Answer AlreadyFinished] None
            | _ =>
                let d' := update_bookings (set_finished now) booking_id d in
                match notify_next_after_buffer d' booking_id now' with
                | Ok evs => mkOutcome d' (Answer (WashFinished booking_id) :: evs) None
                | Raise e => mkOutcome d' [Answer (WashFinished booking_id)] (Some e)
                end
            end
        end
    end.

(** ** cmd_edit

    The parts of the command after the id, classified the way the parsing
    loop tries them: the word [status], a [dd.mm.yyyy] date, an [HH:MM]
    time of day (in microseconds since midnight), one of the three status
    names, anything else. *)

Inductive tok : Type :=
| TStatusKw
| TDate (d : Time.date)
| TTime (tod : Z)
| TStatusName (s : status)
| TOther.

Inductive edit_cmd : Type :=
| EditTooShort
| EditBadId
| EditArgs (booking_id : Z) (parts : list tok).

Record edit_fields : Type := mkFields {
  new_date : option Time.date;
  new_time : option Z;
  new_status : option status
}.

Fixpoint parse_edit (parts : list tok) (acc : edit_fields) : reply + edit_fields :=
  match parts with
  | [] => inr acc
  | TStatusKw :: [] => inl EditMissingStatus
  | TStatusKw :: TStatusName s :: rest =>
      parse_edit rest (mkFields (new_date acc) (new_time acc) (Some s))
  | TStatusKw :: _ :: _ => inl EditInvalidStatus
  | TDate dt :: rest =>
      parse_edit rest (mkFields (Some dt) (new_time acc) (new_status acc))
  | TTime tod :: rest =>
      parse_edit rest (mkFields (new_date acc) (Some tod) (new_status acc))
  | _ :: _ => inl EditUnknownParam
  end.

(** [updated_dt], when a date or a time was given *)
Definition updated_dt (current_dt : Time.datetime) (f : edit_fields) : option Time.datetime :=
  match new_date f, new_time f with
  | Some nd, Some nt => Some (Time.combine nd nt)
  | Some nd, None => Some (Time.combine nd (Time.time_of current_dt))
  | None, Some nt => Some (Time.combine (Time.date_of current_dt) nt)
  | None, None => None
  end.

Definition set_edited (dt : option Time.datetime) (st : option status) (b : booking) : booking :=
  mkBooking (bk_id b) (bk_user_id b) (bk_program_id b) (bk_car_number b)
            (match dt with Some t => t | None => booking_datetime b end)
            (match st with Some s => s | None => bk_status b end)
            (actual_start b) (actual_end b).

Definition cmd_edit (d : db) (cmd : edit_cmd) : outcome :=
  match cmd with
  | EditTooShort => mkOutcome d [Answer EditUsage] None
  | EditBadId => mkOutcome d [Answer EditError] None
  | EditArgs booking_id parts =>
      match fetch_booking d booking_id with
      | None => mkOutcome d [Answer (EditNotFound booking_id)] None
      | Some booking =>
          match parse_edit parts (mkFields None None None) with
          | inl r => mkOutcome d [Answer r] None
          | inr f =>
              let dt := updated_dt (booking_datetime booking) f in
              match dt, new_status f with
              | None, None => mkOutcome d [Answer EditNothingChanged] None
              | _, _ =>
                  let d' := update_bookings (set_edited dt (new_status f)) booking_id d in
                  let notify :=
                    match fetch_booking d' booking_id with
                    | Some b' => [SendNotify (bk_user_id b')
                                    (OrderChanged booking_id dt (new_status f))]
                    | None => []
                    end in
                  mkOutcome d'
                    (notify ++ [Answer (EditDone booking_id dt (new_status f))]) None
              end
          end
      end
  end.

(** ** The conflict rule in the words of the design

    The effective interval of a booking and the buffer-expanded overlap
    rule, on plain integers; the theorems below compare the code with it. *)

Module Spec.

Definition duration_us (r : booked_row) : Z := or_zero (pdur r) * Time.US_PER_MINUTE.

Definition eff_start (r : booked_row) : Z :=
  match r_status r with
  | scheduled => bdt r
  | in_progress | finished =>
      match r_actual_start r with
      | Some t => t
      | None => bdt r
      end
  end.

Definition eff_end (r : booked_row) : Z :=
  match r_status r with
  | scheduled => bdt r + duration_us r
  | in_progress | finished =>
      match r_actual_end r with
      | Some t => t
      | None => eff_start r + duration_us r
      end
  end.

Definition conflicts (candidateStart candidateEnd : Z) (r : booked_row) (buffer : Z) : Prop :=
  ~ (candidateEnd <= eff_start r - buffer \/ candidateStart >= eff_end r + buffer).

Definition conflictsb (candidateStart candidateEnd : Z) (r : booked_row) (buffer : Z) : bool :=
  negb ((candidateEnd <=? eff_start r - buffer) || (candidateStart >=? eff_end r + buffer)).

End Spec.

Definition BUFFER_US : Z := BUFFER_MINUTES * Time.US_PER_MINUTE.

(** Every datetime the overlap test computes for a row is representable. *)
Definition row_in_range (r : booked_row) : Prop :=
  Time.timedelta_ok (Spec.duration_us r) = true
  /\ Time.datetime_ok (Spec.eff_end r) = true
  /\ Time.datetime_ok (Spec.eff_start r - BUFFER_US) = true
  /\ Time.datetime_ok (Spec.eff_end r + BUFFER_US) = true.

(** The filter the outer loop computes when nothing overflows. *)
Definition keeps (min_allowed_start work_end : Z) (duration : Z)
    (booked : list booked_row) (start : Z) : bool :=
  (min_allowed_start <=? start)
  && (start + duration * Time.US_PER_MINUTE <=? work_end)
  && forallb (fun r => negb (Spec.conflictsb start (start + duration * Time.US_PER_MINUTE)
                                             r BUFFER_US)) booked.

Definition hour_start (booking_date : Time.date) (h : Z) : Z :=
  Time.day_start booking_date + h * Time.US_PER_HOUR.

Definition hour_label (h : Z) : string :=
  (Time.two_digits h ++ ":00")%string.

(** [min_allowed_start] on plain integers *)
Definition min_allowed_start (booking_date : Time.date) (now : Time.datetime) : Z :=
  if booking_date =? Time.date_of now
  then Z.max (hour_start booking_date WORK_START_HOUR) (now + BUFFER_US)
  else hour_start booking_date WORK_START_HOUR.

(** The starts [get_available_hours] keeps when nothing overflows. *)
Definition kept_starts (d : db) (duration : Z) (booking_date : Time.date)
    (now : Time.datetime) : list Z :=
  filter (keeps (min_allowed_start booking_date now)
                (hour_start booking_date WORK_END_HOUR) duration
                (fetch_booked d booking_date))
         (map (hour_start booking_date) hour_range).

(** Sufficient conditions for [get_available_hours] to return. *)
Definition request_in_range (d : db) (duration : Z) (booking_date : Time.date)
    (now : Time.datetime) : Prop :=
  Time.date_ok booking_date = true
  /\ (booking_date = Time.date_of now -> Time.datetime_ok (now + BUFFER_US) = true)
  /\ Time.timedelta_ok (duration * Time.US_PER_MINUTE) = true
  /\ (forall h, WORK_START_HOUR <= h < WORK_END_HOUR ->
        Time.datetime_ok (hour_start booking_date h + duration * Time.US_PER_MINUTE) = true)
  /\ Forall row_in_range (fetch_booked d booking_date).

(** ** Predicates of the statements *)

(** The hours whose starts [get_available_hours] keeps. *)
Definition kept_hours (d : db) (duration : Z) (booking_date : Time.date)
    (now : Time.datetime) : list Z :=
  filter (fun h => keeps (min_allowed_start booking_date now)
                         (hour_start booking_date WORK_END_HOUR) duration
                         (fetch_booked d booking_date)
                         (hour_start booking_date h))
         hour_range.

(** The data-model invariant of a booking: a set [actual_end] needs status
    finished, a set [actual_start] needs in_progress or finished. *)
Definition status_fits (s : status) (b : booking) : Prop :=
  (actual_end b <> None -> s = finished)
  /\ (actual_start b <> None -> s = in_progress \/ s = finished).

Definition booking_inv (b : booking) : Prop := status_fits (bk_status b) b.

Definition db_inv (d : db) : Prop := forall b, In b (bookings d) -> booking_inv b.

Definition booking_invb (b : booking) : bool :=
  match actual_end b, bk_status b with
  | Some _, scheduled | Some _, in_progress => false
  | _, _ =>
      match actual_start b, bk_status b with
      | Some _, scheduled => false
      | _, _ => true
      end
  end.

(** [id SERIAL PRIMARY KEY] *)
Definition primary_key (d : db) : Prop := NoDup (map bk_id (bookings d)).

(** Whom an event sends a message to, apart from the reply to the sender
    of the command. *)
Definition recipient (e : event) : option Z :=
  match e with
  | Answer _ => None
  | SendNotify u _ => Some u
  | CreateTask _ u _ => Some u
  end.

Definition notified (user_id : Z) (evs : list event) : Prop :=
  In (Some user_id) (map recipient evs).

(** A scheduled booking later than [f] on the calendar date of [f]. *)
Definition same_day_successor (d : db) (f n : booking) : Prop :=
  In n (bookings d)
  /\ bk_status n = scheduled
  /\ booking_datetime f < booking_datetime n
  /\ Time.date_of (booking_datetime n) = Time.date_of (booking_datetime f).

(** ** Example tables *)

Definition day0 : Time.date := 739000.

Definition t_start : Time.datetime := hour_start day0 10.
Definition t_restart : Time.datetime := hour_start day0 11.
Definition t_end : Time.datetime := hour_start day0 10 + 45 * Time.US_PER_MINUTE.

Definition c1_hours : list string :=
  ["12:00"; "13:00"; "14:00"; "15:00"; "16:00"; "17:00"; "18:00"; "19:00"; "20:00"]%string.

Definition all_hours : list string :=
  ["09:00"; "10:00"; "11:00"; "12:00"; "13:00"; "14:00";
   "15:00"; "16:00"; "17:00"; "18:00"; "19:00"; "20:00"]%string.

Definition db_c1 : db :=
  mkDb [mkProgram 1 60] []
       [mkBooking 7 100 (Some 1) "AA1234BB" (hour_start day0 10) scheduled None None].

Definition row_c1 : booked_row :=
  mkRow (hour_start day0 10) (Some 60) scheduled None None.

Definition db_zero : db := mkDb [mkProgram 1 0] [] [].

Definition db_negative : db := mkDb [mkProgram 1 (-30)] [] [].

(** A finished wash with both actual times stored. *)
Definition db_finished : db :=
  mkDb [mkProgram 1 60] []
       [mkBooking 7 100 (Some 1) "AA1234BB" (hour_start day0 10) finished
                  (Some t_start) (Some t_end)].

(** Bookings 8 and 9 share the start 11:00; booking 7 was finished at 10:45. *)
Definition db_queue : db :=
  mkDb [mkProgram 1 60] []
       [mkBooking 9 109 (Some 1) "CC9999CC" (hour_start day0 11) scheduled None None;
        mkBooking 7 100 (Some 1) "AA1234BB" (hour_start day0 10) finished
                  (Some t_start) (Some t_end);
        mkBooking 8 108 (Some 1) "BB8888BB" (hour_start day0 11) scheduled None None;
        mkBooking 6 106 (Some 1) "DD6666DD" (hour_start (day0 + 1) 9) scheduled None None].

Definition booking7 : booking :=
  mkBooking 7 100 (Some 1) "AA1234BB" (hour_start day0 10) finished
            (Some t_start) (Some t_end).

Definition booking8 : booking :=
  mkBooking 8 108 (Some 1) "BB8888BB" (hour_start day0 11) scheduled None None.

(** Booking 7 is being washed; bookings 8 and 9 wait for 11:00. *)
Definition db_running : db :=
  mkDb [mkProgram 1 60] []
       [mkBooking 9 109 (Some 1) "CC9999CC" (hour_start day0 11) scheduled None None;
        mkBooking 7 100 (Some 1) "AA1234BB" (hour_start day0 10) in_progress
                  (Some t_start) None;
        mkBooking 8 108 (Some 1) "BB8888BB" (hour_start day0 11) scheduled None None].

(** ** Results of the other command handlers

    [E] is the type of the messages a handler sends, [X] of the exception
    it can end with. *)

Record handled (E X : Type) : Type := mkHandled {
  h_db : db;
  h_events : list E;
  h_raised : option X
}.

Arguments mkHandled {E X} h_db h_events h_raised.
Arguments h_db {E X} h.
Arguments h_events {E X} h.
Arguments h_raised {E X} h.

(** ** delete_booking *)

Inductive delete_event : Type :=
| DelNoRights
| DelUsage
| DelNoSuchBooking
| DelDeleted (booking_id : Z)
| DelNotifyCancelled (user_id : Z) (car_number : string).

(** [DELETE FROM bookings WHERE id=$1] *)
Definition delete_rows (booking_id : Z) (d : db) : db :=
  mkDb (programs d) (admins d)
       (filter (fun b => negb (bk_id b =? booking_id)) (bookings d)).

(** [DelNotifyCancelled] is the [send_notify] to the customer of the
    deleted booking, the other events are replies to the sender. *)
Definition delete_booking (d : db) (from_user : Z) (arg : id_arg) : handled delete_event exn :=
  if negb (is_admin d from_user) then mkHandled d [DelNoRights] None
  else
    match arg with
    | BadUsage => mkHandled d [DelUsage] None
    | NotAnInt => mkHandled d [] (Some ValueError)
    | IdArg booking_id =>
        match fetch_booking d booking_id with
        | None => mkHandled d [DelNoSuchBooking] None
        | Some row =>
            mkHandled (delete_rows booking_id d)
                      [DelDeleted booking_id;
                       DelNotifyCancelled (bk_user_id row) (bk_car_number row)]
                      None
        end
    end.

(** ** add_admin and del_admin

    The command text after [split()]: [AdmBadUsage] when it does not have
    exactly two parts, [AdmNotNumber] when [int()] raises [ValueError],
    [AdmId n] otherwise.  [admins.user_id] is BIGINT: a number outside the
    64-bit range is refused by the database driver with [DataError]. *)

Inductive admin_arg : Type :=
| AdmBadUsage
| AdmNotNumber
| AdmId (user_id : Z).

Inductive admin_reply : Type :=
| OnlyMainAdmin
| AdmUsage
| AdmMustBeNumber
| AdmAdded (user_id : Z)
| AdmError
| AdmRemoved (user_id : Z).

Inductive driver_exn : Type :=
| DataError.

Definition int64_ok (n : Z) : bool :=
  (- 2 ^ 63 <=? n) && (n <? 2 ^ 63).

Definition int32_ok (n : Z) : bool :=
  (- 2 ^ 31 <=? n) && (n <? 2 ^ 31).

(** [INSERT INTO admins (user_id) VALUES ($1) ON CONFLICT (user_id) DO NOTHING] *)
Definition insert_admin (user_id : Z) (d : db) : db :=
  if existsb (fun a => a =? user_id) (admins d) then d
  else mkDb (programs d) (admins d ++ [user_id]) (bookings d).

(** [DELETE FROM admins WHERE user_id=$1] *)
Definition delete_admin (user_id : Z) (d : db) : db :=
  mkDb (programs d) (filter (fun a => negb (a =? user_id)) (admins d)) (bookings d).

Definition add_admin (d : db) (from_user : Z) (arg : admin_arg) : handled admin_reply driver_exn :=
  if negb (from_user =? MAIN_ADMIN_ID) then mkHandled d [OnlyMainAdmin] None
  else
    match arg with
    | AdmBadUsage => mkHandled d [AdmUsage] None
    | AdmNotNumber => mkHandled d [AdmMustBeNumber] None
    | AdmId user_id =>
        if int64_ok user_id
        then mkHandled (insert_admin user_id d) [AdmAdded user_id] None
        else mkHandled d [AdmError] None
    end.

Definition del_admin (d : db) (from_user : Z) (arg : admin_arg) : handled admin_reply driver_exn :=
  if negb (from_user =? MAIN_ADMIN_ID) then mkHandled d [OnlyMainAdmin] None
  else
    match arg with
    | AdmBadUsage => mkHandled d [AdmUsage] None
    | AdmNotNumber => mkHandled d [AdmMustBeNumber] None
    | AdmId target_id =>
        if int64_ok target_id
        then mkHandled (delete_admin target_id d) [AdmRemoved target_id] None
        else mkHandled d [] (Some DataError)
    end.

(** ** Program durations: add_program, edit_program, show_programs *)

(** [h * 60 + m + s // 60] of [add_program] and [edit_program] *)
Definition duration_minutes (h m s : Z) : Z := h * 60 + m + s / 60.



(** [edit_program] for the field [duration]; the other fields are columns
    of [programs] outside the model.  [EpUsage]: fewer than four parts.
    [EpBadId]: [int(parts[1])] raises.  [EpDuration id hms]: the new value
    split at [:] into three integers, [None] when that raises.  Both
    columns are INTEGER: a number outside the 32-bit range is refused by
    the database driver, which the handler reports like any other error. *)

Inductive edit_program_cmd : Type :=
| EpUsage
| EpBadId
| EpDuration (program_id : Z) (hms : option (Z * Z * Z)).

Inductive edit_program_reply : Type :=
| EpNoRights
| EpUsageReply
| EpBadFormat
| EpChanged (program_id : Z) (duration : Z)
| EpError.

(** [UPDATE programs SET duration=$1 WHERE id=$2] *)
Definition update_duration (program_id duration : Z) (d : db) : db :=
  mkDb (map (fun p => if p_id p =? program_id then mkProgram (p_id p) duration else p)
            (programs d))
       (admins d) (bookings d).

Definition edit_program_duration (d : db) (from_user : Z) (cmd : edit_program_cmd)
  : handled edit_program_reply driver_exn :=
  if negb (is_admin d from_user) then mkHandled d [EpNoRights] None
  else
    match cmd with
    | EpUsage => mkHandled d [EpUsageReply] None
    | EpBadId => mkHandled d [EpBadFormat] None
    | EpDuration program_id None => mkHandled d [EpError] None
    | EpDuration program_id (Some (h, m, s)) =>
        let new_value_casted := duration_minutes h m s in
        if int32_ok new_value_casted && int32_ok program_id
        then mkHandled (update_duration program_id new_value_casted d)
                       [EpChanged program_id new_value_casted] None
        else mkHandled d [EpError] None
    end.

(** ** book_program and process_booking: the booking dialogue

    [user_booking] maps a user id to the answers given so far. *)

Record wizard : Type := mkWizard {
  w_program_id : option Z;
  w_booking_date : option Time.date;
  w_booking_time : option string;
  w_car_number : option string;
  w_phone_number : option string
}.

Definition sessions : Type := list (Z * wizard).

Definition session_get (u : Z) (s : sessions) : option wizard :=
  option_map snd (find (fun e => fst e =? u) s).

(** [user_booking[u] = w] *)
Fixpoint session_set (u : Z) (w : wizard) (s : sessions) : sessions :=
  match s with
  | [] => [(u, w)]
  | (k, v) :: r => if k =? u then (u, w) :: r else (k, v) :: session_set u w r
  end.

(** [user_booking.pop(u, None)] *)
Definition session_pop (u : Z) (s : sessions) : sessions :=
  filter (fun e => negb (fst e =? u)) s.

(** How the phone step reads a message: the number of a shared contact,
    a typed text with at least nine digits (the number kept is [+] and the
    digits, or the text itself when it starts with [+]), a typed text with
    fewer digits, or neither a contact nor a text. *)
Inductive phone_view : Type :=
| PhoneContact (p : string)
| PhoneTyped (p : string)
| PhoneTooShort
| PhoneAbsent.

(** A message as the dialogue reads it.  [m_text] is [message.text];
    [m_program] is [int(text.split(" - ")[0])] when that does not raise;
    [m_date] is [strptime(text, "%d.%m.%Y").date()] when that does not
    raise; [m_plate] is [text.upper()] when it matches the plate pattern. *)
Record message : Type := mkMessage {
  m_from_user : Z;
  m_text : option string;
  m_program : option Z;
  m_date : option Time.date;
  m_plate : option string;
  m_phone : phone_view
}.

Inductive wizard_reply : Type :=
| WNoPrograms
| WChooseProgram
| WChooseProgramByButton
| WChooseDate
| WInvalidDate
| WNoFreeHours
| WChooseHour (hours : list string)
| WHourTaken
| WEnterCar
| WBadPlate
| WSendPhone
| WBadPhone
| WPleaseSendPhone
| WConfirmed (booking_date : Time.date) (booking_time car_number phone_number : string).

Inductive wizard_exn : Type :=
| WAvailability (e : exn)
| WAttributeError
| WValueError
| WForeignKeyViolation.

Record wizard_outcome : Type := mkWizardOutcome {
  wo_db : db;
  wo_sessions : sessions;
  wo_replies : list wizard_reply;
  wo_raised : option wizard_exn
}.

Definition empty_wizard : wizard := mkWizard None None None None None.

(** [book_program]: the dialogue starts only when the catalog is not empty. *)
Definition book_program (d : db) (s : sessions) (from_user : Z) : wizard_outcome :=
  match programs d with
  | [] => mkWizardOutcome d s [WNoPrograms] None
  | _ :: _ => mkWizardOutcome d (session_set from_user empty_wizard s) [WChooseProgram] None
  end.

(** [INSERT INTO bookings (user_id, ..., program_id, car_number,
    booking_datetime)]: [new_id] is the next value of the id sequence,
    status takes its default and the actual times are NULL. *)
Definition insert_booking (d : db) (new_id user_id program_id : Z) (car_number : string)
    (booking_dt : Time.datetime) : db :=
  mkDb (programs d) (admins d)
       (bookings d ++ [mkBooking new_id user_id (Some program_id) car_number booking_dt
                                 scheduled None None]).

Section Dialogue.

(** [datetime.strptime(s, "%H:%M").time()] as microseconds since midnight,
    [None] when it raises [ValueError]. *)
Variable strptime_HM : string -> option Z.

(** [today] is [datetime.today().date()] of the date step, [now] the
    clock of [get_available_hours], [new_id] the id the INSERT would
    draw. *)
Definition process_booking (d : db) (s : sessions) (m : message)
    (today : Time.date) (now : Time.datetime) (new_id : Z) : wizard_outcome :=
  let user_id := m_from_user m in
  match session_get user_id s with
  | None => mkWizardOutcome d s [] None
  | Some data =>
      match w_program_id data with
      | None =>
          match m_program m with
          | None => mkWizardOutcome d s [WChooseProgramByButton] None
          | Some pid =>
              mkWizardOutcome d
                (session_set user_id
                   (mkWizard (Some pid) (w_booking_date data) (w_booking_time data)
                             (w_car_number data) (w_phone_number data)) s)
                [WChooseDate] None
          end
      | Some program_id =>
      match w_booking_date data with
      | None =>
          match m_date m with
          | None => mkWizardOutcome d s [WInvalidDate] None
          | Some date =>
              if date <? today then mkWizardOutcome d s [WInvalidDate] None
              else
                let data' := mkWizard (Some program_id) (Some date) (w_booking_time data)
                                      (w_car_number data) (w_phone_number data) in
                match get_available_hours d program_id date now with
                | Raise e =>
                    mkWizardOutcome d (session_set user_id data' s) [] (Some (WAvailability e))
                | Ok [] => mkWizardOutcome d s [WNoFreeHours] None
                | Ok hours =>
                    mkWizardOutcome d (session_set user_id data' s) [WChooseHour hours] None
                end
          end
      | Some booking_date =>
      match w_booking_time data with
      | None =>
          match get_available_hours d program_id booking_date now with
          | Raise e => mkWizardOutcome d s [] (Some (WAvailability e))
          | Ok hours =>
              match m_text m with
              | None => mkWizardOutcome d s [WHourTaken] None
              | Some t =>
                  if existsb (String.eqb t) hours then
                    mkWizardOutcome d
                      (session_set user_id
                         (mkWizard (Some program_id) (Some booking_date) (Some t)
                                   (w_car_number data) (w_phone_number data)) s)
                      [WEnterCar] None
                  else mkWizardOutcome d s [WHourTaken] None
              end
          end
      | Some booking_time =>
      match w_car_number data with
      | None =>
          match m_text m with
          | None => mkWizardOutcome d s [] (Some WAttributeError)
          | Some _ =>
              match m_plate m with
              | None => mkWizardOutcome d s [WBadPlate] None
              | Some plate =>
                  mkWizardOutcome d
                    (session_set user_id
                       (mkWizard (Some program_id) (Some booking_date) (Some booking_time)
                                 (Some plate) (w_phone_number data)) s)
                    [WSendPhone] None
              end
          end
      | Some car_number =>
      match w_phone_number data with
      | Some _ => mkWizardOutcome d s [] None
      | None =>
          match
            match m_phone m with
            | PhoneContact p | PhoneTyped p => inr p
            | PhoneTooShort => inl WBadPhone
            | PhoneAbsent => inl WPleaseSendPhone
            end
          with
          | inl r => mkWizardOutcome d s [r] None
          | inr phone_number =>
              let s' := session_set user_id
                          (mkWizard (Some program_id) (Some booking_date) (Some booking_time)
                                    (Some car_number) (Some phone_number)) s in
              match strptime_HM booking_time with
              | None => mkWizardOutcome d s' [] (Some WValueError)
              | Some tod =>
                  let booking_dt := Time.combine booking_date tod in
                  if existsb (fun p => p_id p =? program_id) (programs d) then
                    mkWizardOutcome
                      (insert_booking d new_id user_id program_id car_number booking_dt)
                      (session_pop user_id s')
                      [WConfirmed booking_date booking_time car_number phone_number] None
                  else mkWizardOutcome d s' [] (Some WForeignKeyViolation)
              end
          end
      end end end end end
  end.

End Dialogue.

(** A reading of [%H:%M] for two-digit hours and minutes, as the strings of
    [get_available_hours] are written. *)
Definition digit_value (c : ascii) : option Z :=
  let n := Z.of_nat (nat_of_ascii c) in
  if (48 <=? n) && (n <=? 57) then Some (n - 48) else None.

Definition read_HM (s : string) : option Z :=
  match s with
  | String a (String b (String c (String d (String e EmptyString)))) =>
      match digit_value a, digit_value b, digit_value d, digit_value e with
      | Some x, Some y, Some z, Some w =>
          let h := 10 * x + y in
          let mi := 10 * z + w in
          if Ascii.eqb c ":"%char && (h <? 24) && (mi <? 60)
          then Some (h * Time.US_PER_HOUR + mi * Time.US_PER_MINUTE)
          else None
      | _, _, _, _ => None
      end
  | _ => None
  end.

(** ** Predicates of the further properties *)

(** scheduled, then in_progress, then finished *)
Definition status_rank (s : status) : Z :=
  match s with
  | scheduled => 0
  | in_progress => 1
  | finished => 2
  end.

(** What the wash commands leave alone in a booking, and what the edit
    command leaves alone. *)
Definition nominal_part (b : booking) : Z * Z * option Z * string * Time.datetime :=
  (bk_id b, bk_user_id b, bk_program_id b, bk_car_number b, booking_datetime b).

Definition unedited_part (b : booking)
  : Z * Z * option Z * string * option Time.datetime * option Time.datetime :=
  (bk_id b, bk_user_id b, bk_program_id b, bk_car_number b, actual_start b, actual_end b).

(** ** Example sessions and messages *)

Definition db_long : db := mkDb [mkProgram 1 721] [] [].

(** User 200 has chosen program 1 and the date [day0]. *)
Definition s_at_hour : sessions :=
  [(200, mkWizard (Some 1) (Some day0) None None None)].

Definition msg_hour : message :=
  mkMessage 200 (Some "12:00"%string) None None None PhoneTooShort.

Definition msg_plate : message :=
  mkMessage 200 (Some "aa1111bb"%string) None None (Some "AA1111BB"%string) PhoneTooShort.

Definition msg_phone : message :=
  mkMessage 200 None None None None (PhoneContact "+380501112233").

(** Users 200 and 201 have both chosen 12:00 of [day0] and given a plate. *)
Definition s_two : sessions :=
  [(200, mkWizard (Some 1) (Some day0) (Some "12:00"%string) (Some "AA1111BB"%string) None);
   (201, mkWizard (Some 1) (Some day0) (Some "12:00"%string) (Some "CC2222DD"%string) None)].

Definition msg_phone_201 : message :=
  mkMessage 201 None None None None (PhoneContact "+380502223344").

Definition s_at_date : sessions :=
  [(200, mkWizard (Some 1) None None None None)].

Definition msg_yesterday : message :=
  mkMessage 200 (Some "yesterday"%string) None (Some (day0 - 1)) None PhoneTooShort.

(** ** The hours left by a booking at 10:00 *)

Definition hours_from_noon : list Z := [12; 13; 14; 15; 16; 17; 18; 19; 20].

(** 14:30 on [day0] *)
Definition t_afternoon : Time.datetime := hour_start day0 14 + 30 * Time.US_PER_MINUTE.

(** * Lemmas on the error monad and the clock *)

Lemma bind_Ok {A B : Type} (c : res A) (k : A -> res B) (b : B) :
  bind c k = Ok b -> exists a, c = Ok a /\ k a = Ok b.
Proof.
  destruct c as [a|e]; simpl; intros H; [exists a; auto | discriminate].
Qed.

Ltac bind_inv H :=
  let a := fresh "v" in
  let E := fresh "E" in
  apply bind_Ok in H; destruct H as (a & E & H).

Lemma minutes_Ok m d : Time.minutes m = Ok d ->
  d = m * Time.US_PER_MINUTE /\ Time.timedelta_ok d = true.
Proof.
  unfold Time.minutes. destruct (Time.timedelta_ok _) eqn:E; intros H; inversion H; subst; auto.
Qed.

Lemma hours_Ok h d : Time.hours h = Ok d -> d = h * Time.US_PER_HOUR.
Proof.
  unfold Time.hours. destruct (Time.timedelta_ok _); intros H; inversion H; auto.
Qed.

Lemma add_Ok t d r : Time.add t d = Ok r -> r = t + d /\ Time.datetime_ok r = true.
Proof.
  unfold Time.add. destruct (Time.datetime_ok _) eqn:E; intros H; inversion H; subst; auto.
Qed.

Lemma sub_Ok t d r : Time.sub t d = Ok r -> r = t - d /\ Time.datetime_ok r = true.
Proof.
  unfold Time.sub. destruct (Time.datetime_ok _) eqn:E; intros H; inversion H; subst; auto.
Qed.

Lemma minutes_total m : Time.timedelta_ok (m * Time.US_PER_MINUTE) = true ->
  Time.minutes m = Ok (m * Time.US_PER_MINUTE).
Proof. unfold Time.minutes. intros ->. reflexivity. Qed.

Lemma add_total t d : Time.datetime_ok (t + d) = true -> Time.add t d = Ok (t + d).
Proof. unfold Time.add. intros ->. reflexivity. Qed.

Lemma sub_total t d : Time.datetime_ok (t - d) = true -> Time.sub t d = Ok (t - d).
Proof. unfold Time.sub. intros ->. reflexivity. Qed.

Lemma buffer_minutes : Time.minutes BUFFER_MINUTES = Ok BUFFER_US.
Proof. reflexivity. Qed.

Lemma plus_hours_Ok t h r : plus_hours t h = Ok r -> r = t + h * Time.US_PER_HOUR.
Proof.
  unfold plus_hours. intros H. bind_inv H.
  apply hours_Ok in E. apply add_Ok in H. destruct H. subst. reflexivity.
Qed.

Lemma datetime_ok_spec t :
  Time.datetime_ok t = true <-> 0 <= t < Time.MAX_DAYS * Time.US_PER_DAY.
Proof. unfold Time.datetime_ok. rewrite andb_true_iff, Z.leb_le, Z.ltb_lt. tauto. Qed.

Lemma date_ok_spec d : Time.date_ok d = true <-> 0 <= d < Time.MAX_DAYS.
Proof. unfold Time.date_ok. rewrite andb_true_iff, Z.leb_le, Z.ltb_lt. tauto. Qed.

Lemma plus_hours_total d h : Time.date_ok d = true -> 0 <= h < 24 ->
  plus_hours (Time.day_start d) h = Ok (hour_start d h).
Proof.
  intros Hd Hh. apply date_ok_spec in Hd.
  unfold plus_hours, Time.hours.
  assert (Ht : Time.timedelta_ok (h * Time.US_PER_HOUR) = true).
  { unfold Time.timedelta_ok, Time.US_PER_DAY, Time.US_PER_HOUR, Time.US_PER_MINUTE.
    rewrite andb_true_iff, Z.leb_le, Z.ltb_lt. lia. }
  rewrite Ht. simpl. apply add_total. apply datetime_ok_spec.
  unfold Time.day_start, Time.MAX_DAYS, Time.US_PER_DAY, Time.US_PER_HOUR, Time.US_PER_MINUTE in *.
  lia.
Qed.

(** * Lemmas on the overlap test *)

Lemma conflictsb_spec s e r b :
  Spec.conflictsb s e r b = true <-> Spec.conflicts s e r b.
Proof.
  unfold Spec.conflictsb, Spec.conflicts.
  rewrite negb_true_iff, orb_false_iff, Z.leb_gt, Z.geb_leb, Z.leb_gt. lia.
Qed.

Ltac res_inv :=
  repeat match goal with
  | H : bind _ _ = Ok _ |- _ => apply bind_Ok in H; destruct H as (? & ? & H)
  | H : Ok _ = Ok _ |- _ => inversion H; subst; clear H
  | H : Time.minutes _ = Ok _ |- _ => apply minutes_Ok in H; destruct H as [? _]; subst
  | H : Time.add _ _ = Ok _ |- _ => apply add_Ok in H; destruct H as [? _]; subst
  | H : Time.sub _ _ = Ok _ |- _ => apply sub_Ok in H; destruct H as [? _]; subst
  end.

Lemma buffered_interval_Ok r i :
  buffered_interval r = Ok i ->
  i = (Spec.eff_start r - BUFFER_US, Spec.eff_end r + BUFFER_US).
Proof.
  unfold buffered_interval. intros H.
  apply bind_Ok in H. destruct H as (se & E & H).
  rewrite buffer_minutes in H. simpl in H. res_inv.
  enough (se = (Spec.eff_start r, Spec.eff_end r)) as -> by reflexivity.
  unfold Spec.eff_end, Spec.eff_start, Spec.duration_us, or_dt in *.
  destruct (r_status r); [ res_inv; reflexivity | | ];
    (destruct (r_actual_end r); destruct (r_actual_start r); res_inv; reflexivity).
Qed.

Lemma buffered_interval_total r : row_in_range r ->
  buffered_interval r = Ok (Spec.eff_start r - BUFFER_US, Spec.eff_end r + BUFFER_US).
Proof.
  intros (Htd & He & Hs & He').
  unfold buffered_interval.
  unfold Spec.eff_end, Spec.eff_start, Spec.duration_us, or_dt in *.
  destruct (r_status r); cbv zeta;
    destruct (r_actual_end r); destruct (r_actual_start r);
    rewrite ?(minutes_total _ Htd); cbn [bind];
    rewrite ?(add_total _ _ He); cbn [bind fst snd];
    rewrite buffer_minutes; cbn [bind];
    rewrite (sub_total _ _ Hs); cbn [bind];
    rewrite (add_total _ _ He'); reflexivity.
Qed.

Lemma overlaps_Ok s e r c :
  overlaps s e r = Ok c -> c = Spec.conflictsb s e r BUFFER_US.
Proof.
  unfold overlaps. intros H. bind_inv H. apply buffered_interval_Ok in E. subst v.
  inversion H. reflexivity.
Qed.

Lemma overlaps_total s e r : row_in_range r ->
  overlaps s e r = Ok (Spec.conflictsb s e r BUFFER_US).
Proof.
  intros H. unfold overlaps. rewrite (buffered_interval_total _ H). reflexivity.
Qed.

Lemma conflict_loop_Ok s e booked c :
  conflict_loop s e booked = Ok c ->
  c = negb (forallb (fun r => negb (Spec.conflictsb s e r BUFFER_US)) booked).
Proof.
  revert c. induction booked as [|r rest IH]; simpl; intros c H.
  - inversion H. reflexivity.
  - bind_inv H. apply overlaps_Ok in E. subst v.
    destruct (Spec.conflictsb s e r BUFFER_US); simpl.
    + inversion H. reflexivity.
    + apply IH. exact H.
Qed.

Lemma conflict_loop_total s e booked :
  Forall row_in_range booked ->
  conflict_loop s e booked
  = Ok (negb (forallb (fun r => negb (Spec.conflictsb s e r BUFFER_US)) booked)).
Proof.
  induction 1 as [|r rest Hr _ IH]; simpl.
  - reflexivity.
  - rewrite (overlaps_total _ _ _ Hr). simpl.
    destruct (Spec.conflictsb s e r BUFFER_US); simpl; [reflexivity | exact IH].
Qed.

(** * Lemmas on the candidate loop *)

Lemma mapM_Ok {A B : Type} (f : A -> res B) (g : A -> B) (l : list A) (l' : list B) :
  (forall x y, f x = Ok y -> y = g x) ->
  mapM f l = Ok l' -> l' = map g l.
Proof.
  intros Hf. revert l'. induction l as [|x r IH]; simpl; intros l' H.
  - inversion H. reflexivity.
  - apply bind_Ok in H. destruct H as (y & Ey & H).
    apply bind_Ok in H. destruct H as (ys & Eys & H).
    inversion H; subst. rewrite (Hf _ _ Ey), (IH _ Eys). reflexivity.
Qed.

Lemma mapM_total {A B : Type} (f : A -> res B) (g : A -> B) (l : list A) :
  (forall x, In x l -> f x = Ok (g x)) ->
  mapM f l = Ok (map g l).
Proof.
  induction l as [|x r IH]; simpl; intros Hf.
  - reflexivity.
  - rewrite (Hf x (or_introl eq_refl)). cbn [bind].
    rewrite IH by (intros; apply Hf; auto). reflexivity.
Qed.

Lemma keeps_early m we D booked s : s < m -> keeps m we D booked s = false.
Proof. intros H. unfold keeps. destruct (Z.leb_spec m s); [lia | reflexivity]. Qed.

Lemma keeps_late m we D booked s :
  we < s + D * Time.US_PER_MINUTE -> keeps m we D booked s = false.
Proof.
  intros H. unfold keeps.
  destruct (Z.leb_spec (s + D * Time.US_PER_MINUTE) we); [lia|].
  rewrite andb_false_r. reflexivity.
Qed.

Lemma keeps_inside m we D booked s :
  m <= s -> s + D * Time.US_PER_MINUTE <= we ->
  keeps m we D booked s
  = forallb (fun r => negb (Spec.conflictsb s (s + D * Time.US_PER_MINUTE) r BUFFER_US)) booked.
Proof.
  intros H1 H2. unfold keeps.
  destruct (Z.leb_spec m s); [|lia].
  destruct (Z.leb_spec (s + D * Time.US_PER_MINUTE) we); [|lia]. reflexivity.
Qed.

Lemma candidate_loop_Ok m we D booked cands l :
  candidate_loop m we D booked cands = Ok l ->
  l = filter (keeps m we D booked) cands.
Proof.
  revert l. induction cands as [|s rest IH]; simpl; intros l H.
  - inversion H. reflexivity.
  - destruct (Z.ltb_spec s m) as [Hlt|Hge].
    + rewrite keeps_early by assumption. apply IH. exact H.
    + apply bind_Ok in H. destruct H as (td & Etd & H).
      apply bind_Ok in H. destruct H as (e & Ee & H).
      apply minutes_Ok in Etd. destruct Etd as [-> _].
      apply add_Ok in Ee. destruct Ee as [-> _].
      rewrite Z.gtb_ltb in H.
      destruct (Z.ltb_spec we (s + D * Time.US_PER_MINUTE)).
      * rewrite keeps_late by assumption. apply IH. exact H.
      * rewrite keeps_inside by assumption.
        apply bind_Ok in H. destruct H as (c & Ec & H).
        apply bind_Ok in H. destruct H as (av & Eav & H).
        apply conflict_loop_Ok in Ec. apply IH in Eav. inversion H; subst.
        destruct (forallb _ booked); reflexivity.
Qed.

Lemma candidate_loop_total m we D booked cands :
  Time.timedelta_ok (D * Time.US_PER_MINUTE) = true ->
  (forall s, In s cands -> Time.datetime_ok (s + D * Time.US_PER_MINUTE) = true) ->
  Forall row_in_range booked ->
  candidate_loop m we D booked cands = Ok (filter (keeps m we D booked) cands).
Proof.
  intros Htd Hc Hb. induction cands as [|s rest IH]; simpl.
  - reflexivity.
  - rewrite IH by (intros; apply Hc; right; assumption).
    destruct (Z.ltb_spec s m) as [Hlt|Hge].
    + rewrite keeps_early by assumption. reflexivity.
    + rewrite (minutes_total _ Htd). cbn [bind].
      rewrite (add_total _ _ (Hc s (or_introl eq_refl))). cbn [bind].
      rewrite Z.gtb_ltb.
      destruct (Z.ltb_spec we (s + D * Time.US_PER_MINUTE)).
      * rewrite keeps_late by assumption. reflexivity.
      * rewrite keeps_inside by assumption.
        rewrite (conflict_loop_total _ _ _ Hb). cbn [bind].
        destruct (forallb _ booked); reflexivity.
Qed.

Lemma min_allowed_Ok date now m :
  min_allowed (hour_start date WORK_START_HOUR) date now = Ok m ->
  m = min_allowed_start date now.
Proof.
  unfold min_allowed, min_allowed_start.
  destruct (date =? Time.date_of now); intros H.
  - rewrite buffer_minutes in H. cbn [bind] in H. res_inv. reflexivity.
  - inversion H. reflexivity.
Qed.

Lemma available_starts_Ok d pid date now D l :
  fetch_duration d pid = Some D ->
  available_starts d pid date now = Ok l ->
  l = kept_starts d D date now.
Proof.
  intros HD H. unfold available_starts in H. rewrite HD in H.
  apply bind_Ok in H. destruct H as (ws & Ews & H).
  apply bind_Ok in H. destruct H as (we & Ewe & H).
  apply bind_Ok in H. destruct H as (m & Em & H).
  apply bind_Ok in H. destruct H as (cs & Ecs & H).
  apply plus_hours_Ok in Ews, Ewe. subst ws we.
  apply min_allowed_Ok in Em. subst m.
  apply (mapM_Ok _ (hour_start date)) in Ecs;
    [| intros x y Hxy; apply plus_hours_Ok in Hxy; exact Hxy].
  subst cs. apply candidate_loop_Ok in H. exact H.
Qed.

Lemma hour_range_spec h : In h hour_range <-> WORK_START_HOUR <= h < WORK_END_HOUR.
Proof.
  unfold hour_range, WORK_START_HOUR, WORK_END_HOUR. simpl. lia.
Qed.

Lemma available_starts_total d pid date now D :
  fetch_duration d pid = Some D ->
  request_in_range d D date now ->
  available_starts d pid date now = Ok (kept_starts d D date now).
Proof.
  intros HD (Hdate & Hnow & Htd & Hc & Hb).
  unfold available_starts. rewrite HD.
  rewrite (plus_hours_total _ _ Hdate) by (unfold WORK_START_HOUR; lia). cbn [bind].
  rewrite (plus_hours_total _ _ Hdate) by (unfold WORK_END_HOUR; lia). cbn [bind].
  assert (Em : min_allowed (hour_start date WORK_START_HOUR) date now
               = Ok (min_allowed_start date now)).
  { unfold min_allowed, min_allowed_start.
    destruct (Z.eqb_spec date (Time.date_of now)) as [He|He]; [|reflexivity].
    rewrite buffer_minutes. cbn [bind]. rewrite (add_total _ _ (Hnow He)). reflexivity. }
  rewrite Em. cbn [bind].
  rewrite (mapM_total _ (hour_start date)).
  - cbn [bind]. apply candidate_loop_total; auto.
    intros s Hs. apply in_map_iff in Hs. destruct Hs as (h & <- & Hh).
    apply Hc. apply hour_range_spec. exact Hh.
  - intros h Hh. apply hour_range_spec in Hh. apply plus_hours_total; auto.
    unfold WORK_START_HOUR, WORK_END_HOUR in Hh. lia.
Qed.

Lemma time_of_hour_start d h : 0 <= h < 24 ->
  Time.time_of (hour_start d h) = h * Time.US_PER_HOUR.
Proof.
  intros Hh. unfold Time.time_of, hour_start, Time.day_start.
  rewrite Z.add_comm, Z.mod_add by (unfold Time.US_PER_DAY, Time.US_PER_HOUR, Time.US_PER_MINUTE; lia).
  apply Z.mod_small.
  unfold Time.US_PER_DAY, Time.US_PER_HOUR, Time.US_PER_MINUTE. lia.
Qed.

Lemma strftime_hour_start d h : 0 <= h < 24 ->
  Time.strftime_HM (hour_start d h) = hour_label h.
Proof.
  intros Hh. unfold Time.strftime_HM, hour_label.
  rewrite (time_of_hour_start _ _ Hh).
  rewrite Z.div_mul by (unfold Time.US_PER_HOUR, Time.US_PER_MINUTE; lia).
  rewrite Z.mod_mul by (unfold Time.US_PER_HOUR, Time.US_PER_MINUTE; lia).
  reflexivity.
Qed.

Lemma date_of_bounds t :
  Time.day_start (Time.date_of t) <= t
  < Time.day_start (Time.date_of t) + Time.US_PER_DAY.
Proof.
  unfold Time.day_start, Time.date_of.
  assert (Hpos : 0 < Time.US_PER_DAY) by reflexivity.
  pose proof (Z.div_mod t Time.US_PER_DAY) as Hdm.
  pose proof (Z.mod_pos_bound t Time.US_PER_DAY Hpos) as Hb.
  lia.
Qed.

Lemma hour_range_eq : hour_range = [9; 10; 11; 12; 13; 14; 15; 16; 17; 18; 19; 20].
Proof. reflexivity. Qed.

Lemma filter_map_swap {A B : Type} (p : B -> bool) (f : A -> B) (l : list A) :
  filter p (map f l) = map f (filter (fun x => p (f x)) l).
Proof.
  induction l as [|x r IH]; simpl; [reflexivity|].
  destruct (p (f x)); simpl; rewrite IH; reflexivity.
Qed.

Lemma min_allowed_start_lower date now :
  hour_start date WORK_START_HOUR <= min_allowed_start date now.
Proof. unfold min_allowed_start. destruct (date =? Time.date_of now); lia. Qed.

Lemma min_allowed_start_today date now :
  date = Time.date_of now -> now + BUFFER_US <= min_allowed_start date now.
Proof.
  intros H. unfold min_allowed_start. rewrite <- H, Z.eqb_refl. lia.
Qed.

Lemma keeps_true m we D booked s :
  keeps m we D booked s = true <->
  m <= s /\ s + D * Time.US_PER_MINUTE <= we
  /\ forall r, In r booked -> ~ Spec.conflicts s (s + D * Time.US_PER_MINUTE) r BUFFER_US.
Proof.
  unfold keeps. rewrite !andb_true_iff, !Z.leb_le, forallb_forall.
  split.
  - intros ((H1 & H2) & H3). repeat split; auto.
    intros r Hr Hc. apply conflictsb_spec in Hc. specialize (H3 r Hr).
    rewrite Hc in H3. discriminate.
  - intros (H1 & H2 & H3). repeat split; auto.
    intros r Hr. destruct (Spec.conflictsb _ _ r _) eqn:E; [|reflexivity].
    apply conflictsb_spec in E. destruct (H3 r Hr E).
Qed.

Lemma in_kept_starts d D date now S :
  In S (kept_starts d D date now) <->
  (exists h, WORK_START_HOUR <= h < WORK_END_HOUR /\ S = hour_start date h)
  /\ min_allowed_start date now <= S
  /\ S + D * Time.US_PER_MINUTE <= hour_start date WORK_END_HOUR
  /\ forall r, In r (fetch_booked d date) ->
       ~ Spec.conflicts S (S + D * Time.US_PER_MINUTE) r BUFFER_US.
Proof.
  unfold kept_starts. rewrite filter_In, in_map_iff, keeps_true.
  split.
  - intros ((h & <- & Hh) & H). split; [|exact H].
    exists h. split; [apply hour_range_spec; exact Hh | reflexivity].
  - intros ((h & Hh & ->) & H). split; [|exact H].
    exists h. split; [reflexivity | apply hour_range_spec; exact Hh].
Qed.

(** * The availability claims *)

Lemma keeps_one_booking_at_ten date m ast aen h :
  hour_start date 9 <= m <= hour_start date 12 ->
  9 <= h <= 20 ->
  keeps m (hour_start date WORK_END_HOUR) 60
        [mkRow (hour_start date 10) (Some 60) scheduled ast aen]
        (hour_start date h)
  = (12 <=? h).
Proof.
  intros Hm Hh.
  unfold keeps, Spec.conflictsb, Spec.eff_start, Spec.eff_end, Spec.duration_us,
    BUFFER_US, BUFFER_MINUTES, WORK_END_HOUR, hour_start, Time.day_start in *.
  cbn [forallb r_status bdt pdur or_zero].
  unfold Time.US_PER_DAY, Time.US_PER_HOUR, Time.US_PER_MINUTE in *.
  rewrite Z.geb_leb.
  repeat match goal with
         | |- context [?a <=? ?b] => destruct (Z.leb_spec a b)
         end; simpl; try reflexivity; lia.
Qed.

Lemma left_join_bdt ps b r : In r (left_join ps b) -> bdt r = booking_datetime b.
Proof.
  unfold left_join. destruct (bk_program_id b) as [pid|].
  - destruct (filter _ ps) as [|p m].
    + intros [<-|[]]. reflexivity.
    + intros H. apply in_map_iff in H. destruct H as (q & <- & _). reflexivity.
  - intros [<-|[]]. reflexivity.
Qed.

Lemma filter_all {A : Type} (p : A -> bool) (l : list A) :
  (forall x, In x l -> p x = true) -> filter p l = l.
Proof.
  induction l as [|x r IH]; simpl; intros H; [reflexivity|].
  rewrite (H x (or_introl eq_refl)), IH by (intros; apply H; right; assumption).
  reflexivity.
Qed.

Lemma filter_none {A : Type} (p : A -> bool) (l : list A) :
  (forall x, In x l -> p x = false) -> filter p l = [].
Proof.
  induction l as [|x r IH]; simpl; intros H; [reflexivity|].
  rewrite (H x (or_introl eq_refl)). apply IH. intros; apply H; right; assumption.
Qed.

(** The rows fetched for a date come from the bookings of that date. *)
Lemma fetch_booked_by_booking d date :
  fetch_booked d date
  = flat_map (left_join (programs d))
             (filter (fun b => Time.date_of (booking_datetime b) =? date) (bookings d)).
Proof.
  unfold fetch_booked. induction (bookings d) as [|b r IH]; simpl; [reflexivity|].
  rewrite filter_app, IH.
  destruct (Time.date_of (booking_datetime b) =? date) eqn:E; simpl.
  - rewrite filter_all; [reflexivity|].
    intros x Hx. rewrite (left_join_bdt _ _ _ Hx). exact E.
  - rewrite filter_none; [reflexivity|].
    intros x Hx. rewrite (left_join_bdt _ _ _ Hx). exact E.
Qed.

Lemma available_one_booking_at_ten d pid date now ast aen :
  Time.date_ok date = true ->
  fetch_duration d pid = Some 60 ->
  fetch_booked d date = [mkRow (hour_start date 10) (Some 60) scheduled ast aen] ->
  (date <> Time.date_of now \/ now + BUFFER_US <= hour_start date 12) ->
  exists hs,
    get_available_hours d pid date now = Ok hs
    /\ ~ In "09:00"%string hs /\ ~ In "10:00"%string hs /\ ~ In "11:00"%string hs
    /\ hd_error hs = Some "12:00"%string
    /\ hs = c1_hours.
Proof.
  intros Hdate HD Hb Hnow.
  assert (Hd : 0 <= date < Time.MAX_DAYS) by (apply date_ok_spec; exact Hdate).
  assert (Hm : hour_start date 9 <= min_allowed_start date now <= hour_start date 12).
  { split; [apply min_allowed_start_lower|].
    unfold min_allowed_start.
    destruct (Z.eqb_spec date (Time.date_of now)) as [He|He].
    - destruct Hnow as [Hn|Hn]; [contradiction|].
      unfold WORK_START_HOUR, hour_start, Time.US_PER_HOUR, Time.US_PER_MINUTE in *. lia.
    - unfold WORK_START_HOUR, hour_start, Time.US_PER_HOUR, Time.US_PER_MINUTE. lia. }
  assert (Hr : request_in_range d 60 date now).
  { unfold request_in_range. rewrite Hb.
    split; [exact Hdate|]. split; [|split; [reflexivity|split]].
    - intros He. apply datetime_ok_spec.
      destruct Hnow as [Hn|Hn]; [contradiction|].
      pose proof (date_of_bounds now) as Hbd. rewrite <- He in Hbd.
      unfold BUFFER_US, BUFFER_MINUTES, hour_start, Time.day_start, Time.MAX_DAYS,
        Time.US_PER_DAY, Time.US_PER_HOUR, Time.US_PER_MINUTE in *. lia.
    - intros h Hh. apply datetime_ok_spec.
      unfold WORK_START_HOUR, WORK_END_HOUR, hour_start, Time.day_start, Time.MAX_DAYS,
        Time.US_PER_DAY, Time.US_PER_HOUR, Time.US_PER_MINUTE in *. lia.
    - constructor; [|constructor].
      unfold row_in_range, Spec.eff_start, Spec.eff_end, Spec.duration_us.
      cbn [r_status bdt pdur or_zero].
      split; [reflexivity|].
      rewrite !datetime_ok_spec.
      unfold BUFFER_US, BUFFER_MINUTES, hour_start, Time.day_start, Time.MAX_DAYS,
        Time.US_PER_DAY, Time.US_PER_HOUR, Time.US_PER_MINUTE in *. lia. }
  exists c1_hours.
  split; [|repeat split; try reflexivity;
           intros H; simpl in H; repeat (destruct H as [H|H]; [discriminate H|]); exact H].
  unfold get_available_hours.
  rewrite (available_starts_total _ _ _ _ _ HD Hr). cbn [bind].
  unfold kept_starts. rewrite Hb, hour_range_eq. cbn [map filter].
  rewrite !(keeps_one_booking_at_ten date _ ast aen) by (auto; lia).
  cbn [Z.leb Z.compare Pos.compare Pos.compare_cont map].
  rewrite !strftime_hour_start by lia. reflexivity.
Qed.

Lemma kept_starts_hours d D date now :
  kept_starts d D date now = map (hour_start date) (kept_hours d D date now).
Proof. unfold kept_starts, kept_hours. apply filter_map_swap. Qed.

Lemma map_strftime_hours date hours :
  Forall (fun h => 0 <= h < 24) hours ->
  map Time.strftime_HM (map (hour_start date) hours) = map hour_label hours.
Proof.
  induction 1 as [|h r Hh _ IH]; simpl; [reflexivity|].
  rewrite (strftime_hour_start _ _ Hh), IH. reflexivity.
Qed.

Lemma keeps_one_booking_any_clock date m ast aen h :
  9 <= h <= 20 ->
  keeps m (hour_start date WORK_END_HOUR) 60
        [mkRow (hour_start date 10) (Some 60) scheduled ast aen]
        (hour_start date h)
  = (m <=? hour_start date h) && (12 <=? h).
Proof.
  intros Hh.
  unfold keeps, Spec.conflictsb, Spec.eff_start, Spec.eff_end, Spec.duration_us,
    BUFFER_US, BUFFER_MINUTES, WORK_END_HOUR, hour_start, Time.day_start in *.
  cbn [forallb r_status bdt pdur or_zero].
  unfold Time.US_PER_DAY, Time.US_PER_HOUR, Time.US_PER_MINUTE in *.
  rewrite Z.geb_leb.
  repeat match goal with
         | |- context [?a <=? ?b] => destruct (Z.leb_spec a b)
         end; simpl; try reflexivity; lia.
Qed.

Lemma one_booking_at_ten_rows d date b bp p :
  filter (fun x => Time.date_of (booking_datetime x) =? date) (bookings d) = [b] ->
  bk_status b = scheduled ->
  booking_datetime b = hour_start date 10 ->
  bk_program_id b = Some bp ->
  filter (fun x => p_id x =? bp) (programs d) = [p] ->
  p_duration p = 60 ->
  fetch_booked d date
  = [mkRow (hour_start date 10) (Some 60) scheduled (actual_start b) (actual_end b)].
Proof.
  intros Hb Hs Ht Hp Hps Hdur.
  rewrite fetch_booked_by_booking, Hb. simpl.
  unfold left_join. rewrite Hp, Hps. simpl.
  unfold join_row. rewrite Hs, Ht, Hdur. reflexivity.
Qed.

Lemma in_map_filter {A B : Type} (f : A -> B) (p : A -> bool) (l : list A) (y : B) :
  In y (map f (filter p l)) -> In y (map f l).
Proof.
  intros H. apply in_map_iff in H. destruct H as (x & Hx & Hin).
  apply in_map_iff. exists x. split; [exact Hx|]. apply filter_In in Hin. apply Hin.
Qed.

(** C1, refuted as stated: with the one booking at 10:00 and the clock at
    14:30 of the same day, the earliest returned start is 15:00, not
    12:00. *)
Lemma C1_clock_counterexample :
  filter (fun x => Time.date_of (booking_datetime x) =? day0) (bookings db_c1)
  = [mkBooking 7 100 (Some 1) "AA1234BB" (hour_start day0 10) scheduled None None]
  /\ fetch_duration db_c1 1 = Some 60
  /\ get_available_hours db_c1 1 day0 t_afternoon
     = Ok ["15:00"; "16:00"; "17:00"; "18:00"; "19:00"; "20:00"]%string
  /\ hd_error ["15:00"; "16:00"; "17:00"; "18:00"; "19:00"; "20:00"]%string
     <> Some "12:00"%string.
Proof.
  split; [reflexivity|]. split; [reflexivity|]. split; [reflexivity|]. discriminate.
Qed.

(** C1, amended.  A program of 60 minutes, a buffer of one minute, the
    window 09:00-21:00 and exactly one booking on the date, with status
    scheduled, nominal start 10:00 and a program of 60 minutes.  Whatever
    the clock is, [get_available_hours] excludes 09:00, 10:00 and 11:00 and
    returns exactly the whole hours from 12:00 to 20:00 that are not before
    minAllowedStart.  When the clock does not cut into the day (the date is
    not today, or now + buffer is at most 12:00) it returns 12:00, 13:00,
    ..., 20:00, so the earliest returned start is 12:00. *)
Theorem C1_one_booking_at_ten d pid date now b bp p :
  Time.date_ok date = true ->
  fetch_duration d pid = Some 60 ->
  filter (fun x => Time.date_of (booking_datetime x) =? date) (bookings d) = [b] ->
  bk_status b = scheduled ->
  booking_datetime b = hour_start date 10 ->
  bk_program_id b = Some bp ->
  filter (fun x => p_id x =? bp) (programs d) = [p] ->
  p_duration p = 60 ->
  (forall hs,
      get_available_hours d pid date now = Ok hs ->
      hs = map hour_label
             (filter (fun h => min_allowed_start date now <=? hour_start date h)
                     hours_from_noon)
      /\ ~ In "09:00"%string hs /\ ~ In "10:00"%string hs /\ ~ In "11:00"%string hs)
  /\ (date <> Time.date_of now
      \/ now + BUFFER_MINUTES * Time.US_PER_MINUTE <= hour_start date 12 ->
      exists hs,
        get_available_hours d pid date now = Ok hs
        /\ hd_error hs = Some "12:00"%string
        /\ hs = c1_hours).
Proof.
  intros Hdate HD Hb Hs Ht Hp Hps Hdur.
  pose proof (one_booking_at_ten_rows d date b bp p Hb Hs Ht Hp Hps Hdur) as Hrows.
  split.
  - intros hs H. unfold get_available_hours in H.
    apply bind_Ok in H. destruct H as (starts & Es & H). inversion H; subst hs; clear H.
    apply (available_starts_Ok _ _ _ _ _ _ HD) in Es. subst starts.
    rewrite kept_starts_hours.
    assert (Hk : kept_hours d 60 date now
                 = filter (fun h => min_allowed_start date now <=? hour_start date h)
                          hours_from_noon).
    { unfold kept_hours, hours_from_noon. rewrite Hrows, hour_range_eq. cbn [filter].
      rewrite !(keeps_one_booking_any_clock date _ (actual_start b) (actual_end b))
        by lia.
      cbn [Z.leb Z.compare Pos.compare Pos.compare_cont].
      rewrite !andb_false_r, !andb_true_r. reflexivity. }
    rewrite Hk.
    assert (Hall : Forall (fun h => 0 <= h < 24)
                     (filter (fun h => min_allowed_start date now <=? hour_start date h)
                             hours_from_noon)).
    { apply Forall_forall. intros h Hh. apply filter_In in Hh. destruct Hh as [Hh _].
      unfold hours_from_noon in Hh. simpl in Hh. lia. }
    rewrite (map_strftime_hours _ _ Hall).
    split; [reflexivity|].
    repeat split; intros Hin; apply in_map_filter in Hin; simpl in Hin;
      repeat (destruct Hin as [Hin|Hin]; [discriminate Hin|]); exact Hin.
  - intros Hnow.
    destruct (available_one_booking_at_ten d pid date now (actual_start b) (actual_end b)
                Hdate HD Hrows Hnow) as (hs & Hget & _ & _ & _ & Hhd & Heq).
    exists hs. auto.
Qed.

Lemma C1_one_booking_at_ten_witness :
  (forall hs,
      get_available_hours db_c1 1 day0 t_afternoon = Ok hs ->
      hs = map hour_label
             (filter (fun h => min_allowed_start day0 t_afternoon <=? hour_start day0 h)
                     hours_from_noon)
      /\ ~ In "09:00"%string hs /\ ~ In "10:00"%string hs /\ ~ In "11:00"%string hs)
  /\ exists hs,
       get_available_hours db_c1 1 day0 0 = Ok hs
       /\ hd_error hs = Some "12:00"%string
       /\ hs = c1_hours.
Proof.
  split.
  - apply (proj1 (C1_one_booking_at_ten db_c1 1 day0 t_afternoon
                    (mkBooking 7 100 (Some 1) "AA1234BB" (hour_start day0 10)
                               scheduled None None)
                    1 (mkProgram 1 60) eq_refl eq_refl eq_refl eq_refl eq_refl eq_refl
                    eq_refl eq_refl)).
  - apply (proj2 (C1_one_booking_at_ten db_c1 1 day0 0
                    (mkBooking 7 100 (Some 1) "AA1234BB" (hour_start day0 10)
                               scheduled None None)
                    1 (mkProgram 1 60) eq_refl eq_refl eq_refl eq_refl eq_refl eq_refl
                    eq_refl eq_refl)).
    left. intros H. vm_compute in H. discriminate H.
Defined.

(** C2.  The overlap test of [get_available_hours] against one fetched
    booking returns true exactly when NOT (candidateEnd <= effStart - buffer
    OR candidateStart >= effEnd + buffer), with the effective interval of
    the design (actual_start falling back to the nominal start and
    actual_end falling back to effective start plus program duration for
    in_progress and finished, nominal start plus program duration for
    scheduled); it returns whenever the row's datetimes are representable;
    and every start the function keeps conflicts with no booking of the
    date. *)
Theorem C2_conflict_rule :
  (forall start end_ rec c,
      overlaps start end_ rec = Ok c ->
      (c = true <-> Spec.conflicts start end_ rec BUFFER_US))
  /\ (forall start end_ rec,
      row_in_range rec -> exists c, overlaps start end_ rec = Ok c)
  /\ (forall start end_ booked c,
      conflict_loop start end_ booked = Ok c ->
      (c = true <-> exists rec, In rec booked /\ Spec.conflicts start end_ rec BUFFER_US))
  /\ (forall d pid date now D starts S,
      fetch_duration d pid = Some D ->
      available_starts d pid date now = Ok starts ->
      In S starts ->
      forall rec, In rec (fetch_booked d date) ->
        ~ Spec.conflicts S (S + D * Time.US_PER_MINUTE) rec BUFFER_US).
Proof.
  split; [|split; [|split]].
  - intros start end_ rec c H. apply overlaps_Ok in H. subst c.
    apply conflictsb_spec.
  - intros start end_ rec H. eexists. apply overlaps_total. exact H.
  - intros start end_ booked c H. apply conflict_loop_Ok in H. subst c.
    rewrite negb_true_iff. split.
    + intros Hf. induction booked as [|r rest IH]; simpl in Hf; [discriminate|].
      apply andb_false_iff in Hf. destruct Hf as [Hf|Hf].
      * exists r. split; [left; reflexivity|].
        apply conflictsb_spec. apply negb_false_iff. exact Hf.
      * destruct (IH Hf) as (r' & Hin & Hc). exists r'. split; [right|]; assumption.
    + intros (r & Hin & Hc). apply conflictsb_spec in Hc.
      destruct (forallb _ booked) eqn:E; [|reflexivity].
      rewrite forallb_forall in E. specialize (E r Hin). rewrite Hc in E. discriminate E.
  - intros d pid date now D starts S HD H Hin rec Hrec.
    apply (available_starts_Ok _ _ _ _ _ _ HD) in H. subst starts.
    apply in_kept_starts in Hin. destruct Hin as (_ & _ & _ & Hn). apply Hn. exact Hrec.
Qed.

Lemma C2_conflict_rule_witness :
  (true = true <-> Spec.conflicts (hour_start day0 11) (hour_start day0 12) row_c1 BUFFER_US)
  /\ (exists c, overlaps (hour_start day0 11) (hour_start day0 12) row_c1 = Ok c)
  /\ (true = true <-> exists rec, In rec [row_c1]
        /\ Spec.conflicts (hour_start day0 11) (hour_start day0 12) rec BUFFER_US)
  /\ ~ Spec.conflicts (hour_start day0 12) (hour_start day0 12 + 60 * Time.US_PER_MINUTE)
         row_c1 BUFFER_US.
Proof.
  destruct C2_conflict_rule as (H1 & H2 & H3 & H4).
  split; [|split; [|split]].
  - apply (H1 (hour_start day0 11) (hour_start day0 12) row_c1 true). reflexivity.
  - apply (H2 (hour_start day0 11) (hour_start day0 12) row_c1).
    unfold row_in_range. repeat split; reflexivity.
  - apply (H3 (hour_start day0 11) (hour_start day0 12) [row_c1] true). reflexivity.
  - apply (H4 db_c1 1 day0 0 60
              [hour_start day0 12; hour_start day0 13; hour_start day0 14;
               hour_start day0 15; hour_start day0 16; hour_start day0 17;
               hour_start day0 18; hour_start day0 19; hour_start day0 20]
              (hour_start day0 12)).
    + reflexivity.
    + reflexivity.
    + left. reflexivity.
    + left. reflexivity.
Defined.

Lemma StronglySorted_filter {A : Type} (R : A -> A -> Prop) (p : A -> bool) (l : list A) :
  StronglySorted R l -> StronglySorted R (filter p l).
Proof.
  induction 1 as [|x r Hs IH Hx]; simpl; [constructor|].
  destruct (p x); [|exact IH].
  constructor; [exact IH|].
  rewrite Forall_forall in *. intros y Hy. apply filter_In in Hy. apply Hx, Hy.
Qed.

Lemma hour_range_sorted : StronglySorted Z.lt hour_range.
Proof.
  rewrite hour_range_eq.
  repeat (constructor; [|repeat (constructor; [reflexivity|]); constructor]).
  constructor.
Qed.

(** C3.  For a program of duration D and any date: the strings
    [get_available_hours] returns are the labels HH:00 of whole hours in
    ascending order, and every such start S has S >= 09:00 of the date,
    S + D <= 21:00 of the date, and S >= now + BUFFER_MINUTES when the date
    is today; the function returns whenever the arithmetic of the request
    stays representable. *)
Theorem C3_returned_starts_in_window d pid date now D :
  fetch_duration d pid = Some D ->
  (request_in_range d D date now ->
   exists hs, get_available_hours d pid date now = Ok hs)
  /\ (forall hs,
      get_available_hours d pid date now = Ok hs ->
      exists hours,
        hs = map hour_label hours
        /\ available_starts d pid date now = Ok (map (hour_start date) hours)
        /\ StronglySorted Z.lt hours
        /\ Forall (fun h =>
             let S := hour_start date h in
             hour_start date WORK_START_HOUR <= S
             /\ S + D * Time.US_PER_MINUTE <= hour_start date WORK_END_HOUR
             /\ (date = Time.date_of now -> S >= now + BUFFER_MINUTES * Time.US_PER_MINUTE))
           hours).
Proof.
  intros HD. split.
  - intros Hr. unfold get_available_hours.
    rewrite (available_starts_total _ _ _ _ _ HD Hr). cbn [bind]. eexists. reflexivity.
  - intros hs H. unfold get_available_hours in H.
    apply bind_Ok in H. destruct H as (starts & Es & H). inversion H; subst hs; clear H.
    pose proof (available_starts_Ok _ _ _ _ _ _ HD Es) as Hk.
    rewrite kept_starts_hours in Hk. subst starts.
    exists (kept_hours d D date now).
    assert (Hall : Forall (fun h => WORK_START_HOUR <= h < WORK_END_HOUR
                     /\ keeps (min_allowed_start date now) (hour_start date WORK_END_HOUR) D
                              (fetch_booked d date) (hour_start date h) = true)
                          (kept_hours d D date now)).
    { apply Forall_forall. intros h Hh. unfold kept_hours in Hh.
      apply filter_In in Hh. destruct Hh as [Hh Hk]. split; [|exact Hk].
      apply hour_range_spec. exact Hh. }
    split; [|split; [exact Es|split]].
    + apply map_strftime_hours. eapply Forall_impl; [|exact Hall].
      intros h [Hh _]. unfold WORK_START_HOUR, WORK_END_HOUR in Hh. lia.
    + apply StronglySorted_filter. exact hour_range_sorted.
    + eapply Forall_impl; [|exact Hall]. intros h [Hh Hk]. cbv zeta.
      apply keeps_true in Hk. destruct Hk as (Hm & He & _).
      pose proof (min_allowed_start_lower date now) as Hl.
      split; [lia|]. split; [exact He|].
      intros Ht. pose proof (min_allowed_start_today date now Ht) as Hn.
      unfold BUFFER_US in Hn. lia.
Qed.

Lemma C3_returned_starts_in_window_witness :
  (exists hs, get_available_hours db_c1 1 day0 (hour_start day0 13) = Ok hs)
  /\ exists hours,
       ["14:00"; "15:00"; "16:00"; "17:00"; "18:00"; "19:00"; "20:00"]%string
       = map hour_label hours
       /\ available_starts db_c1 1 day0 (hour_start day0 13)
          = Ok (map (hour_start day0) hours)
       /\ StronglySorted Z.lt hours
       /\ Forall (fun h =>
            let S := hour_start day0 h in
            hour_start day0 WORK_START_HOUR <= S
            /\ S + 60 * Time.US_PER_MINUTE <= hour_start day0 WORK_END_HOUR
            /\ (day0 = Time.date_of (hour_start day0 13) ->
                S >= hour_start day0 13 + BUFFER_MINUTES * Time.US_PER_MINUTE))
          hours.
Proof.
  destruct (C3_returned_starts_in_window db_c1 1 day0 (hour_start day0 13) 60 eq_refl)
    as [Htot Hsafe].
  split.
  - apply Htot. unfold request_in_range.
    split; [reflexivity|]. split; [intros _; reflexivity|]. split; [reflexivity|].
    split.
    + intros h Hh. apply datetime_ok_spec.
      unfold WORK_START_HOUR, WORK_END_HOUR, hour_start, day0, Time.day_start,
        Time.MAX_DAYS, Time.US_PER_DAY, Time.US_PER_HOUR, Time.US_PER_MINUTE in *. lia.
    + repeat constructor.
  - apply Hsafe. reflexivity.
Defined.

(** * A program of duration zero or less *)

(** C4, refuted as stated: a catalog duration of 0 and no bookings, on a
    date that is not today; all twelve hours are returned, not the empty
    sequence. *)
Lemma C4_zero_duration_counterexample :
  fetch_duration db_zero 1 = Some 0
  /\ get_available_hours db_zero 1 day0 0 = Ok all_hours
  /\ get_available_hours db_zero 1 day0 0 <> Ok [].
Proof.
  split; [reflexivity|]. split; [reflexivity|]. discriminate.
Qed.

(** C4, amended.  A program that is not in the catalog gives the empty
    sequence.  A catalog duration of zero or less is not guarded: the
    end-of-window check passes for every hourly candidate, so the kept
    starts are exactly the whole hours 09:00..20:00 that are not before
    minAllowedStart and conflict with no booking of the date; with no
    booking on a date other than today these are all twelve hours. *)
Theorem C4_nonpositive_duration_unguarded d pid date now :
  (fetch_duration d pid = None -> get_available_hours d pid date now = Ok [])
  /\ (forall D, fetch_duration d pid = Some D -> D <= 0 ->
      (forall starts S,
          available_starts d pid date now = Ok starts ->
          (In S starts <->
           (exists h, WORK_START_HOUR <= h < WORK_END_HOUR /\ S = hour_start date h)
           /\ min_allowed_start date now <= S
           /\ forall rec, In rec (fetch_booked d date) ->
                ~ Spec.conflicts S (S + D * Time.US_PER_MINUTE) rec BUFFER_US))
      /\ (request_in_range d D date now ->
          fetch_booked d date = [] ->
          date <> Time.date_of now ->
          get_available_hours d pid date now = Ok all_hours)).
Proof.
  split.
  - intros HN. unfold get_available_hours, available_starts. rewrite HN. reflexivity.
  - intros D HD Hneg. split.
    + intros starts S H.
      apply (available_starts_Ok _ _ _ _ _ _ HD) in H. subst starts.
      rewrite in_kept_starts. split.
      * intros (Hh & Hm & _ & Hc). auto.
      * intros (Hh & Hm & Hc). repeat split; auto.
        destruct Hh as (h & Hh & ->).
        unfold WORK_START_HOUR, WORK_END_HOUR, hour_start, Time.US_PER_HOUR,
          Time.US_PER_MINUTE in *. lia.
    + intros Hr Hb Hnt. unfold get_available_hours.
      rewrite (available_starts_total _ _ _ _ _ HD Hr). cbn [bind].
      rewrite kept_starts_hours.
      assert (Hk : kept_hours d D date now = hour_range).
      { unfold kept_hours. rewrite Hb.
        assert (Hall : forall h, In h hour_range ->
                  keeps (min_allowed_start date now) (hour_start date WORK_END_HOUR) D []
                        (hour_start date h) = true).
        { intros h Hh. apply hour_range_spec in Hh. apply keeps_true.
          unfold min_allowed_start. destruct (Z.eqb_spec date (Time.date_of now)); [contradiction|].
          split; [|split; [|intros r []]];
            unfold WORK_START_HOUR, WORK_END_HOUR, hour_start, Time.US_PER_HOUR,
              Time.US_PER_MINUTE in *; lia. }
        revert Hall. generalize hour_range. intros l. induction l as [|h r IH]; intros Hall.
        - reflexivity.
        - simpl. rewrite (Hall h (or_introl eq_refl)). f_equal.
          apply IH. intros; apply Hall; right; assumption. }
      rewrite Hk, hour_range_eq. cbn [map].
      rewrite !strftime_hour_start by lia. reflexivity.
Qed.

Lemma C4_nonpositive_duration_unguarded_witness :
  (get_available_hours db_negative 2 day0 0 = Ok [])
  /\ (In (hour_start day0 9) (map (hour_start day0) hour_range) <->
      (exists h, WORK_START_HOUR <= h < WORK_END_HOUR /\ hour_start day0 9 = hour_start day0 h)
      /\ min_allowed_start day0 0 <= hour_start day0 9
      /\ forall rec, In rec (fetch_booked db_negative day0) ->
           ~ Spec.conflicts (hour_start day0 9)
               (hour_start day0 9 + -30 * Time.US_PER_MINUTE) rec BUFFER_US)
  /\ get_available_hours db_negative 1 day0 0 = Ok all_hours.
Proof.
  split; [|split].
  - apply (proj1 (C4_nonpositive_duration_unguarded db_negative 2 day0 0)). reflexivity.
  - apply (proj1 (proj2 (C4_nonpositive_duration_unguarded db_negative 1 day0 0)
                        (-30) eq_refl ltac:(lia))).
    reflexivity.
  - apply (proj2 (proj2 (C4_nonpositive_duration_unguarded db_negative 1 day0 0)
                        (-30) eq_refl ltac:(lia))).
    + unfold request_in_range.
      split; [reflexivity|]. split; [intros H; vm_compute in H; discriminate H|].
      split; [reflexivity|]. split.
      * intros h Hh. apply datetime_ok_spec.
        unfold WORK_START_HOUR, WORK_END_HOUR, hour_start, day0, Time.day_start,
          Time.MAX_DAYS, Time.US_PER_DAY, Time.US_PER_HOUR, Time.US_PER_MINUTE in *. lia.
      * constructor.
    + reflexivity.
    + intros H. vm_compute in H. discriminate H.
Defined.

(** * The wash lifecycle *)

Lemma in_update f id d b' :
  In b' (bookings (update_bookings f id d)) <->
  exists b, In b (bookings d) /\ b' = (if bk_id b =? id then f b else b).
Proof.
  unfold update_bookings. cbn [bookings]. rewrite in_map_iff.
  split; intros (b & H1 & H2); exists b; auto.
Qed.

Lemma fetch_update f id d :
  (forall b, bk_id (f b) = bk_id b) ->
  fetch_booking (update_bookings f id d) id = option_map f (fetch_booking d id).
Proof.
  intros Hf. unfold fetch_booking, update_bookings. cbn [bookings].
  induction (bookings d) as [|b r IH]; simpl; [reflexivity|].
  destruct (Z.eqb_spec (bk_id b) id) as [He|He].
  - rewrite Hf, He, Z.eqb_refl. reflexivity.
  - destruct (Z.eqb_spec (bk_id b) id); [contradiction|]. exact IH.
Qed.

Lemma fetch_booking_Some d id b :
  fetch_booking d id = Some b -> In b (bookings d) /\ bk_id b = id.
Proof.
  unfold fetch_booking. intros H. apply find_some in H.
  destruct H as [H1 H2]. apply Z.eqb_eq in H2. auto.
Qed.

Lemma primary_key_unique d id b b' :
  primary_key d -> fetch_booking d id = Some b ->
  In b' (bookings d) -> bk_id b' = id -> b' = b.
Proof.
  unfold primary_key, fetch_booking.
  induction (bookings d) as [|x r IH]; simpl; intros Hnd Hf Hin Hid; [contradiction|].
  inversion Hnd as [|? ? Hx Hr]; subst.
  destruct (Z.eqb_spec (bk_id x) (bk_id b')) as [He|He].
  - inversion Hf; subst x. destruct Hin as [Hin|Hin]; [auto|].
    exfalso. apply Hx. rewrite He. apply in_map. exact Hin.
  - destruct Hin as [Hin|Hin]; [subst x; contradiction|].
    apply IH; auto.
Qed.

Lemma start_wash_cases d u a now :
  o_db (start_wash d u a now) = d
  \/ exists id row, a = IdArg id /\ is_admin d u = true
       /\ fetch_booking d id = Some row /\ bk_status row = scheduled
       /\ start_wash d u a now
          = mkOutcome (update_bookings (set_started now) id d) [Answer (WashStarted id)] None.
Proof.
  unfold start_wash.
  destruct (is_admin d u) eqn:Ha; simpl; [|left; reflexivity].
  destruct a as [| |id]; try (left; reflexivity).
  destruct (fetch_booking d id) as [row|] eqn:Hf; [|left; reflexivity].
  destruct (bk_status row) eqn:Hs; try (left; reflexivity).
  right. exists id, row. auto.
Qed.

Lemma finish_wash_cases d u a now now' :
  o_db (finish_wash d u a now now') = d
  \/ exists id, a = IdArg id
       /\ o_db (finish_wash d u a now now') = update_bookings (set_finished now) id d.
Proof.
  unfold finish_wash.
  destruct (is_admin d u); simpl; [|left; reflexivity].
  destruct a as [| |id]; try (left; reflexivity).
  destruct (fetch_booking d id) as [row|]; [|left; reflexivity].
  destruct (bk_status row); try (left; reflexivity);
    right; exists id; (split; [reflexivity|]);
    destruct (notify_next_after_buffer _ _ _); reflexivity.
Qed.

Lemma cmd_edit_cases d cmd :
  o_db (cmd_edit d cmd) = d
  \/ exists id parts b f,
       cmd = EditArgs id parts /\ fetch_booking d id = Some b
       /\ parse_edit parts (mkFields None None None) = inr f
       /\ (updated_dt (booking_datetime b) f <> None \/ new_status f <> None)
       /\ o_db (cmd_edit d cmd)
          = update_bookings (set_edited (updated_dt (booking_datetime b) f) (new_status f)) id d
       /\ o_events (cmd_edit d cmd)
          = [SendNotify (bk_user_id b)
               (OrderChanged id (updated_dt (booking_datetime b) f) (new_status f));
             Answer (EditDone id (updated_dt (booking_datetime b) f) (new_status f))].
Proof.
  unfold cmd_edit.
  destruct cmd as [| |id parts]; try (left; reflexivity).
  destruct (fetch_booking d id) as [b|] eqn:Hf; [|left; reflexivity].
  destruct (parse_edit parts _) as [r|f] eqn:Hp; [left; reflexivity|].
  assert (Hu : forall dt st,
             fetch_booking (update_bookings (set_edited dt st) id d) id
             = Some (set_edited dt st b)).
  { intros dt st. rewrite fetch_update by reflexivity. rewrite Hf. reflexivity. }
  destruct (updated_dt (booking_datetime b) f) as [t|] eqn:Hdt.
  - right. exists id, parts, b, f. rewrite Hdt, Hu.
    repeat split; auto. left; discriminate.
  - destruct (new_status f) as [s|] eqn:Hs; [|left; reflexivity].
    right. exists id, parts, b, f. rewrite Hdt, Hs, Hu.
    repeat split; auto. right; discriminate.
Qed.

Lemma booking_invb_spec b : booking_invb b = true <-> booking_inv b.
Proof.
  unfold booking_invb, booking_inv, status_fits.
  destruct (actual_end b), (actual_start b), (bk_status b); split;
    try discriminate; try reflexivity;
    try (intros _; split; intros H; try (exfalso; apply H; reflexivity); auto; fail);
    intros [H1 H2];
    try (assert (Hf : scheduled = finished) by (apply H1; discriminate); discriminate Hf);
    try (assert (Hf : in_progress = finished) by (apply H1; discriminate); discriminate Hf);
    try (destruct H2 as [Hf|Hf]; [discriminate| |]; discriminate Hf).
Qed.

(** C5, refuted as stated: the edit command sets a finished booking back to
    scheduled and leaves both actual times in place. *)
Lemma C5_edit_breaks_invariant_counterexample :
  db_inv db_finished
  /\ primary_key db_finished
  /\ ~ db_inv (o_db (cmd_edit db_finished (EditArgs 7 [TStatusKw; TStatusName scheduled]))).
Proof.
  split; [|split].
  - intros b [<-|[]]. apply booking_invb_spec. reflexivity.
  - repeat constructor. intros [].
  - intros H.
    specialize (H _ (or_introl eq_refl)). apply booking_invb_spec in H. discriminate H.
Qed.

(** C5, amended.  On a table with unique ids whose bookings satisfy the
    invariant (actual_end set needs finished, actual_start set needs
    in_progress or finished), the invariant holds for every booking after
    Start and after Finish.  The edit command writes the given status and
    leaves actual_start and actual_end as they are: it keeps the invariant
    when no status is given, when the status is finished, and in general
    when the given status fits the actual times stored for that booking. *)
Theorem C5_invariant_preserved d :
  primary_key d -> db_inv d ->
  (forall u a now, db_inv (o_db (start_wash d u a now)))
  /\ (forall u a now now', db_inv (o_db (finish_wash d u a now now')))
  /\ (forall id parts f,
        parse_edit parts (mkFields None None None) = inr f ->
        (forall s b, new_status f = Some s ->
                     In b (bookings d) -> bk_id b = id -> status_fits s b) ->
        db_inv (o_db (cmd_edit d (EditArgs id parts))))
  /\ (forall id parts f,
        parse_edit parts (mkFields None None None) = inr f ->
        new_status f = None \/ new_status f = Some finished ->
        db_inv (o_db (cmd_edit d (EditArgs id parts)))).
Proof.
  intros Hpk Hinv.
  assert (Hedit : forall id parts f,
        parse_edit parts (mkFields None None None) = inr f ->
        (forall s b, new_status f = Some s ->
                     In b (bookings d) -> bk_id b = id -> status_fits s b) ->
        db_inv (o_db (cmd_edit d (EditArgs id parts)))).
  { intros id parts f Hp Hfit.
    destruct (cmd_edit_cases d (EditArgs id parts)) as [->|(id' & parts' & b0 & f' & Hc & Hf & Hp' & _ & -> & _)];
      [exact Hinv|].
    inversion Hc; subst id' parts'. rewrite Hp in Hp'. inversion Hp'; subst f'.
    intros b' Hb'. apply in_update in Hb'. destruct Hb' as (b & Hb & ->).
    destruct (Z.eqb_spec (bk_id b) id) as [He|He]; [|apply Hinv; exact Hb].
    unfold booking_inv, set_edited. cbn [bk_status actual_start actual_end].
    destruct (new_status f) as [s|] eqn:Hs.
    - pose proof (Hfit s b eq_refl Hb He) as Hsf.
      unfold status_fits in *. cbn [actual_start actual_end]. exact Hsf.
    - pose proof (Hinv b Hb) as Hb0. unfold booking_inv, status_fits in *.
      cbn [actual_start actual_end]. exact Hb0. }
  split; [|split; [|split]].
  - intros u a now.
    destruct (start_wash_cases d u a now) as [->|(id & row & _ & _ & Hf & Hs & ->)];
      [exact Hinv|].
    cbn [o_db]. intros b' Hb'. apply in_update in Hb'. destruct Hb' as (b & Hb & ->).
    destruct (Z.eqb_spec (bk_id b) id) as [He|He]; [|apply Hinv; exact Hb].
    pose proof (primary_key_unique _ _ _ _ Hpk Hf Hb He) as ->.
    pose proof (Hinv row Hb) as [Hend _].
    unfold booking_inv, status_fits, set_started. cbn [bk_status actual_start actual_end].
    split.
    + intros Hne. apply Hend in Hne. rewrite Hs in Hne. discriminate Hne.
    + intros _. left. reflexivity.
  - intros u a now now'.
    destruct (finish_wash_cases d u a now now') as [->|(id & _ & ->)]; [exact Hinv|].
    intros b' Hb'. apply in_update in Hb'. destruct Hb' as (b & Hb & ->).
    destruct (Z.eqb_spec (bk_id b) id) as [He|He]; [|apply Hinv; exact Hb].
    unfold booking_inv, status_fits, set_finished. cbn [bk_status].
    split; intros _; auto.
  - exact Hedit.
  - intros id parts f Hp Hs. apply (Hedit id parts f Hp).
    intros s b Hs' _ _. destruct Hs as [Hs|Hs]; rewrite Hs in Hs'; [discriminate|].
    inversion Hs'; subst s. split; intros _; auto.
Qed.

Lemma C5_invariant_preserved_witness :
  db_inv (o_db (start_wash db_c1 MAIN_ADMIN_ID (IdArg 7) t_start))
  /\ db_inv (o_db (finish_wash db_c1 MAIN_ADMIN_ID (IdArg 7) t_end t_end))
  /\ db_inv (o_db (cmd_edit db_c1 (EditArgs 7 [TStatusKw; TStatusName scheduled])))
  /\ db_inv (o_db (cmd_edit db_finished (EditArgs 7 [TTime (12 * Time.US_PER_HOUR)]))).
Proof.
  assert (Hpk1 : primary_key db_c1) by (repeat constructor; intros []).
  assert (Hinv1 : db_inv db_c1).
  { intros b [<-|[]]. apply booking_invb_spec. reflexivity. }
  assert (Hpk2 : primary_key db_finished) by (repeat constructor; intros []).
  assert (Hinv2 : db_inv db_finished).
  { intros b [<-|[]]. apply booking_invb_spec. reflexivity. }
  destruct (C5_invariant_preserved db_c1 Hpk1 Hinv1) as (Hs & Hf & He & _).
  destruct (C5_invariant_preserved db_finished Hpk2 Hinv2) as (_ & _ & _ & He').
  split; [apply Hs|]. split; [apply Hf|]. split.
  - apply (He 7 [TStatusKw; TStatusName scheduled] (mkFields None None (Some scheduled)) eq_refl).
    intros s b Hs' [<-|[]] _. inversion Hs'; subst s.
    split; intros H; exfalso; apply H; reflexivity.
  - apply (He' 7 [TTime (12 * Time.US_PER_HOUR)]
               (mkFields None (Some (12 * Time.US_PER_HOUR)) None) eq_refl).
    left. reflexivity.
Defined.

Lemma finish_wash_proceeds d u id row now now' :
  is_admin d u = true ->
  fetch_booking d id = Some row ->
  bk_status row <> finished ->
  let d' := update_bookings (set_finished now) id d in
  o_db (finish_wash d u (IdArg id) now now') = d'
  /\ exists evs,
       o_events (finish_wash d u (IdArg id) now now') = Answer (WashFinished id) :: evs
       /\ (notify_next_after_buffer d' id now' = Ok evs
           \/ evs = [] /\ exists e, notify_next_after_buffer d' id now' = Raise e).
Proof.
  intros Ha Hf Hs d'. unfold finish_wash. rewrite Ha, Hf. cbn [negb].
  destruct (bk_status row); try (exfalso; apply Hs; reflexivity);
    fold d'; destruct (notify_next_after_buffer d' id now') as [evs|e] eqn:En;
    (split; [reflexivity|]); cbn [o_events];
    eexists; (split; [reflexivity|]); eauto.
Qed.

(** C6.  For a booking that is not yet finished, Finish (by an admin)
    replies that the wash is finished and leaves the booking with status
    finished and actual_end equal to the clock of that call; a second
    Finish on the same booking only replies that it is already finished and
    changes nothing, so actual_end still holds the time of the first
    call. *)
Theorem C6_finish_twice d u id row now1 now1' now2 now2' :
  is_admin d u = true ->
  fetch_booking d id = Some row ->
  bk_status row <> finished ->
  let o1 := finish_wash d u (IdArg id) now1 now1' in
  let o2 := finish_wash (o_db o1) u (IdArg id) now2 now2' in
  hd_error (o_events o1) = Some (Answer (WashFinished id))
  /\ (exists row1, fetch_booking (o_db o1) id = Some row1
        /\ bk_status row1 = finished /\ actual_end row1 = Some now1)
  /\ (forall b, In b (bookings (o_db o1)) -> bk_id b = id ->
        bk_status b = finished /\ actual_end b = Some now1)
  /\ o_events o2 = [Answer AlreadyFinished]
  /\ o_raised o2 = None
  /\ o_db o2 = o_db o1
  /\ (forall b, In b (bookings (o_db o2)) -> bk_id b = id -> actual_end b = Some now1).
Proof.
  intros Ha Hf Hs o1 o2.
  destruct (finish_wash_proceeds d u id row now1 now1' Ha Hf Hs) as (Hdb & evs & Hev & _).
  fold o1 in Hdb, Hev.
  assert (Hrow1 : fetch_booking (o_db o1) id = Some (set_finished now1 row)).
  { rewrite Hdb, fetch_update by reflexivity. rewrite Hf. reflexivity. }
  assert (Hall : forall b, In b (bookings (o_db o1)) -> bk_id b = id ->
                   bk_status b = finished /\ actual_end b = Some now1).
  { intros b' Hb' Hid. rewrite Hdb in Hb'. apply in_update in Hb'.
    destruct Hb' as (b & Hb & ->).
    destruct (Z.eqb_spec (bk_id b) id) as [He|He]; [split; reflexivity | contradiction]. }
  assert (Ho2 : o2 = mkOutcome (o_db o1) [Answer AlreadyFinished] None).
  { unfold o2, finish_wash at 1.
    replace (is_admin (o_db o1) u) with true by (rewrite Hdb; symmetry; exact Ha).
    rewrite Hrow1. reflexivity. }
  split; [rewrite Hev; reflexivity|].
  split; [exists (set_finished now1 row); auto|].
  split; [exact Hall|].
  rewrite Ho2. cbn [o_events o_raised o_db].
  repeat split; auto. intros b Hb Hid. apply (Hall b Hb Hid).
Qed.

Lemma C6_finish_twice_witness :
  let o1 := finish_wash db_c1 MAIN_ADMIN_ID (IdArg 7) t_end t_end in
  let o2 := finish_wash (o_db o1) MAIN_ADMIN_ID (IdArg 7) t_restart t_restart in
  hd_error (o_events o1) = Some (Answer (WashFinished 7))
  /\ (exists row1, fetch_booking (o_db o1) 7 = Some row1
        /\ bk_status row1 = finished /\ actual_end row1 = Some t_end)
  /\ (forall b, In b (bookings (o_db o1)) -> bk_id b = 7 ->
        bk_status b = finished /\ actual_end b = Some t_end)
  /\ o_events o2 = [Answer AlreadyFinished]
  /\ o_raised o2 = None
  /\ o_db o2 = o_db o1
  /\ (forall b, In b (bookings (o_db o2)) -> bk_id b = 7 -> actual_end b = Some t_end).
Proof.
  apply (C6_finish_twice db_c1 MAIN_ADMIN_ID 7
           (mkBooking 7 100 (Some 1) "AA1234BB" (hour_start day0 10) scheduled None None)
           t_end t_end t_restart t_restart).
  - reflexivity.
  - reflexivity.
  - discriminate.
Defined.

(** C8, refuted as stated: a wash started at 10:00, set back to scheduled by
    the edit command and started again at 11:00 has actual_start 11:00; the
    earlier value is overwritten. *)
Lemma C8_start_overwrites_counterexample :
  let d1 := o_db (start_wash db_c1 MAIN_ADMIN_ID (IdArg 7) t_start) in
  let d2 := o_db (cmd_edit d1 (EditArgs 7 [TStatusKw; TStatusName scheduled])) in
  let d3 := o_db (start_wash d2 MAIN_ADMIN_ID (IdArg 7) t_restart) in
  option_map bk_status (fetch_booking d2 7) = Some scheduled
  /\ option_map actual_start (fetch_booking d2 7) = Some (Some t_start)
  /\ option_map actual_start (fetch_booking d3 7) = Some (Some t_restart)
  /\ t_restart <> t_start.
Proof.
  repeat split; try reflexivity. discriminate.
Qed.

(** C8, amended.  For a booking whose status is scheduled, Start (by an
    admin) sets status to in_progress and sets actual_start to the current
    time whether or not actual_start was already set; the other columns of
    the booking and all other bookings are left as they were: the table
    after Start is the table before it, row by row, with only status and
    actual_start of the rows with that id replaced, and the catalog and
    the admins are untouched. *)
Theorem C8_start_sets_actual_start d u id row now :
  is_admin d u = true ->
  fetch_booking d id = Some row ->
  bk_status row = scheduled ->
  let o := start_wash d u (IdArg id) now in
  o_events o = [Answer (WashStarted id)]
  /\ fetch_booking (o_db o) id
     = Some (mkBooking (bk_id row) (bk_user_id row) (bk_program_id row) (bk_car_number row)
                       (booking_datetime row) in_progress (Some now) (actual_end row))
  /\ (forall b, In b (bookings (o_db o)) -> bk_id b = id ->
        bk_status b = in_progress /\ actual_start b = Some now)
  /\ (forall b, In b (bookings (o_db o)) -> bk_id b <> id -> In b (bookings d))
  /\ bookings (o_db o)
     = map (fun b =>
              if bk_id b =? id
              then mkBooking (bk_id b) (bk_user_id b) (bk_program_id b) (bk_car_number b)
                             (booking_datetime b) in_progress (Some now) (actual_end b)
              else b)
           (bookings d)
  /\ (forall b, In b (bookings d) -> bk_id b <> id -> In b (bookings (o_db o)))
  /\ List.length (bookings (o_db o)) = List.length (bookings d)
  /\ programs (o_db o) = programs d
  /\ admins (o_db o) = admins d.
Proof.
  intros Ha Hf Hs o.
  assert (Ho : o = mkOutcome (update_bookings (set_started now) id d)
                             [Answer (WashStarted id)] None).
  { unfold o, start_wash. rewrite Ha, Hf, Hs. reflexivity. }
  rewrite Ho. cbn [o_events o_db].
  split; [reflexivity|]. split; [|split; [|split; [|split; [|split; [|split]]]]].
  - rewrite fetch_update by reflexivity. rewrite Hf. reflexivity.
  - intros b' Hb' Hid. apply in_update in Hb'. destruct Hb' as (b & Hb & ->).
    destruct (Z.eqb_spec (bk_id b) id) as [He|He]; [split; reflexivity | contradiction].
  - intros b' Hb' Hid. apply in_update in Hb'. destruct Hb' as (b & Hb & ->).
    destruct (Z.eqb_spec (bk_id b) id) as [He|He]; [|exact Hb].
    exfalso. apply Hid. exact He.
  - reflexivity.
  - intros b Hb Hid. apply in_update. exists b. split; [exact Hb|].
    destruct (Z.eqb_spec (bk_id b) id); [contradiction | reflexivity].
  - unfold update_bookings. cbn [bookings]. apply length_map.
  - split; reflexivity.
Qed.

Lemma C8_start_sets_actual_start_witness :
  let o := start_wash db_queue MAIN_ADMIN_ID (IdArg 8) t_start in
  o_events o = [Answer (WashStarted 8)]
  /\ fetch_booking (o_db o) 8
     = Some (mkBooking 8 108 (Some 1) "BB8888BB" (hour_start day0 11)
                       in_progress (Some t_start) None)
  /\ (forall b, In b (bookings (o_db o)) -> bk_id b = 8 ->
        bk_status b = in_progress /\ actual_start b = Some t_start)
  /\ (forall b, In b (bookings (o_db o)) -> bk_id b <> 8 -> In b (bookings db_queue))
  /\ bookings (o_db o)
     = map (fun b =>
              if bk_id b =? 8
              then mkBooking (bk_id b) (bk_user_id b) (bk_program_id b) (bk_car_number b)
                             (booking_datetime b) in_progress (Some t_start) (actual_end b)
              else b)
           (bookings db_queue)
  /\ (forall b, In b (bookings db_queue) -> bk_id b <> 8 -> In b (bookings (o_db o)))
  /\ List.length (bookings (o_db o)) = List.length (bookings db_queue)
  /\ programs (o_db o) = programs db_queue
  /\ admins (o_db o) = admins db_queue.
Proof.
  apply (C8_start_sets_actual_start db_queue MAIN_ADMIN_ID 8 booking8 t_start).
  - reflexivity.
  - reflexivity.
  - reflexivity.
Defined.

(** * The buffer notifier *)

Lemma order_le_refl a : order_le a a = true.
Proof.
  unfold order_le. rewrite Z.eqb_refl, Z.leb_refl. apply orb_true_r.
Qed.

Lemma order_le_spec a b :
  order_le a b = true <->
  booking_datetime a < booking_datetime b
  \/ (booking_datetime a = booking_datetime b /\ bk_id a <= bk_id b).
Proof.
  unfold order_le.
  rewrite orb_true_iff, andb_true_iff, Z.ltb_lt, Z.eqb_eq, Z.leb_le. tauto.
Qed.

Lemma order_le_total a b : order_le a b = false -> order_le b a = true.
Proof.
  intros H. apply order_le_spec.
  destruct (order_le a b) eqn:E; [discriminate|].
  assert (Hn : ~ (booking_datetime a < booking_datetime b
                  \/ (booking_datetime a = booking_datetime b /\ bk_id a <= bk_id b))).
  { intros Hc. apply order_le_spec in Hc. rewrite Hc in E. discriminate. }
  lia.
Qed.

Lemma order_le_trans a b c :
  order_le a b = true -> order_le b c = true -> order_le a c = true.
Proof. rewrite !order_le_spec. lia. Qed.

Lemma first_row_None l : first_row l = None -> l = [].
Proof.
  destruct l as [|x r]; simpl; [reflexivity|].
  destruct (first_row r) as [y|]; [destruct (order_le x y)|]; discriminate.
Qed.

Lemma first_row_Some l x :
  first_row l = Some x -> In x l /\ forall y, In y l -> order_le x y = true.
Proof.
  revert x. induction l as [|a r IH]; simpl; intros x H; [discriminate|].
  destruct (first_row r) as [y|] eqn:Er.
  - destruct (IH y eq_refl) as [Hy Hmin].
    destruct (order_le a y) eqn:Ea; inversion H; subst x; clear H.
    + split; [left; reflexivity|].
      intros z [<-|Hz]; [apply order_le_refl|].
      eapply order_le_trans; [exact Ea | apply Hmin; exact Hz].
    + split; [right; exact Hy|].
      intros z [<-|Hz]; [apply order_le_total; exact Ea | apply Hmin; exact Hz].
  - inversion H; subst x. apply first_row_None in Er. subst r.
    split; [left; reflexivity|]. intros z [<-|[]]. apply order_le_refl.
Qed.

Lemma scheduled_after_spec t b :
  scheduled_after t b = true <-> bk_status b = scheduled /\ t < booking_datetime b.
Proof.
  unfold scheduled_after. rewrite andb_true_iff, Z.gtb_ltb, Z.ltb_lt.
  destruct (bk_status b); simpl; split; intros [H1 H2]; split; auto; discriminate.
Qed.

Lemma select_next_Some d t n :
  select_next d t = Some n ->
  In n (bookings d) /\ bk_status n = scheduled /\ t < booking_datetime n
  /\ forall m, In m (bookings d) -> bk_status m = scheduled -> t < booking_datetime m ->
       order_le n m = true.
Proof.
  unfold select_next. intros H. apply first_row_Some in H. destruct H as [Hin Hmin].
  apply filter_In in Hin. destruct Hin as [Hin Hs]. apply scheduled_after_spec in Hs.
  destruct Hs as [Hs Ht]. repeat split; auto.
  intros m Hm Hsm Htm. apply Hmin. apply filter_In. split; [exact Hm|].
  apply scheduled_after_spec. auto.
Qed.

Lemma select_next_None d t m :
  select_next d t = None ->
  In m (bookings d) -> bk_status m = scheduled -> t < booking_datetime m -> False.
Proof.
  unfold select_next. intros H Hm Hs Ht. apply first_row_None in H.
  assert (Hin : In m (filter (scheduled_after t) (bookings d))).
  { apply filter_In. split; [exact Hm|]. apply scheduled_after_spec. auto. }
  rewrite H in Hin. exact Hin.
Qed.

Lemma date_of_mono a b : a <= b -> Time.date_of a <= Time.date_of b.
Proof. intros H. unfold Time.date_of. apply Z.div_le_mono; [reflexivity | exact H]. Qed.

(** C7.  For a booking [f] (the finished one) and its same-day successors,
    the scheduled bookings with a later nominal start on the same calendar
    date: when there is none, [notify_next_after_buffer] schedules nothing;
    when there is one, it schedules exactly one deferred message, to the
    customer of a successor with the earliest nominal start, after
    delay = max(notifyTime - now, 0) where notifyTime is the nominal
    booking_datetime of [f] plus BUFFER_MINUTES (actual_end is not used). *)
Theorem C7_notify_next d fid f now :
  fetch_booking d fid = Some f ->
  ((forall n, ~ same_day_successor d f n) ->
   notify_next_after_buffer d fid now = Ok [])
  /\ (forall n, same_day_successor d f n ->
      Time.datetime_ok (booking_datetime f + BUFFER_MINUTES * Time.US_PER_MINUTE) = true ->
      exists nb,
        same_day_successor d f nb
        /\ (forall m, same_day_successor d f m ->
              booking_datetime nb <= booking_datetime m)
        /\ notify_next_after_buffer d fid now
           = Ok [CreateTask
                   (Z.max (booking_datetime f + BUFFER_MINUTES * Time.US_PER_MINUTE - now) 0)
                   (bk_user_id nb)
                   (EarlyArrival (bk_id nb) (bk_car_number nb))]).
Proof.
  intros Hf. unfold notify_next_after_buffer. rewrite Hf. split.
  - intros Hnone.
    destruct (select_next d (booking_datetime f)) as [nb|] eqn:Hn; [|reflexivity].
    apply select_next_Some in Hn. destruct Hn as (Hin & Hs & Ht & _).
    destruct (Z.eqb_spec (Time.date_of (booking_datetime nb))
                         (Time.date_of (booking_datetime f))) as [He|He]; [|reflexivity].
    exfalso. apply (Hnone nb). unfold same_day_successor. auto.
  - intros n (Hin & Hs & Ht & Hd) Hok.
    destruct (select_next d (booking_datetime f)) as [nb|] eqn:Hn;
      [|exfalso; exact (select_next_None _ _ _ Hn Hin Hs Ht)].
    apply select_next_Some in Hn. destruct Hn as (Hinb & Hsb & Htb & Hmin).
    assert (Hle : forall m, In m (bookings d) -> bk_status m = scheduled ->
                    booking_datetime f < booking_datetime m ->
                    booking_datetime nb <= booking_datetime m).
    { intros m Hm Hsm Htm. pose proof (Hmin m Hm Hsm Htm) as Ho.
      apply order_le_spec in Ho. lia. }
    assert (Hday : Time.date_of (booking_datetime nb) = Time.date_of (booking_datetime f)).
    { pose proof (Hle n Hin Hs Ht) as Hnn.
      pose proof (date_of_mono _ _ Hnn) as H1.
      pose proof (date_of_mono (booking_datetime f) (booking_datetime nb) ltac:(lia)) as H2.
      lia. }
    exists nb. split; [unfold same_day_successor; auto|]. split.
    + intros m (Hm & Hsm & Htm & _). apply Hle; auto.
    + rewrite Hday, Z.eqb_refl. cbn [negb].
      rewrite buffer_minutes. cbn [bind]. unfold BUFFER_US.
      rewrite (add_total _ _ Hok). reflexivity.
Qed.

Lemma C7_notify_next_witness :
  (notify_next_after_buffer db_finished 7 t_end = Ok [])
  /\ exists nb,
       same_day_successor db_queue booking7 nb
       /\ (forall m, same_day_successor db_queue booking7 m ->
             booking_datetime nb <= booking_datetime m)
       /\ notify_next_after_buffer db_queue 7 t_end
          = Ok [CreateTask
                  (Z.max (booking_datetime booking7 + BUFFER_MINUTES * Time.US_PER_MINUTE - t_end) 0)
                  (bk_user_id nb)
                  (EarlyArrival (bk_id nb) (bk_car_number nb))].
Proof.
  split.
  - apply (proj1 (C7_notify_next db_finished 7 booking7 t_end eq_refl)).
    intros n (Hin & Hs & _). destruct Hin as [<-|[]]. discriminate Hs.
  - apply (proj2 (C7_notify_next db_queue 7 booking7 t_end eq_refl) booking8).
    + unfold same_day_successor. split; [right; right; left; reflexivity|].
      repeat split; reflexivity.
    + reflexivity.
Defined.

(** C10.  The booking [notify_next_after_buffer] writes to is scheduled,
    starts after the finished booking, and comes first in the order by
    booking_datetime, then id: every other scheduled booking after the
    finished one starts later, or starts at the same time and has an id at
    least as large. *)
Theorem C10_tie_break_smallest_id d fid f now delay uid i car :
  fetch_booking d fid = Some f ->
  notify_next_after_buffer d fid now = Ok [CreateTask delay uid (EarlyArrival i car)] ->
  exists nb,
    In nb (bookings d) /\ bk_id nb = i /\ bk_user_id nb = uid
    /\ bk_status nb = scheduled
    /\ booking_datetime f < booking_datetime nb
    /\ forall m, In m (bookings d) -> bk_status m = scheduled ->
         booking_datetime f < booking_datetime m ->
         booking_datetime nb < booking_datetime m
         \/ (booking_datetime nb = booking_datetime m /\ i <= bk_id m).
Proof.
  intros Hf H. unfold notify_next_after_buffer in H. rewrite Hf in H.
  destruct (select_next d (booking_datetime f)) as [nb|] eqn:Hn; [|discriminate H].
  destruct (negb _); [discriminate H|].
  rewrite buffer_minutes in H. cbn [bind] in H.
  apply bind_Ok in H. destruct H as (nt & _ & H). inversion H; subst; clear H.
  apply select_next_Some in Hn. destruct Hn as (Hin & Hs & Ht & Hmin).
  exists nb. repeat split; auto.
  intros m Hm Hsm Htm. apply order_le_spec. apply Hmin; auto.
Qed.

Lemma C10_tie_break_smallest_id_witness :
  exists nb,
    In nb (bookings db_queue) /\ bk_id nb = 8 /\ bk_user_id nb = 108
    /\ bk_status nb = scheduled
    /\ booking_datetime booking7 < booking_datetime nb
    /\ forall m, In m (bookings db_queue) -> bk_status m = scheduled ->
         booking_datetime booking7 < booking_datetime m ->
         booking_datetime nb < booking_datetime m
         \/ (booking_datetime nb = booking_datetime m /\ 8 <= bk_id m).
Proof.
  apply (C10_tie_break_smallest_id db_queue 7 booking7 t_end 0 108 8 "BB8888BB").
  - reflexivity.
  - reflexivity.
Defined.

(** * Who is told about a change *)

Lemma notify_next_recipient d fid now evs uid :
  notify_next_after_buffer d fid now = Ok evs ->
  notified uid evs ->
  exists f nb,
    fetch_booking d fid = Some f
    /\ In nb (bookings d) /\ bk_status nb = scheduled
    /\ booking_datetime f < booking_datetime nb
    /\ bk_user_id nb = uid
    /\ exists delay, evs = [CreateTask delay uid (EarlyArrival (bk_id nb) (bk_car_number nb))].
Proof.
  unfold notify_next_after_buffer, notified. intros H Hn.
  destruct (fetch_booking d fid) as [f|] eqn:Hf;
    [|inversion H; subst; destruct Hn].
  destruct (select_next d (booking_datetime f)) as [nb|] eqn:Hs;
    [|inversion H; subst; destruct Hn].
  destruct (negb _); [inversion H; subst; destruct Hn|].
  rewrite buffer_minutes in H. cbn [bind] in H.
  apply bind_Ok in H. destruct H as (nt & _ & H). inversion H; subst; clear H.
  destruct Hn as [Hn|[]]. inversion Hn; subst uid.
  apply select_next_Some in Hs. destruct Hs as (Hin & Hst & Ht & _).
  exists f, nb. repeat split; auto. eexists. reflexivity.
Qed.

Lemma cmd_edit_changes d id parts b f :
  fetch_booking d id = Some b ->
  parse_edit parts (mkFields None None None) = inr f ->
  updated_dt (booking_datetime b) f <> None \/ new_status f <> None ->
  cmd_edit d (EditArgs id parts)
  = mkOutcome
      (update_bookings (set_edited (updated_dt (booking_datetime b) f) (new_status f)) id d)
      [SendNotify (bk_user_id b)
         (OrderChanged id (updated_dt (booking_datetime b) f) (new_status f));
       Answer (EditDone id (updated_dt (booking_datetime b) f) (new_status f))]
      None.
Proof.
  intros Hf Hp Hch. unfold cmd_edit. rewrite Hf, Hp.
  assert (Hu : forall dt st,
             fetch_booking (update_bookings (set_edited dt st) id d) id
             = Some (set_edited dt st b)).
  { intros dt st. rewrite fetch_update by reflexivity. rewrite Hf. reflexivity. }
  destruct (updated_dt (booking_datetime b) f) as [t|];
    destruct (new_status f) as [st|]; rewrite ?Hu; try reflexivity.
  destruct Hch as [Hch|Hch]; exfalso; apply Hch; reflexivity.
Qed.

(** C9, refuted as stated: a successful Start and a successful Finish of
    booking 7, whose customer is user 100, send that customer nothing; the
    only message is the reply to the admin who gave the command. *)
Lemma C9_start_finish_silent_counterexample :
  option_map bk_user_id (fetch_booking db_c1 7) = Some 100
  /\ start_wash db_c1 MAIN_ADMIN_ID (IdArg 7) t_start
     = mkOutcome (update_bookings (set_started t_start) 7 db_c1)
                 [Answer (WashStarted 7)] None
  /\ ~ notified 100 (o_events (start_wash db_c1 MAIN_ADMIN_ID (IdArg 7) t_start))
  /\ finish_wash db_c1 MAIN_ADMIN_ID (IdArg 7) t_end t_end
     = mkOutcome (update_bookings (set_finished t_end) 7 db_c1)
                 [Answer (WashFinished 7)] None
  /\ ~ notified 100 (o_events (finish_wash db_c1 MAIN_ADMIN_ID (IdArg 7) t_end t_end)).
Proof.
  split; [reflexivity|]. split; [reflexivity|]. split; [|split; [reflexivity|]].
  - intros [H|[]]. discriminate H.
  - intros [H|[]]. discriminate H.
Qed.

(** C9, amended.  The edit command sends a notification to the booking's
    customer whenever it changes the date, the time or the status.  Start
    sends no notification to any customer, only the reply to the admin.
    Finish sends nothing to the finished booking's customer as such: its
    only notification is the deferred early-arrival message to the customer
    of a scheduled booking that starts after the finished one. *)
Theorem C9_who_is_notified d :
  (forall id parts b f,
      fetch_booking d id = Some b ->
      parse_edit parts (mkFields None None None) = inr f ->
      updated_dt (booking_datetime b) f <> None \/ new_status f <> None ->
      In (SendNotify (bk_user_id b)
            (OrderChanged id (updated_dt (booking_datetime b) f) (new_status f)))
         (o_events (cmd_edit d (EditArgs id parts)))
      /\ notified (bk_user_id b) (o_events (cmd_edit d (EditArgs id parts))))
  /\ (forall u a now uid, ~ notified uid (o_events (start_wash d u a now)))
  /\ (forall u a now now' uid,
      notified uid (o_events (finish_wash d u a now now')) ->
      exists id f nb,
        a = IdArg id
        /\ fetch_booking (o_db (finish_wash d u a now now')) id = Some f
        /\ bk_status f = finished
        /\ In nb (bookings (o_db (finish_wash d u a now now')))
        /\ bk_status nb = scheduled
        /\ booking_datetime f < booking_datetime nb
        /\ bk_user_id nb = uid).
Proof.
  split; [|split].
  - intros id parts b f Hf Hp Hch.
    assert (Hin : In (SendNotify (bk_user_id b)
                        (OrderChanged id (updated_dt (booking_datetime b) f) (new_status f)))
                     (o_events (cmd_edit d (EditArgs id parts)))).
    { rewrite (cmd_edit_changes _ _ _ _ _ Hf Hp Hch). left. reflexivity. }
    split; [exact Hin|].
    unfold notified. apply in_map_iff. eexists. split; [|exact Hin]. reflexivity.
  - intros u a now uid.
    destruct (start_wash_cases d u a now) as [Hsame|(id & row & _ & _ & _ & _ & ->)].
    + unfold start_wash in *.
      destruct (is_admin d u); cbn [negb]; [|intros [H|[]]; discriminate H].
      destruct a as [| |id]; try (intros [H|[]]; discriminate H); [intros []|].
      destruct (fetch_booking d id) as [row|]; [|intros [H|[]]; discriminate H].
      destruct (bk_status row); intros [H|[]]; discriminate H.
    + intros [H|[]]; discriminate H.
  - intros u a now now' uid Hn.
    destruct (is_admin d u) eqn:Ha;
      [|unfold finish_wash in Hn; rewrite Ha in Hn; destruct Hn as [H|[]]; discriminate H].
    destruct a as [| |id];
      [ unfold finish_wash in Hn; rewrite Ha in Hn; destruct Hn as [H|[]]; discriminate H
      | unfold finish_wash in Hn; rewrite Ha in Hn; destruct Hn
      | ].
    destruct (fetch_booking d id) as [row|] eqn:Hf;
      [|unfold finish_wash in Hn; rewrite Ha, Hf in Hn; destruct Hn as [H|[]]; discriminate H].
    assert (Hgo : bk_status row <> finished ->
      exists id0 f nb,
        IdArg id = IdArg id0
        /\ fetch_booking (o_db (finish_wash d u (IdArg id) now now')) id0 = Some f
        /\ bk_status f = finished
        /\ In nb (bookings (o_db (finish_wash d u (IdArg id) now now')))
        /\ bk_status nb = scheduled
        /\ booking_datetime f < booking_datetime nb
        /\ bk_user_id nb = uid).
    { intros Hs.
      destruct (finish_wash_proceeds d u id row now now' Ha Hf Hs)
        as (Hdb & evs & Hev & Hnext).
      rewrite Hev in Hn. destruct Hn as [Hn|Hn]; [discriminate Hn|].
      destruct Hnext as [En|[-> _]]; [|destruct Hn].
      destruct (notify_next_recipient _ _ _ _ _ En Hn)
        as (f & nb & Hff & Hin & Hsn & Ht & Hu & _).
      exists id, f, nb. rewrite Hdb. repeat split; auto.
      rewrite fetch_update in Hff by reflexivity. rewrite Hf in Hff.
      inversion Hff. reflexivity. }
    destruct (bk_status row) eqn:Hs; [apply Hgo; discriminate | apply Hgo; discriminate |].
    unfold finish_wash in Hn. rewrite Ha, Hf, Hs in Hn.
    destruct Hn as [H|[]]. discriminate H.
Qed.

Lemma C9_who_is_notified_witness :
  (In (SendNotify 100 (OrderChanged 7 (Some (hour_start day0 12)) None))
      (o_events (cmd_edit db_c1 (EditArgs 7 [TTime (12 * Time.US_PER_HOUR)])))
   /\ notified 100 (o_events (cmd_edit db_c1 (EditArgs 7 [TTime (12 * Time.US_PER_HOUR)]))))
  /\ ~ notified 100 (o_events (start_wash db_c1 MAIN_ADMIN_ID (IdArg 7) t_start))
  /\ exists id f nb,
       IdArg 7 = IdArg id
       /\ fetch_booking (o_db (finish_wash db_running MAIN_ADMIN_ID (IdArg 7) t_end t_end)) id
          = Some f
       /\ bk_status f = finished
       /\ In nb (bookings (o_db (finish_wash db_running MAIN_ADMIN_ID (IdArg 7) t_end t_end)))
       /\ bk_status nb = scheduled
       /\ booking_datetime f < booking_datetime nb
       /\ bk_user_id nb = 108.
Proof.
  destruct (C9_who_is_notified db_c1) as (Hedit & Hstart & _).
  destruct (C9_who_is_notified db_running) as (_ & _ & Hfinish).
  split; [|split].
  - apply (Hedit 7 [TTime (12 * Time.US_PER_HOUR)]
                 (mkBooking 7 100 (Some 1) "AA1234BB" (hour_start day0 10) scheduled None None)
                 (mkFields None (Some (12 * Time.US_PER_HOUR)) None) eq_refl eq_refl).
    left. discriminate.
  - apply Hstart.
  - apply (Hfinish MAIN_ADMIN_ID (IdArg 7) t_end t_end 108).
    right. left. reflexivity.
Defined.

(** * Further properties of the wash commands *)

Lemma map_update {A : Type} (g : booking -> A) f id d :
  (forall b, g (f b) = g b) ->
  map g (bookings (update_bookings f id d)) = map g (bookings d).
Proof.
  intros Hg. unfold update_bookings. cbn [bookings]. rewrite map_map.
  apply map_ext. intros b. destruct (bk_id b =? id); [apply Hg | reflexivity].
Qed.

(** X1.  Under Start and Finish the status of a booking never moves
    backwards: every booking of the table after the command is a booking of
    the table before it with the same id and a status at least as far in
    the order scheduled, in_progress, finished; a booking that was finished
    is left exactly as it was. *)
Theorem wash_commands_never_move_back d u a now now' b' :
  primary_key d ->
  In b' (bookings (o_db (start_wash d u a now)))
  \/ In b' (bookings (o_db (finish_wash d u a now now'))) ->
  exists b,
    In b (bookings d)
    /\ bk_id b' = bk_id b
    /\ status_rank (bk_status b) <= status_rank (bk_status b')
    /\ (bk_status b = finished -> b' = b).
Proof.
  intros Hpk [Hin|Hin].
  - destruct (start_wash_cases d u a now) as [He|(id & row & _ & _ & Hf & Hs & He)].
    + rewrite He in Hin. exists b'. repeat split; auto. lia.
    + rewrite He in Hin. cbn [o_db] in Hin. apply in_update in Hin.
      destruct Hin as (b & Hb & ->). exists b. split; [exact Hb|].
      destruct (Z.eqb_spec (bk_id b) id) as [Hid|Hid].
      * pose proof (primary_key_unique _ _ _ _ Hpk Hf Hb Hid) as ->.
        rewrite Hs. cbn. repeat split; try lia. discriminate.
      * repeat split; auto. lia.
  - unfold finish_wash in Hin.
    destruct (is_admin d u) eqn:Ha; cbn [negb o_db] in Hin;
      [|exists b'; repeat split; auto; lia].
    destruct a as [| |id]; cbn [o_db] in Hin; try (exists b'; repeat split; auto; lia).
    destruct (fetch_booking d id) as [row|] eqn:Hf; cbn [o_db] in Hin;
      [|exists b'; repeat split; auto; lia].
    assert (Hgo : bk_status row <> finished ->
                  In b' (bookings (update_bookings (set_finished now) id d)) ->
                  exists b, In b (bookings d) /\ bk_id b' = bk_id b
                    /\ status_rank (bk_status b) <= status_rank (bk_status b')
                    /\ (bk_status b = finished -> b' = b)).
    { intros Hs Hin'. apply in_update in Hin'. destruct Hin' as (b & Hb & ->).
      exists b. split; [exact Hb|].
      destruct (Z.eqb_spec (bk_id b) id) as [Hid|Hid].
      - pose proof (primary_key_unique _ _ _ _ Hpk Hf Hb Hid) as ->.
        cbn. repeat split; [destruct (bk_status row); cbn; lia | contradiction].
      - repeat split; auto. lia. }
    destruct (bk_status row) eqn:Hs.
    + destruct (notify_next_after_buffer _ _ _); apply Hgo; try discriminate; exact Hin.
    + destruct (notify_next_after_buffer _ _ _); apply Hgo; try discriminate; exact Hin.
    + cbn [o_db] in Hin. exists b'. repeat split; auto. lia.
Qed.

Lemma wash_commands_never_move_back_witness :
  exists b,
    In b (bookings db_finished)
    /\ bk_id booking7 = bk_id b
    /\ status_rank (bk_status b) <= status_rank (bk_status booking7)
    /\ (bk_status b = finished -> booking7 = b).
Proof.
  apply (wash_commands_never_move_back db_finished MAIN_ADMIN_ID (IdArg 7)
           t_restart t_restart booking7).
  - repeat constructor. intros [].
  - left. left. reflexivity.
Defined.

(** X2.  Start at t1 followed by Finish at t2 on a scheduled booking leaves
    it finished with actual_start t1 and actual_end t2.  Finish without a
    Start leaves it finished with actual_end t2 and with the actual_start it
    had, or t2 when it had none. *)
Theorem start_then_finish d u id row t1 t2 t2' :
  is_admin d u = true ->
  fetch_booking d id = Some row ->
  bk_status row = scheduled ->
  fetch_booking
    (o_db (finish_wash (o_db (start_wash d u (IdArg id) t1)) u (IdArg id) t2 t2')) id
  = Some (mkBooking (bk_id row) (bk_user_id row) (bk_program_id row) (bk_car_number row)
                    (booking_datetime row) finished (Some t1) (Some t2))
  /\ fetch_booking (o_db (finish_wash d u (IdArg id) t2 t2')) id
     = Some (mkBooking (bk_id row) (bk_user_id row) (bk_program_id row) (bk_car_number row)
                       (booking_datetime row) finished
                       (Some (match actual_start row with Some t => t | None => t2 end))
                       (Some t2)).
Proof.
  intros Ha Hf Hs. split.
  - assert (H1 : o_db (start_wash d u (IdArg id) t1)
                 = update_bookings (set_started t1) id d).
    { unfold start_wash. rewrite Ha, Hf, Hs. reflexivity. }
    rewrite H1.
    assert (Hf1 : fetch_booking (update_bookings (set_started t1) id d) id
                  = Some (set_started t1 row)).
    { rewrite fetch_update by reflexivity. rewrite Hf. reflexivity. }
    destruct (finish_wash_proceeds (update_bookings (set_started t1) id d) u id
                (set_started t1 row) t2 t2' Ha Hf1 ltac:(discriminate)) as [-> _].
    rewrite fetch_update by reflexivity. rewrite Hf1. reflexivity.
  - destruct (finish_wash_proceeds d u id row t2 t2' Ha Hf
                ltac:(rewrite Hs; discriminate)) as [-> _].
    rewrite fetch_update by reflexivity. rewrite Hf. reflexivity.
Qed.

Lemma start_then_finish_witness :
  fetch_booking
    (o_db (finish_wash (o_db (start_wash db_c1 MAIN_ADMIN_ID (IdArg 7) t_start))
                       MAIN_ADMIN_ID (IdArg 7) t_end t_end)) 7
  = Some (mkBooking 7 100 (Some 1) "AA1234BB" (hour_start day0 10) finished
                    (Some t_start) (Some t_end))
  /\ fetch_booking (o_db (finish_wash db_c1 MAIN_ADMIN_ID (IdArg 7) t_end t_end)) 7
     = Some (mkBooking 7 100 (Some 1) "AA1234BB" (hour_start day0 10) finished
                       (Some t_end) (Some t_end)).
Proof.
  apply (start_then_finish db_c1 MAIN_ADMIN_ID 7
           (mkBooking 7 100 (Some 1) "AA1234BB" (hour_start day0 10) scheduled None None)
           t_start t_end t_end); reflexivity.
Defined.

(** X3.  Start, Finish and the edit command never add or remove a booking
    and never touch the catalog or the admins.  Start and Finish leave the
    id, customer, program, car and nominal booking_datetime of every booking
    as they were; the edit command leaves the id, customer, program, car,
    actual_start and actual_end of every booking as they were. *)
Theorem lifecycle_frame d :
  (forall u a now,
      let d' := o_db (start_wash d u a now) in
      programs d' = programs d /\ admins d' = admins d
      /\ map nominal_part (bookings d') = map nominal_part (bookings d))
  /\ (forall u a now now',
      let d' := o_db (finish_wash d u a now now') in
      programs d' = programs d /\ admins d' = admins d
      /\ map nominal_part (bookings d') = map nominal_part (bookings d))
  /\ (forall cmd,
      let d' := o_db (cmd_edit d cmd) in
      programs d' = programs d /\ admins d' = admins d
      /\ map unedited_part (bookings d') = map unedited_part (bookings d)).
Proof.
  split; [|split].
  - intros u a now d'. subst d'.
    destruct (start_wash_cases d u a now) as [->|(id & row & _ & _ & _ & _ & ->)];
      [auto|].
    cbn [o_db]. repeat split. apply map_update. reflexivity.
  - intros u a now now' d'. subst d'.
    destruct (finish_wash_cases d u a now now') as [->|(id & _ & ->)]; [auto|].
    repeat split. apply map_update. reflexivity.
  - intros cmd d'. subst d'.
    destruct (cmd_edit_cases d cmd)
      as [->|(id & parts & b & f & _ & _ & _ & _ & -> & _)]; [auto|].
    repeat split. apply map_update. reflexivity.
Qed.

Lemma read_HM_hour_label h :
  0 <= h < 24 -> read_HM (hour_label h) = Some (h * Time.US_PER_HOUR).
Proof.
  intros Hh. destruct h as [|p|p]; [reflexivity | | lia].
  do 5 (try (destruct p as [p|p|]); try reflexivity; try lia).
Qed.


(** * Further properties of the offered hours *)

Lemma fetch_duration_programs d d' pid :
  programs d' = programs d -> fetch_duration d' pid = fetch_duration d pid.
Proof. unfold fetch_duration. intros ->. reflexivity. Qed.

Lemma available_starts_same_rows d d' pid date now :
  programs d' = programs d ->
  fetch_booked d' date = fetch_booked d date ->
  available_starts d' pid date now = available_starts d pid date now.
Proof.
  intros Hp Hb. unfold available_starts.
  rewrite (fetch_duration_programs _ _ _ Hp), Hb. reflexivity.
Qed.

Lemma fetch_booked_insert d new_id u p car dt date :
  fetch_booked (insert_booking d new_id u p car dt) date
  = fetch_booked d date
    ++ filter (fun r => Time.date_of (bdt r) =? date)
              (left_join (programs d)
                 (mkBooking new_id u (Some p) car dt scheduled None None)).
Proof.
  unfold fetch_booked, insert_booking. cbn [programs bookings].
  rewrite flat_map_app, filter_app. cbn [flat_map]. rewrite app_nil_r. reflexivity.
Qed.

Lemma fetch_booked_delete d id date r :
  In r (fetch_booked (delete_rows id d) date) -> In r (fetch_booked d date).
Proof.
  unfold fetch_booked, delete_rows. cbn [programs bookings].
  rewrite !filter_In, !in_flat_map. intros ((b & Hb & Hr) & Hd). split; [|exact Hd].
  exists b. split; [|exact Hr]. apply filter_In in Hb. apply Hb.
Qed.


Lemma kept_starts_fewer d d' D date now :
  (forall r, In r (fetch_booked d date) -> In r (fetch_booked d' date)) ->
  incl (kept_starts d' D date now) (kept_starts d D date now).
Proof.
  intros Hsub S HS. apply in_kept_starts in HS. apply in_kept_starts.
  destruct HS as (Hh & Hm & He & Hc). repeat split; auto.
Qed.

Lemma hours_fewer d d' pid date now hs hs' :
  programs d' = programs d ->
  (forall r, In r (fetch_booked d date) -> In r (fetch_booked d' date)) ->
  get_available_hours d pid date now = Ok hs ->
  get_available_hours d' pid date now = Ok hs' ->
  incl hs' hs.
Proof.
  intros Hp Hsub H H'. unfold get_available_hours in *.
  apply bind_Ok in H. destruct H as (st & Est & H). inversion H; subst hs; clear H.
  apply bind_Ok in H'. destruct H' as (st' & Est' & H'). inversion H'; subst hs'; clear H'.
  destruct (fetch_duration d pid) as [D|] eqn:HD.
  - pose proof HD as HD'. rewrite <- (fetch_duration_programs _ _ _ Hp) in HD'.
    apply (available_starts_Ok _ _ _ _ _ _ HD) in Est.
    apply (available_starts_Ok _ _ _ _ _ _ HD') in Est'. subst st st'.
    apply incl_map. apply kept_starts_fewer. exact Hsub.
  - unfold available_starts in Est'.
    rewrite (fetch_duration_programs _ _ _ Hp), HD in Est'. inversion Est'.
    intros x [].
Qed.

(** X4.  More bookings, fewer hours: after a booking is inserted every hour
    that [get_available_hours] offers was offered before, and after
    [delete_booking] every hour that was offered before is still offered
    (whenever both calls return). *)
Theorem bookings_only_take_hours d pid date now hs :
  get_available_hours d pid date now = Ok hs ->
  (forall new_id u p car dt hs',
      get_available_hours (insert_booking d new_id u p car dt) pid date now = Ok hs' ->
      incl hs' hs)
  /\ (forall u a hs',
      get_available_hours (h_db (delete_booking d u a)) pid date now = Ok hs' ->
      incl hs hs').
Proof.
  intros H. split.
  - intros new_id u p car dt hs' H'.
    apply (hours_fewer d (insert_booking d new_id u p car dt) pid date now hs hs');
      auto.
    intros r Hr. rewrite fetch_booked_insert. apply in_or_app. left. exact Hr.
  - intros u a hs' H'.
    assert (Hcases : h_db (delete_booking d u a) = d
                     \/ exists id, h_db (delete_booking d u a) = delete_rows id d).
    { unfold delete_booking. destruct (is_admin d u); cbn; [|left; reflexivity].
      destruct a as [| |id]; try (left; reflexivity).
      destruct (fetch_booking d id); [right; exists id|left]; reflexivity. }
    destruct Hcases as [He|(id & He)]; rewrite He in H'.
    + rewrite H in H'. inversion H'. apply incl_refl.
    + apply (hours_fewer (delete_rows id d) d pid date now hs' hs); auto.
      intros r. apply fetch_booked_delete.
Qed.

Lemma bookings_only_take_hours_witness :
  (forall new_id u p car dt hs',
      get_available_hours (insert_booking db_c1 new_id u p car dt) 1 day0 0 = Ok hs' ->
      incl hs' c1_hours)
  /\ (forall u a hs',
      get_available_hours (h_db (delete_booking db_c1 u a)) 1 day0 0 = Ok hs' ->
      incl c1_hours hs').
Proof.
  apply (bookings_only_take_hours db_c1 1 day0 0 c1_hours). reflexivity.
Defined.



(** X6.  Only the bookings of the requested date count: inserting a booking
    whose nominal start lies on another date leaves the result of
    [get_available_hours] for the date as it was. *)
Theorem other_dates_do_not_matter d new_id u p car dt pid date now :
  Time.date_of dt <> date ->
  get_available_hours (insert_booking d new_id u p car dt) pid date now
  = get_available_hours d pid date now.
Proof.
  intros Hd. unfold get_available_hours.
  rewrite (available_starts_same_rows d (insert_booking d new_id u p car dt));
    [reflexivity | reflexivity |].
  rewrite fetch_booked_insert.
  rewrite filter_none; [apply app_nil_r|].
  intros r Hr. rewrite (left_join_bdt _ _ _ Hr). cbn [booking_datetime].
  apply Z.eqb_neq. exact Hd.
Qed.

Lemma other_dates_do_not_matter_witness :
  get_available_hours
    (insert_booking db_c1 8 108 1 "BB8888BB" (hour_start (day0 + 1) 12)) 1 day0 0
  = get_available_hours db_c1 1 day0 0.
Proof.
  apply (other_dates_do_not_matter db_c1 8 108 1 "BB8888BB" (hour_start (day0 + 1) 12)
           1 day0 0).
  intros H. vm_compute in H. discriminate H.
Defined.

Lemma filter_length {A : Type} (p : A -> bool) (l : list A) :
  (List.length (filter p l) <= List.length l)%nat.
Proof.
  induction l as [|x r IH]; simpl; [lia|]. destruct (p x); simpl; lia.
Qed.

(** X7.  [get_available_hours] never returns more than twelve hours, and
    for a program longer than twelve hours (720 minutes) it returns none:
    no start at 09:00 or later ends by 21:00. *)
Theorem long_programs_get_no_hours d pid date now D :
  fetch_duration d pid = Some D ->
  forall hs,
    get_available_hours d pid date now = Ok hs ->
    (List.length hs <= 12)%nat /\ (720 < D -> hs = []).
Proof.
  intros HD hs H. unfold get_available_hours in H.
  apply bind_Ok in H. destruct H as (starts & Es & H). inversion H; subst hs; clear H.
  apply (available_starts_Ok _ _ _ _ _ _ HD) in Es. subst starts. split.
  - rewrite length_map. unfold kept_starts.
    eapply Nat.le_trans; [apply filter_length|].
    rewrite length_map, hour_range_eq. simpl. lia.
  - intros Hlong.
    destruct (kept_starts d D date now) as [|S r] eqn:Hk; [reflexivity|].
    exfalso.
    assert (Hin : In S (kept_starts d D date now)) by (rewrite Hk; left; reflexivity).
    apply in_kept_starts in Hin. destruct Hin as ((h & Hh & ->) & _ & He & _).
    unfold WORK_START_HOUR, WORK_END_HOUR, hour_start, Time.US_PER_HOUR,
      Time.US_PER_MINUTE in *. lia.
Qed.

Lemma long_programs_get_no_hours_witness :
  exists hs,
    get_available_hours db_long 1 day0 0 = Ok hs
    /\ (List.length hs <= 12)%nat /\ (720 < 721 -> hs = []).
Proof.
  exists []. split; [reflexivity|].
  apply (long_programs_get_no_hours db_long 1 day0 0 721); reflexivity.
Defined.

(** X8.  The clock matters only for today: for a date that is not the date
    of the clock, [get_available_hours] gives the same result whatever the
    time is; a date in the past is offered like any other. *)
Theorem clock_matters_only_today d pid date now now' :
  date <> Time.date_of now ->
  date <> Time.date_of now' ->
  get_available_hours d pid date now = get_available_hours d pid date now'.
Proof.
  intros H H'. unfold get_available_hours, available_starts.
  destruct (fetch_duration d pid) as [D|]; [|reflexivity].
  destruct (plus_hours (Time.day_start date) WORK_START_HOUR) as [ws|e]; [|reflexivity].
  cbn [bind].
  destruct (plus_hours (Time.day_start date) WORK_END_HOUR) as [we|e]; [|reflexivity].
  cbn [bind]. unfold min_allowed.
  apply Z.eqb_neq in H. apply Z.eqb_neq in H'. rewrite H, H'. reflexivity.
Qed.

Lemma clock_matters_only_today_witness :
  get_available_hours db_c1 1 day0 (hour_start (day0 + 3) 15)
  = get_available_hours db_c1 1 day0 0.
Proof.
  apply (clock_matters_only_today db_c1 1 day0 (hour_start (day0 + 3) 15) 0).
  - intros H. vm_compute in H. discriminate H.
  - intros H. vm_compute in H. discriminate H.
Defined.

(** X9.  A finished wash blocks nothing after its actual end: once Finish
    has run at time now, the overlap test of [get_available_hours] against
    that booking is false for every candidate that starts at now plus the
    buffer or later, whatever the nominal start and the program duration
    are. *)
Theorem finished_wash_frees_the_bay d u id row now now' b pd start end_ :
  is_admin d u = true ->
  fetch_booking d id = Some row ->
  bk_status row <> finished ->
  In b (bookings (o_db (finish_wash d u (IdArg id) now now'))) ->
  bk_id b = id ->
  now + BUFFER_MINUTES * Time.US_PER_MINUTE <= start ->
  forall c, overlaps start end_ (join_row b pd) = Ok c -> c = false.
Proof.
  intros Ha Hf Hs Hin Hid Hstart c Ho.
  destruct (finish_wash_proceeds d u id row now now' Ha Hf Hs) as [Hdb _].
  rewrite Hdb in Hin. apply in_update in Hin. destruct Hin as (b0 & Hb0 & ->).
  destruct (Z.eqb_spec (bk_id b0) id) as [He|He]; [|contradiction].
  apply overlaps_Ok in Ho. subst c.
  unfold Spec.conflictsb, Spec.eff_end, join_row, set_finished.
  cbn [r_status r_actual_end bk_status actual_end].
  apply negb_false_iff, orb_true_iff. right.
  rewrite Z.geb_leb. apply Z.leb_le. unfold BUFFER_US. lia.
Qed.

Lemma finished_wash_frees_the_bay_witness :
  exists c,
    overlaps (hour_start day0 11) (hour_start day0 12)
             (join_row (mkBooking 7 100 (Some 1) "AA1234BB" (hour_start day0 10) finished
                                  (Some t_end) (Some t_end)) (Some 60)) = Ok c
    /\ c = false.
Proof.
  exists false. split; [reflexivity|].
  apply (finished_wash_frees_the_bay db_c1 MAIN_ADMIN_ID 7
           (mkBooking 7 100 (Some 1) "AA1234BB" (hour_start day0 10) scheduled None None)
           t_end t_end
           (mkBooking 7 100 (Some 1) "AA1234BB" (hour_start day0 10) finished
                      (Some t_end) (Some t_end))
           (Some 60) (hour_start day0 11) (hour_start day0 12)).
  - reflexivity.
  - reflexivity.
  - discriminate.
  - left. reflexivity.
  - reflexivity.
  - vm_compute. discriminate.
  - reflexivity.
Defined.

(** * Further properties of the edit command *)

Lemma parse_edit_app_len n :
  forall ps qs acc acc',
    (List.length ps <= n)%nat ->
    parse_edit ps acc = inr acc' ->
    parse_edit (ps ++ qs) acc = parse_edit qs acc'.
Proof.
  induction n as [|n IH]; intros ps qs acc acc' Hlen H.
  - destruct ps; [|simpl in Hlen; lia]. simpl in *. inversion H. reflexivity.
  - destruct ps as [|t ps]; [simpl in *; inversion H; reflexivity|].
    simpl in Hlen.
    destruct t; simpl in H |- *.
    + destruct ps as [|t2 ps]; [discriminate|].
      destruct t2; try discriminate. simpl.
      apply IH; [simpl in Hlen; lia | exact H].
    + apply IH; [lia | exact H].
    + apply IH; [lia | exact H].
    + discriminate.
    + discriminate.
Qed.

Lemma parse_edit_app ps qs acc acc' :
  parse_edit ps acc = inr acc' ->
  parse_edit (ps ++ qs) acc = parse_edit qs acc'.
Proof. apply (parse_edit_app_len (List.length ps)). lia. Qed.

(** X10.  The arguments of the edit command are read from left to right and
    a later date, time or status replaces an earlier one: when the
    arguments [ps] are accepted with fields [f], the arguments [ps]
    followed by more arguments are read as those further arguments
    starting from [f]; so a final date, a final time or a final
    [status <name>] sets that field and keeps the other two. *)
Theorem edit_arguments_last_wins ps f :
  parse_edit ps (mkFields None None None) = inr f ->
  (forall qs, parse_edit (ps ++ qs) (mkFields None None None) = parse_edit qs f)
  /\ (forall dt, parse_edit (ps ++ [TDate dt]) (mkFields None None None)
                 = inr (mkFields (Some dt) (new_time f) (new_status f)))
  /\ (forall tod, parse_edit (ps ++ [TTime tod]) (mkFields None None None)
                  = inr (mkFields (new_date f) (Some tod) (new_status f)))
  /\ (forall st, parse_edit (ps ++ [TStatusKw; TStatusName st]) (mkFields None None None)
                 = inr (mkFields (new_date f) (new_time f) (Some st))).
Proof.
  intros H. repeat split; intros; rewrite (parse_edit_app _ _ _ _ H); reflexivity.
Qed.

Lemma edit_arguments_last_wins_witness :
  (forall qs, parse_edit ([TDate day0; TStatusKw; TStatusName finished] ++ qs)
                         (mkFields None None None)
              = parse_edit qs (mkFields (Some day0) None (Some finished)))
  /\ (forall dt, parse_edit ([TDate day0; TStatusKw; TStatusName finished] ++ [TDate dt])
                            (mkFields None None None)
                 = inr (mkFields (Some dt) None (Some finished)))
  /\ (forall tod, parse_edit ([TDate day0; TStatusKw; TStatusName finished] ++ [TTime tod])
                             (mkFields None None None)
                  = inr (mkFields (Some day0) (Some tod) (Some finished)))
  /\ (forall st, parse_edit ([TDate day0; TStatusKw; TStatusName finished]
                             ++ [TStatusKw; TStatusName st]) (mkFields None None None)
                 = inr (mkFields (Some day0) None (Some st))).
Proof.
  apply (edit_arguments_last_wins [TDate day0; TStatusKw; TStatusName finished]
           (mkFields (Some day0) None (Some finished))).
  reflexivity.
Defined.

Lemma date_of_combine dt tod :
  0 <= tod < Time.US_PER_DAY -> Time.date_of (Time.combine dt tod) = dt.
Proof.
  intros H. unfold Time.date_of, Time.combine.
  rewrite Z.add_comm, Z.div_add by discriminate.
  rewrite Z.div_small by exact H. reflexivity.
Qed.

Lemma time_of_combine dt tod :
  0 <= tod < Time.US_PER_DAY -> Time.time_of (Time.combine dt tod) = tod.
Proof.
  intros H. unfold Time.time_of, Time.combine.
  rewrite Z.add_comm, Z.mod_add by discriminate.
  apply Z.mod_small. exact H.
Qed.

Lemma time_of_bounds t : 0 <= Time.time_of t < Time.US_PER_DAY.
Proof. unfold Time.time_of. apply Z.mod_pos_bound. reflexivity. Qed.

(** X11.  Rescheduling by half: the edit command given only a time of day
    moves the booking to that time on the calendar date it had, and given
    only a date moves it to that date at the time of day it had; the status
    is not changed in either case. *)
Theorem edit_keeps_the_other_half d id b :
  fetch_booking d id = Some b ->
  (forall tod, 0 <= tod < Time.US_PER_DAY ->
     exists b',
       fetch_booking (o_db (cmd_edit d (EditArgs id [TTime tod]))) id = Some b'
       /\ Time.date_of (booking_datetime b') = Time.date_of (booking_datetime b)
       /\ Time.time_of (booking_datetime b') = tod
       /\ bk_status b' = bk_status b)
  /\ (forall nd,
     exists b',
       fetch_booking (o_db (cmd_edit d (EditArgs id [TDate nd]))) id = Some b'
       /\ Time.date_of (booking_datetime b') = nd
       /\ Time.time_of (booking_datetime b') = Time.time_of (booking_datetime b)
       /\ bk_status b' = bk_status b).
Proof.
  intros Hf. split.
  - intros tod Htod.
    rewrite (cmd_edit_changes d id [TTime tod] b (mkFields None (Some tod) None) Hf eq_refl)
      by (left; discriminate).
    cbn [o_db]. rewrite fetch_update by reflexivity. rewrite Hf. cbn [option_map].
    eexists. split; [reflexivity|]. cbn.
    split; [apply date_of_combine; exact Htod|].
    split; [apply time_of_combine; exact Htod | reflexivity].
  - intros nd.
    rewrite (cmd_edit_changes d id [TDate nd] b (mkFields (Some nd) None None) Hf eq_refl)
      by (left; discriminate).
    cbn [o_db]. rewrite fetch_update by reflexivity. rewrite Hf. cbn [option_map].
    eexists. split; [reflexivity|]. cbn.
    split; [apply date_of_combine; apply time_of_bounds|].
    split; [apply time_of_combine; apply time_of_bounds | reflexivity].
Qed.

Lemma edit_keeps_the_other_half_witness :
  (forall tod, 0 <= tod < Time.US_PER_DAY ->
     exists b',
       fetch_booking (o_db (cmd_edit db_c1 (EditArgs 7 [TTime tod]))) 7 = Some b'
       /\ Time.date_of (booking_datetime b') = Time.date_of (hour_start day0 10)
       /\ Time.time_of (booking_datetime b') = tod
       /\ bk_status b' = scheduled)
  /\ (forall nd,
     exists b',
       fetch_booking (o_db (cmd_edit db_c1 (EditArgs 7 [TDate nd]))) 7 = Some b'
       /\ Time.date_of (booking_datetime b') = nd
       /\ Time.time_of (booking_datetime b') = Time.time_of (hour_start day0 10)
       /\ bk_status b' = scheduled).
Proof.
  apply (edit_keeps_the_other_half db_c1 7
           (mkBooking 7 100 (Some 1) "AA1234BB" (hour_start day0 10) scheduled None None)).
  reflexivity.
Defined.

(** * delete_booking *)

Lemma NoDup_map_filter {A B : Type} (g : A -> B) (p : A -> bool) (l : list A) :
  NoDup (map g l) -> NoDup (map g (filter p l)).
Proof.
  induction l as [|x r IH]; simpl; intros H; [constructor|].
  inversion H as [|? ? Hx Hr]; subst.
  destruct (p x); simpl; [|apply IH; exact Hr].
  constructor; [|apply IH; exact Hr].
  intros Hin. apply Hx. apply in_map_iff in Hin. destruct Hin as (y & Hy & Hyin).
  apply in_map_iff. exists y. split; [exact Hy|]. apply filter_In in Hyin. apply Hyin.
Qed.

(** X12.  A delete by an admin of an existing booking removes every row
    with that id and nothing else, tells the admin and sends the
    cancellation to the customer of the deleted booking; the id can no
    longer be fetched, and the data-model invariant and the uniqueness of
    ids carry over to the table that is left. *)
Theorem delete_booking_removes d u id row :
  is_admin d u = true ->
  fetch_booking d id = Some row ->
  let o := delete_booking d u (IdArg id) in
  fetch_booking (h_db o) id = None
  /\ (forall b, In b (bookings (h_db o)) <-> In b (bookings d) /\ bk_id b <> id)
  /\ h_events o = [DelDeleted id; DelNotifyCancelled (bk_user_id row) (bk_car_number row)]
  /\ h_raised o = None
  /\ programs (h_db o) = programs d
  /\ admins (h_db o) = admins d
  /\ (db_inv d -> db_inv (h_db o))
  /\ (primary_key d -> primary_key (h_db o)).
Proof.
  intros Ha Hf o.
  assert (Ho : o = mkHandled (delete_rows id d)
                 [DelDeleted id; DelNotifyCancelled (bk_user_id row) (bk_car_number row)]
                 None).
  { unfold o, delete_booking. rewrite Ha, Hf. reflexivity. }
  rewrite Ho. cbn [h_db h_events h_raised].
  assert (Hin : forall b, In b (bookings (delete_rows id d))
                          <-> In b (bookings d) /\ bk_id b <> id).
  { intros b. unfold delete_rows. cbn [bookings]. rewrite filter_In.
    rewrite negb_true_iff, Z.eqb_neq. tauto. }
  split.
  - unfold fetch_booking.
    destruct (find _ (bookings (delete_rows id d))) as [b|] eqn:E; [|reflexivity].
    apply find_some in E. destruct E as [E1 E2]. apply Hin in E1.
    apply Z.eqb_eq in E2. destruct E1 as [_ E1]. contradiction.
  - split; [exact Hin|].
    split; [reflexivity|]. split; [reflexivity|].
    split; [reflexivity|]. split; [reflexivity|]. split.
    + intros Hinv b Hb. apply Hinv. apply Hin in Hb. apply Hb.
    + unfold primary_key, delete_rows. cbn [bookings]. apply NoDup_map_filter.
Qed.

Lemma delete_booking_removes_witness :
  let o := delete_booking db_queue MAIN_ADMIN_ID (IdArg 8) in
  fetch_booking (h_db o) 8 = None
  /\ (forall b, In b (bookings (h_db o)) <-> In b (bookings db_queue) /\ bk_id b <> 8)
  /\ h_events o = [DelDeleted 8; DelNotifyCancelled 108 "BB8888BB"]
  /\ h_raised o = None
  /\ programs (h_db o) = programs db_queue
  /\ admins (h_db o) = admins db_queue
  /\ (db_inv db_queue -> db_inv (h_db o))
  /\ (primary_key db_queue -> primary_key (h_db o)).
Proof.
  apply (delete_booking_removes db_queue MAIN_ADMIN_ID 8 booking8); reflexivity.
Defined.

(** * Admins *)

Lemma existsb_eqb_In (x : Z) (l : list Z) :
  existsb (fun a => a =? x) l = true <-> In x l.
Proof.
  rewrite existsb_exists. split.
  - intros (a & Ha & He). apply Z.eqb_eq in He. subst. exact Ha.
  - intros H. exists x. split; [exact H | apply Z.eqb_refl].
Qed.

Lemma is_admin_spec d x : is_admin d x = true <-> x = MAIN_ADMIN_ID \/ In x (admins d).
Proof.
  unfold is_admin. destruct (Z.eqb_spec x MAIN_ADMIN_ID) as [He|He].
  - split; auto.
  - rewrite existsb_eqb_In. split; [auto | intros [H|H]; [contradiction | exact H]].
Qed.

Lemma is_admin_same d d' : admins d' = admins d -> forall x, is_admin d' x = is_admin d x.
Proof. intros H x. unfold is_admin. rewrite H. reflexivity. Qed.

Lemma bool_eq_iff (a b : bool) : (a = true <-> b = true) -> a = b.
Proof.
  destruct a, b; intros [H1 H2]; try reflexivity.
  - symmetry. apply H1. reflexivity.
  - apply H2. reflexivity.
Qed.

(** X13.  The admin list: after the main admin adds a user (an id within the
    64-bit range) that user is an admin, after the main admin removes a
    user other than the main admin that user is not; nobody else's standing
    changes, the main admin is an admin whatever the table holds, a sender
    other than the main admin changes nothing, and adding never stores an
    id twice. *)
Theorem admin_list_round_trip d x :
  int64_ok x = true ->
  is_admin (h_db (add_admin d MAIN_ADMIN_ID (AdmId x))) x = true
  /\ (x <> MAIN_ADMIN_ID ->
      is_admin (h_db (del_admin d MAIN_ADMIN_ID (AdmId x))) x = false)
  /\ is_admin (h_db (del_admin d MAIN_ADMIN_ID (AdmId MAIN_ADMIN_ID))) MAIN_ADMIN_ID = true
  /\ (forall y, y <> x ->
        is_admin (h_db (add_admin d MAIN_ADMIN_ID (AdmId x))) y = is_admin d y
        /\ is_admin (h_db (del_admin d MAIN_ADMIN_ID (AdmId x))) y = is_admin d y)
  /\ (forall u a, u <> MAIN_ADMIN_ID ->
        add_admin d u a = mkHandled d [OnlyMainAdmin] None
        /\ del_admin d u a = mkHandled d [OnlyMainAdmin] None)
  /\ (NoDup (admins d) ->
      NoDup (admins (h_db (add_admin d MAIN_ADMIN_ID (AdmId x))))).
Proof.
  intros Hx.
  assert (Hadd : h_db (add_admin d MAIN_ADMIN_ID (AdmId x)) = insert_admin x d).
  { unfold add_admin. rewrite Z.eqb_refl, Hx. reflexivity. }
  assert (Hdel : h_db (del_admin d MAIN_ADMIN_ID (AdmId x)) = delete_admin x d).
  { unfold del_admin. rewrite Z.eqb_refl, Hx. reflexivity. }
  assert (Hins : forall y, In y (admins (insert_admin x d)) <-> y = x \/ In y (admins d)).
  { intros y. unfold insert_admin.
    destruct (existsb (fun a => a =? x) (admins d)) eqn:E.
    - apply existsb_eqb_In in E. split; [auto | intros [->|H]; auto].
    - cbn [admins]. rewrite in_app_iff. simpl. split; intros H.
      + destruct H as [H|[H|[]]]; [right; exact H | left; symmetry; exact H].
      + destruct H as [H|H]; [right; left; symmetry; exact H | left; exact H]. }
  assert (Hrem : forall y, In y (admins (delete_admin x d)) <-> In y (admins d) /\ y <> x).
  { intros y. unfold delete_admin. cbn [admins].
    rewrite filter_In, negb_true_iff, Z.eqb_neq. tauto. }
  rewrite Hadd, Hdel.
  split; [apply is_admin_spec; right; apply Hins; auto|].
  split.
  { intros Hne. destruct (is_admin (delete_admin x d) x) eqn:E; [|reflexivity].
    apply is_admin_spec in E. destruct E as [E|E]; [contradiction|].
    apply Hrem in E. destruct E as [_ E]. contradiction. }
  split; [reflexivity|].
  split.
  { intros y Hy. split; apply bool_eq_iff; rewrite !is_admin_spec.
    - rewrite Hins. split; intros [H|H]; auto. destruct H as [H|H]; auto. contradiction.
    - rewrite Hrem. split; intros [H|H]; auto. destruct H as [H _]. auto. }
  split.
  { intros u a Hu. apply Z.eqb_neq in Hu. unfold add_admin, del_admin. rewrite Hu.
    split; reflexivity. }
  intros Hnd. unfold insert_admin.
  destruct (existsb (fun a => a =? x) (admins d)) eqn:E; [exact Hnd|].
  cbn [admins]. apply NoDup_app; [exact Hnd | repeat constructor; intros [] |].
  intros y Hy [He|[]]. subst y.
  assert (Ht : existsb (fun a => a =? x) (admins d) = true)
    by (apply existsb_eqb_In; exact Hy).
  rewrite Ht in E. discriminate E.
Qed.

Lemma admin_list_round_trip_witness :
  is_admin (h_db (add_admin db_c1 MAIN_ADMIN_ID (AdmId 555))) 555 = true
  /\ (555 <> MAIN_ADMIN_ID ->
      is_admin (h_db (del_admin db_c1 MAIN_ADMIN_ID (AdmId 555))) 555 = false)
  /\ is_admin (h_db (del_admin db_c1 MAIN_ADMIN_ID (AdmId MAIN_ADMIN_ID))) MAIN_ADMIN_ID = true
  /\ (forall y, y <> 555 ->
        is_admin (h_db (add_admin db_c1 MAIN_ADMIN_ID (AdmId 555))) y = is_admin db_c1 y
        /\ is_admin (h_db (del_admin db_c1 MAIN_ADMIN_ID (AdmId 555))) y = is_admin db_c1 y)
  /\ (forall u a, u <> MAIN_ADMIN_ID ->
        add_admin db_c1 u a = mkHandled db_c1 [OnlyMainAdmin] None
        /\ del_admin db_c1 u a = mkHandled db_c1 [OnlyMainAdmin] None)
  /\ (NoDup (admins db_c1) ->
      NoDup (admins (h_db (add_admin db_c1 MAIN_ADMIN_ID (AdmId 555))))).
Proof.
  apply (admin_list_round_trip db_c1 555). reflexivity.
Defined.

(** * Program durations *)



Lemma fetch_duration_update d pid D q :
  fetch_duration (update_duration pid D d) q
  = if q =? pid then option_map (fun _ => D) (fetch_duration d q) else fetch_duration d q.
Proof.
  unfold fetch_duration, update_duration. cbn [programs].
  induction (programs d) as [|p r IH]; simpl.
  - destruct (q =? pid); reflexivity.
  - destruct (Z.eqb_spec (p_id p) pid) as [Hp|Hp]; cbn [p_id].
    + destruct (Z.eqb_spec (p_id p) q) as [Hq|Hq].
      * rewrite <- Hq, Hp, Z.eqb_refl. reflexivity.
      * exact IH.
    + destruct (Z.eqb_spec (p_id p) q) as [Hq|Hq].
      * rewrite <- Hq. destruct (Z.eqb_spec (p_id p) pid); [contradiction | reflexivity].
      * exact IH.
Qed.

(** X15.  [edit_program] stores whatever duration the admin gives, zero and
    negative values included, with no check of its sign: for a program in
    the catalog the duration fetched afterwards is hours * 60 + minutes +
    seconds // 60 of the new value; the other programs and all bookings are
    untouched. *)
Theorem edit_program_sets_duration d u pid D0 h m s :
  is_admin d u = true ->
  fetch_duration d pid = Some D0 ->
  int32_ok pid = true ->
  int32_ok (duration_minutes h m s) = true ->
  let o := edit_program_duration d u (EpDuration pid (Some (h, m, s))) in
  fetch_duration (h_db o) pid = Some (duration_minutes h m s)
  /\ (forall q, q <> pid -> fetch_duration (h_db o) q = fetch_duration d q)
  /\ bookings (h_db o) = bookings d
  /\ admins (h_db o) = admins d
  /\ h_events o = [EpChanged pid (duration_minutes h m s)].
Proof.
  intros Ha HD Hp Hv o.
  assert (Ho : o = mkHandled (update_duration pid (duration_minutes h m s) d)
                             [EpChanged pid (duration_minutes h m s)] None).
  { unfold o, edit_program_duration. rewrite Ha, Hv, Hp. reflexivity. }
  rewrite Ho. cbn [h_db h_events].
  split; [rewrite fetch_duration_update, Z.eqb_refl, HD; reflexivity|].
  split; [|repeat split].
  intros q Hq. rewrite fetch_duration_update.
  apply Z.eqb_neq in Hq. rewrite Hq. reflexivity.
Qed.

Lemma edit_program_sets_duration_witness :
  let o := edit_program_duration db_c1 MAIN_ADMIN_ID (EpDuration 1 (Some (0, -45, 0))) in
  fetch_duration (h_db o) 1 = Some (duration_minutes 0 (-45) 0)
  /\ (forall q, q <> 1 -> fetch_duration (h_db o) q = fetch_duration db_c1 q)
  /\ bookings (h_db o) = bookings db_c1
  /\ admins (h_db o) = admins db_c1
  /\ h_events o = [EpChanged 1 (duration_minutes 0 (-45) 0)].
Proof.
  apply (edit_program_sets_duration db_c1 MAIN_ADMIN_ID 1 60 0 (-45) 0); reflexivity.
Defined.

(** * The booking dialogue *)

Lemma session_get_set_same u w s : session_get u (session_set u w s) = Some w.
Proof.
  unfold session_get. induction s as [|[k v] r IH]; simpl.
  - rewrite Z.eqb_refl. reflexivity.
  - destruct (Z.eqb_spec k u) as [He|He]; simpl.
    + rewrite Z.eqb_refl. reflexivity.
    + destruct (Z.eqb_spec k u); [contradiction | exact IH].
Qed.

Lemma session_get_set_other u u' w s :
  u' <> u -> session_get u' (session_set u w s) = session_get u' s.
Proof.
  intros Hne. unfold session_get. induction s as [|[k v] r IH]; simpl.
  - destruct (Z.eqb_spec u u'); [congruence | reflexivity].
  - destruct (Z.eqb_spec k u) as [He|He]; simpl.
    + subst k. destruct (Z.eqb_spec u u'); [congruence | reflexivity].
    + destruct (Z.eqb_spec k u'); [reflexivity | exact IH].
Qed.

Lemma session_get_pop_same u s : session_get u (session_pop u s) = None.
Proof.
  unfold session_get, session_pop. induction s as [|[k v] r IH]; simpl; [reflexivity|].
  destruct (Z.eqb_spec k u) as [He|He]; simpl; [exact IH|].
  destruct (Z.eqb_spec k u); [contradiction | exact IH].
Qed.

Lemma session_get_pop_other u u' s :
  u' <> u -> session_get u' (session_pop u s) = session_get u' s.
Proof.
  intros Hne. unfold session_get, session_pop.
  induction s as [|[k v] r IH]; simpl; [reflexivity|].
  destruct (Z.eqb_spec k u) as [He|He]; simpl.
  - subst k. destruct (Z.eqb_spec u u'); [congruence | exact IH].
  - destruct (Z.eqb_spec k u'); [reflexivity | exact IH].
Qed.

Lemma existsb_string_In (t : string) (l : list string) :
  existsb (String.eqb t) l = true <-> In t l.
Proof.
  rewrite existsb_exists. split.
  - intros (x & Hx & He). apply String.eqb_eq in He. subst. exact Hx.
  - intros H. exists t. split; [exact H | apply String.eqb_refl].
Qed.

Lemma insert_booking_inv d new_id u p car dt :
  db_inv d -> db_inv (insert_booking d new_id u p car dt).
Proof.
  intros Hinv b Hb. unfold insert_booking in Hb. cbn [bookings] in Hb.
  apply in_app_iff in Hb. destruct Hb as [Hb|[<-|[]]]; [apply Hinv; exact Hb|].
  split; cbn; intros H; exfalso; apply H; reflexivity.
Qed.

Lemma insert_booking_key d new_id u p car dt :
  primary_key d -> ~ In new_id (map bk_id (bookings d)) ->
  primary_key (insert_booking d new_id u p car dt).
Proof.
  unfold primary_key, insert_booking. cbn [bookings]. intros Hnd Hfresh.
  rewrite map_app. cbn [map bk_id].
  apply NoDup_app; [exact Hnd | repeat constructor; intros [] |].
  intros x Hx [He|[]]. subst x. contradiction.
Qed.

Section DialogueProperties.

Variable strptime_HM : string -> option Z.

(** What one message of the dialogue can do to the tables. *)
Lemma process_booking_db d s m today now new_id :
  let o := process_booking strptime_HM d s m today now new_id in
  wo_db o = d
  \/ exists pid date t car phone tod,
       session_get (m_from_user m) s
       = Some (mkWizard (Some pid) (Some date) (Some t) (Some car) None)
       /\ strptime_HM t = Some tod
       /\ existsb (fun p => p_id p =? pid) (programs d) = true
       /\ wo_db o = insert_booking d new_id (m_from_user m) pid car (Time.combine date tod)
       /\ wo_replies o = [WConfirmed date t car phone]
       /\ wo_raised o = None
       /\ wo_sessions o
          = session_pop (m_from_user m)
              (session_set (m_from_user m)
                 (mkWizard (Some pid) (Some date) (Some t) (Some car) (Some phone)) s).
Proof.
  intros o. subst o. unfold process_booking.
  destruct (session_get (m_from_user m) s) as [data|] eqn:Hs; [|left; reflexivity].
  destruct data as [wp wd wt wc wph]. cbn [w_program_id w_booking_date w_booking_time
                                            w_car_number w_phone_number].
  destruct wp as [pid|]; [|destruct (m_program m); left; reflexivity].
  destruct wd as [date|].
  2:{ destruct (m_date m) as [dt|]; [|left; reflexivity].
      destruct (dt <? today); [left; reflexivity|].
      destruct (get_available_hours d pid dt now) as [[|x r]|e]; left; reflexivity. }
  destruct wt as [t|].
  2:{ destruct (get_available_hours d pid date now) as [hs|e]; [|left; reflexivity].
      destruct (m_text m) as [tx|]; [|left; reflexivity].
      destruct (existsb (String.eqb tx) hs); left; reflexivity. }
  destruct wc as [car|].
  2:{ destruct (m_text m); [|left; reflexivity].
      destruct (m_plate m); left; reflexivity. }
  destruct wph as [ph|]; [left; reflexivity|].
  destruct (m_phone m) as [phone|phone| |]; try (left; reflexivity).
  - destruct (strptime_HM t) as [tod|] eqn:Ht; [|left; reflexivity].
    destruct (existsb (fun p => p_id p =? pid) (programs d)) eqn:Hp; [|left; reflexivity].
    right. exists pid, date, t, car, phone, tod. repeat split; auto.
  - destruct (strptime_HM t) as [tod|] eqn:Ht; [|left; reflexivity].
    destruct (existsb (fun p => p_id p =? pid) (programs d)) eqn:Hp; [|left; reflexivity].
    right. exists pid, date, t, car, phone, tod. repeat split; auto.
Qed.

(** X16.  One message of the booking dialogue either leaves the tables as
    they are or appends exactly one booking: for the sender, with the id
    drawn for it, status scheduled and no actual times, for a program of the
    catalog; it never changes or removes an existing booking, the catalog
    or the admins.  So the data-model invariant is kept, and so is the
    uniqueness of ids when the drawn id is new. *)
Theorem dialogue_only_appends d s m today now new_id :
  let o := process_booking strptime_HM d s m today now new_id in
  programs (wo_db o) = programs d
  /\ admins (wo_db o) = admins d
  /\ (bookings (wo_db o) = bookings d
      \/ exists pid car dt,
           existsb (fun p => p_id p =? pid) (programs d) = true
           /\ bookings (wo_db o)
              = bookings d
                ++ [mkBooking new_id (m_from_user m) (Some pid) car dt scheduled None None])
  /\ (db_inv d -> db_inv (wo_db o))
  /\ (primary_key d -> ~ In new_id (map bk_id (bookings d)) -> primary_key (wo_db o)).
Proof.
  intros o. subst o.
  destruct (process_booking_db d s m today now new_id)
    as [->|(pid & date & t & car & phone & tod & _ & _ & Hp & -> & _)].
  - split; [reflexivity|]. split; [reflexivity|]. split; [left; reflexivity|].
    split; [intros H; exact H | intros H _; exact H].
  - split; [reflexivity|]. split; [reflexivity|]. split; [|split].
    + right. exists pid, car, (Time.combine date tod). split; [exact Hp | reflexivity].
    + apply insert_booking_inv.
    + apply insert_booking_key.
Qed.

(** X17.  From the hour to the booking: when the sender has chosen program
    and date and answers with a text that [get_available_hours] returns at
    that moment, then gives a valid plate and a phone number, the dialogue
    ends by inserting one booking for the sender, that program and plate,
    at the whole hour of the date whose label the text is, which was one of
    the starts kept by [get_available_hours]; the session is closed.
    [strptime] is only assumed to read the labels HH:00 back. *)
Theorem dialogue_books_the_chosen_hour d s u pid date t hs plate phone
    m3 m4 m5 today3 now3 id3 today4 now4 id4 today5 now5 id5 :
  (forall h, 0 <= h < 24 -> strptime_HM (hour_label h) = Some (h * Time.US_PER_HOUR)) ->
  session_get u s = Some (mkWizard (Some pid) (Some date) None None None) ->
  m_from_user m3 = u -> m_text m3 = Some t ->
  get_available_hours d pid date now3 = Ok hs -> In t hs ->
  m_from_user m4 = u -> m_text m4 <> None -> m_plate m4 = Some plate ->
  m_from_user m5 = u ->
  (m_phone m5 = PhoneContact phone \/ m_phone m5 = PhoneTyped phone) ->
  let o3 := process_booking strptime_HM d s m3 today3 now3 id3 in
  let o4 := process_booking strptime_HM (wo_db o3) (wo_sessions o3) m4 today4 now4 id4 in
  let o5 := process_booking strptime_HM (wo_db o4) (wo_sessions o4) m5 today5 now5 id5 in
  exists h,
    WORK_START_HOUR <= h < WORK_END_HOUR
    /\ t = hour_label h
    /\ (exists starts, available_starts d pid date now3 = Ok starts
                       /\ In (hour_start date h) starts)
    /\ wo_db o5 = insert_booking d id5 u pid plate (hour_start date h)
    /\ wo_replies o5 = [WConfirmed date t plate phone]
    /\ wo_raised o5 = None
    /\ session_get u (wo_sessions o5) = None.
Proof.
  intros Hstrp Hs Hu3 Ht3 Hav Hin Hu4 Ht4 Hp4 Hu5 Hph o3 o4 o5.
  (* the hour behind the text *)
  assert (HD : exists D, fetch_duration d pid = Some D).
  { destruct (fetch_duration d pid) as [D|] eqn:HD; [eauto|].
    unfold get_available_hours, available_starts in Hav. rewrite HD in Hav.
    inversion Hav; subst hs. destruct Hin. }
  destruct HD as (D & HD).
  pose proof Hav as Hav'. unfold get_available_hours in Hav'.
  apply bind_Ok in Hav'. destruct Hav' as (starts & Es & Hmap).
  inversion Hmap; subst hs; clear Hmap.
  pose proof (available_starts_Ok _ _ _ _ _ _ HD Es) as Hk.
  rewrite kept_starts_hours in Hk.
  assert (Hall : forall x, In x (kept_hours d D date now3) ->
                           WORK_START_HOUR <= x < WORK_END_HOUR).
  { intros x Hx. unfold kept_hours in Hx. apply filter_In in Hx.
    apply hour_range_spec. apply Hx. }
  assert (Hall24 : Forall (fun x => 0 <= x < 24) (kept_hours d D date now3)).
  { apply Forall_forall. intros x Hx. apply Hall in Hx.
    unfold WORK_START_HOUR, WORK_END_HOUR in Hx. lia. }
  pose proof Hin as Hin'. rewrite Hk, (map_strftime_hours _ _ Hall24) in Hin'.
  apply in_map_iff in Hin'. destruct Hin' as (h & Hth & Hh).
  pose proof (Hall h Hh) as Hhr.
  assert (Hprog : existsb (fun p => p_id p =? pid) (programs d) = true).
  { unfold fetch_duration in HD.
    destruct (find (fun p => p_id p =? pid) (programs d)) as [q|] eqn:Hq; [|discriminate].
    apply find_some in Hq. apply existsb_exists. exists q. exact Hq. }
  (* the three steps *)
  assert (E3 : o3 = mkWizardOutcome d
                 (session_set u (mkWizard (Some pid) (Some date) (Some t) None None) s)
                 [WEnterCar] None).
  { unfold o3, process_booking. rewrite Hu3, Hs. cbn [w_program_id w_booking_date
      w_booking_time w_car_number w_phone_number].
    rewrite Hav, Ht3. rewrite (proj2 (existsb_string_In t _) Hin). reflexivity. }
  assert (E4 : o4 = mkWizardOutcome d
                 (session_set u (mkWizard (Some pid) (Some date) (Some t) (Some plate) None)
                    (session_set u (mkWizard (Some pid) (Some date) (Some t) None None) s))
                 [WSendPhone] None).
  { unfold o4. rewrite E3. cbn [wo_db wo_sessions]. unfold process_booking.
    rewrite Hu4, session_get_set_same. cbn [w_program_id w_booking_date
      w_booking_time w_car_number w_phone_number].
    destruct (m_text m4); [|contradiction]. rewrite Hp4. reflexivity. }
  assert (E5 : wo_db o5 = insert_booking d id5 u pid plate (hour_start date h)
               /\ wo_replies o5 = [WConfirmed date t plate phone]
               /\ wo_raised o5 = None
               /\ session_get u (wo_sessions o5) = None).
  { unfold o5. rewrite E4. cbn [wo_db wo_sessions]. unfold process_booking.
    rewrite Hu5, session_get_set_same. cbn [w_program_id w_booking_date
      w_booking_time w_car_number w_phone_number].
    rewrite <- Hth, (Hstrp h) by (unfold WORK_START_HOUR, WORK_END_HOUR in Hhr; lia).
    rewrite Hprog.
    destruct Hph as [-> | ->]; cbn [wo_db wo_replies wo_raised wo_sessions];
      repeat split; apply session_get_pop_same. }
  exists h. split; [exact Hhr|]. split; [symmetry; exact Hth|]. split.
  - exists starts. split; [exact Es|]. rewrite Hk. apply in_map. exact Hh.
  - exact E5.
Qed.

End DialogueProperties.

Lemma dialogue_only_appends_witness :
  let o := process_booking read_HM db_c1 s_at_hour msg_hour day0 0 8 in
  programs (wo_db o) = programs db_c1
  /\ admins (wo_db o) = admins db_c1
  /\ (bookings (wo_db o) = bookings db_c1
      \/ exists pid car dt,
           existsb (fun p => p_id p =? pid) (programs db_c1) = true
           /\ bookings (wo_db o)
              = bookings db_c1
                ++ [mkBooking 8 (m_from_user msg_hour) (Some pid) car dt scheduled None None])
  /\ (db_inv db_c1 -> db_inv (wo_db o))
  /\ (primary_key db_c1 -> ~ In 8 (map bk_id (bookings db_c1)) -> primary_key (wo_db o)).
Proof.
  apply (dialogue_only_appends read_HM db_c1 s_at_hour msg_hour day0 0 8).
Defined.

Lemma dialogue_books_the_chosen_hour_witness :
  let o3 := process_booking read_HM db_c1 s_at_hour msg_hour day0 0 8 in
  let o4 := process_booking read_HM (wo_db o3) (wo_sessions o3) msg_plate day0 0 8 in
  let o5 := process_booking read_HM (wo_db o4) (wo_sessions o4) msg_phone day0 0 8 in
  exists h,
    WORK_START_HOUR <= h < WORK_END_HOUR
    /\ "12:00"%string = hour_label h
    /\ (exists starts, available_starts db_c1 1 day0 0 = Ok starts
                       /\ In (hour_start day0 h) starts)
    /\ wo_db o5 = insert_booking db_c1 8 200 1 "AA1111BB" (hour_start day0 h)
    /\ wo_replies o5 = [WConfirmed day0 "12:00" "AA1111BB" "+380501112233"]
    /\ wo_raised o5 = None
    /\ session_get 200 (wo_sessions o5) = None.
Proof.
  apply (dialogue_books_the_chosen_hour read_HM db_c1 s_at_hour 200 1 day0 "12:00"
           c1_hours "AA1111BB" "+380501112233" msg_hour msg_plate msg_phone
           day0 0 8 day0 0 8 day0 0 8).
  - exact read_HM_hour_label.
  - reflexivity.
  - reflexivity.
  - reflexivity.
  - reflexivity.
  - left. reflexivity.
  - reflexivity.
  - discriminate.
  - reflexivity.
  - reflexivity.
  - left. reflexivity.
Defined.

(** X18.  The last step of the dialogue does not look at the bookings
    again: when two users have both come as far as the plate with the same
    date and hour, each phone number that follows inserts a booking, and
    the table ends with two scheduled bookings at the same nominal start,
    whatever it held before. *)
Theorem dialogue_books_twice strptime_HM d s u1 u2 p1 p2 date t tod car1 car2
    phone1 phone2 m1 m2 today1 now1 id1 today2 now2 id2 :
  u1 <> u2 ->
  strptime_HM t = Some tod ->
  session_get u1 s = Some (mkWizard (Some p1) (Some date) (Some t) (Some car1) None) ->
  session_get u2 s = Some (mkWizard (Some p2) (Some date) (Some t) (Some car2) None) ->
  existsb (fun p => p_id p =? p1) (programs d) = true ->
  existsb (fun p => p_id p =? p2) (programs d) = true ->
  m_from_user m1 = u1 -> m_phone m1 = PhoneContact phone1 ->
  m_from_user m2 = u2 -> m_phone m2 = PhoneContact phone2 ->
  let o1 := process_booking strptime_HM d s m1 today1 now1 id1 in
  let o2 := process_booking strptime_HM (wo_db o1) (wo_sessions o1) m2 today2 now2 id2 in
  wo_replies o1 = [WConfirmed date t car1 phone1]
  /\ wo_replies o2 = [WConfirmed date t car2 phone2]
  /\ bookings (wo_db o2)
     = bookings d
       ++ [mkBooking id1 u1 (Some p1) car1 (Time.combine date tod) scheduled None None;
           mkBooking id2 u2 (Some p2) car2 (Time.combine date tod) scheduled None None].
Proof.
  intros Hne Ht Hs1 Hs2 Hp1 Hp2 Hu1 Hph1 Hu2 Hph2 o1 o2.
  assert (E1 : o1 = mkWizardOutcome
                 (insert_booking d id1 u1 p1 car1 (Time.combine date tod))
                 (session_pop u1
                    (session_set u1
                       (mkWizard (Some p1) (Some date) (Some t) (Some car1) (Some phone1)) s))
                 [WConfirmed date t car1 phone1] None).
  { unfold o1, process_booking. rewrite Hu1, Hs1.
    cbn [w_program_id w_booking_date w_booking_time w_car_number w_phone_number].
    rewrite Hph1, Ht, Hp1. reflexivity. }
  assert (E2 : wo_db o2
               = insert_booking (insert_booking d id1 u1 p1 car1 (Time.combine date tod))
                                id2 u2 p2 car2 (Time.combine date tod)
               /\ wo_replies o2 = [WConfirmed date t car2 phone2]).
  { unfold o2. rewrite E1. cbn [wo_db wo_sessions]. unfold process_booking.
    rewrite Hu2.
    rewrite session_get_pop_other by (intros H; apply Hne; symmetry; exact H).
    rewrite session_get_set_other by (intros H; apply Hne; symmetry; exact H).
    rewrite Hs2.
    cbn [w_program_id w_booking_date w_booking_time w_car_number w_phone_number].
    rewrite Hph2, Ht. cbn [programs insert_booking]. rewrite Hp2.
    split; reflexivity. }
  destruct E2 as [E2 E2'].
  split; [rewrite E1; reflexivity|]. split; [exact E2'|].
  rewrite E2. cbn [insert_booking bookings]. rewrite <- app_assoc. reflexivity.
Qed.

Lemma dialogue_books_twice_witness :
  let o1 := process_booking read_HM db_c1 s_two msg_phone day0 0 8 in
  let o2 := process_booking read_HM (wo_db o1) (wo_sessions o1) msg_phone_201 day0 0 9 in
  wo_replies o1 = [WConfirmed day0 "12:00" "AA1111BB" "+380501112233"]
  /\ wo_replies o2 = [WConfirmed day0 "12:00" "CC2222DD" "+380502223344"]
  /\ bookings (wo_db o2)
     = bookings db_c1
       ++ [mkBooking 8 200 (Some 1) "AA1111BB" (Time.combine day0 (12 * Time.US_PER_HOUR))
                     scheduled None None;
           mkBooking 9 201 (Some 1) "CC2222DD" (Time.combine day0 (12 * Time.US_PER_HOUR))
                     scheduled None None].
Proof.
  apply (dialogue_books_twice read_HM db_c1 s_two 200 201 1 1 day0 "12:00"
           (12 * Time.US_PER_HOUR) "AA1111BB" "CC2222DD" "+380501112233" "+380502223344"
           msg_phone msg_phone_201 day0 0 8 day0 0 9).
  - discriminate.
  - reflexivity.
  - reflexivity.
  - reflexivity.
  - reflexivity.
  - reflexivity.
  - reflexivity.
  - reflexivity.
  - reflexivity.
  - reflexivity.
Defined.

(** X19.  The date step keeps a date only when it is not before today and
    [get_available_hours] did not come back empty for it: a date before
    today is answered as invalid and changes nothing, and whenever the
    sender's session holds a date after the step, it is the date of the
    message, it is today or later, and the hours for it were not the empty
    list. *)
Theorem date_step_guards strptime_HM d s m pid bt car ph today now new_id :
  session_get (m_from_user m) s = Some (mkWizard (Some pid) None bt car ph) ->
  let o := process_booking strptime_HM d s m today now new_id in
  (forall dt, m_date m = Some dt -> dt < today ->
     o = mkWizardOutcome d s [WInvalidDate] None)
  /\ (forall dt, m_date m = Some dt -> get_available_hours d pid dt now = Ok [] ->
     o = mkWizardOutcome d s [WInvalidDate] None
     \/ o = mkWizardOutcome d s [WNoFreeHours] None)
  /\ (forall data dt,
     session_get (m_from_user m) (wo_sessions o) = Some data ->
     w_booking_date data = Some dt ->
     m_date m = Some dt /\ today <= dt /\ get_available_hours d pid dt now <> Ok []).
Proof.
  intros Hs o. subst o. unfold process_booking. rewrite Hs.
  cbn [w_program_id w_booking_date w_booking_time w_car_number w_phone_number].
  split; [|split].
  - intros dt Hd Hlt. rewrite Hd. apply Z.ltb_lt in Hlt. rewrite Hlt. reflexivity.
  - intros dt Hd Hav. rewrite Hd. destruct (dt <? today); [left; reflexivity|].
    rewrite Hav. right. reflexivity.
  - intros data dt.
    destruct (m_date m) as [md|];
      [|cbn [wo_sessions]; rewrite Hs; intros H1 H2; inversion H1; subst data;
        discriminate H2].
    destruct (Z.ltb_spec md today) as [Hlt|Hge];
      [cbn [wo_sessions]; rewrite Hs; intros H1 H2; inversion H1; subst data;
        discriminate H2|].
    destruct (get_available_hours d pid md now) as [[|x r]|e] eqn:Hav;
      cbn [wo_sessions].
    + rewrite Hs. intros H1 H2. inversion H1; subst data. discriminate H2.
    + rewrite session_get_set_same. intros H1 H2. inversion H1; subst data.
      cbn in H2. inversion H2; subst dt. rewrite Hav.
      repeat split; auto; discriminate.
    + rewrite session_get_set_same. intros H1 H2. inversion H1; subst data.
      cbn in H2. inversion H2; subst dt. rewrite Hav.
      repeat split; auto; discriminate.
Qed.

Lemma date_step_guards_witness :
  let o := process_booking read_HM db_c1 s_at_date msg_yesterday day0 0 8 in
  (forall dt, m_date msg_yesterday = Some dt -> dt < day0 ->
     o = mkWizardOutcome db_c1 s_at_date [WInvalidDate] None)
  /\ (forall dt, m_date msg_yesterday = Some dt ->
     get_available_hours db_c1 1 dt 0 = Ok [] ->
     o = mkWizardOutcome db_c1 s_at_date [WInvalidDate] None
     \/ o = mkWizardOutcome db_c1 s_at_date [WNoFreeHours] None)
  /\ (forall data dt,
     session_get (m_from_user msg_yesterday) (wo_sessions o) = Some data ->
     w_booking_date data = Some dt ->
     m_date msg_yesterday = Some dt /\ day0 <= dt
     /\ get_available_hours db_c1 1 dt 0 <> Ok []).
Proof.
  apply (date_step_guards read_HM db_c1 s_at_date msg_yesterday 1 None None None day0 0 8).
  reflexivity.
Defined.

(** * The order of the fetched rows *)

Lemma forallb_same_elements {A : Type} (f : A -> bool) (l l' : list A) :
  (forall x, In x l <-> In x l') -> forallb f l = forallb f l'.
Proof.
  intros H. apply bool_eq_iff. rewrite !forallb_forall.
  split; intros Hf x Hx; apply Hf, H, Hx.
Qed.

Lemma fetch_booked_same_rows d d' date :
  programs d' = programs d ->
  (forall b, In b (bookings d) <-> In b (bookings d')) ->
  forall r, In r (fetch_booked d date) <-> In r (fetch_booked d' date).
Proof.
  intros Hp Hb r. unfold fetch_booked. rewrite !filter_In, !in_flat_map, Hp.
  split; intros ((b & Hin & Hr) & Hd); (split; [|exact Hd]); exists b;
    (split; [apply Hb; exact Hin | exact Hr]).
Qed.

(** X20.  The query for the bookings of the date has no ORDER BY; the
    answer does not depend on the order, nor on repeated rows: two tables
    with the same catalog and the same set of bookings give the same hours
    whenever [get_available_hours] returns on both. *)
Theorem row_order_does_not_matter d d' pid date now :
  programs d' = programs d ->
  (forall b, In b (bookings d) <-> In b (bookings d')) ->
  forall hs hs',
    get_available_hours d pid date now = Ok hs ->
    get_available_hours d' pid date now = Ok hs' ->
    hs' = hs.
Proof.
  intros Hp Hb hs hs' H H'. unfold get_available_hours in *.
  apply bind_Ok in H. destruct H as (st & Est & H). inversion H; subst hs; clear H.
  apply bind_Ok in H'. destruct H' as (st' & Est' & H'). inversion H'; subst hs'; clear H'.
  f_equal.
  destruct (fetch_duration d pid) as [D|] eqn:HD.
  - pose proof HD as HD'. rewrite <- (fetch_duration_programs _ _ _ Hp) in HD'.
    apply (available_starts_Ok _ _ _ _ _ _ HD) in Est.
    apply (available_starts_Ok _ _ _ _ _ _ HD') in Est'. subst st st'.
    unfold kept_starts. apply filter_ext. intros S. unfold keeps. f_equal.
    apply forallb_same_elements. intros r. symmetry.
    apply fetch_booked_same_rows; assumption.
  - unfold available_starts in Est, Est'.
    rewrite (fetch_duration_programs _ _ _ Hp) in Est'. rewrite HD in Est, Est'.
    inversion Est. inversion Est'. reflexivity.
Qed.

Lemma row_order_does_not_matter_witness :
  exists hs hs',
    get_available_hours db_queue 1 day0 0 = Ok hs
    /\ get_available_hours (mkDb (programs db_queue) [] (rev (bookings db_queue))) 1 day0 0
       = Ok hs'
    /\ hs' = hs.
Proof.
  exists ["13:00"; "14:00"; "15:00"; "16:00"; "17:00"; "18:00"; "19:00"; "20:00"]%string.
  exists ["13:00"; "14:00"; "15:00"; "16:00"; "17:00"; "18:00"; "19:00"; "20:00"]%string.
  split; [reflexivity|]. split; [reflexivity|].
  apply (row_order_does_not_matter db_queue
           (mkDb (programs db_queue) [] (rev (bookings db_queue))) 1 day0 0).
  - reflexivity.
  - intros b. cbn [bookings]. apply in_rev.
  - reflexivity.
  - reflexivity.
Defined.
